(** * Agentic RAG with a ReAct agent: retrieval pipeline, sufficiency gate
      and orchestration graph

    A shallow embedding of

    - [src/vectorstore/vectorstore.py]  (class [VectorStore]),
    - [src/node/reactnode.py]           (class [RAGNodes]),
    - [src/graph_builder/graph_builder.py] (class [GraphBuilder]),
    - the chat handler of [streamlit_app.py],

    followed by the properties of the specification that concern them.

    Conventions.  Python [str] is [string]; [lower] and [strip] act on the
    ASCII range, bytes above 127 are left alone, and what is stated of them
    as Python's is stated of ASCII text ([PyStr.is_ascii]).  Relevance scores are
    rationals.  A Python call that may raise returns an [outcome]; code that
    talks to the language model, the retriever or the agent lives in the
    monad [M], which threads the trace of external calls and the lazily built
    agent of [RAGNodes]. *)

From Stdlib Require Import String Ascii List Bool Arith NArith ZArith QArith Lia.
From Stdlib Require Import Permutation Sorted SetoidList SetoidPermutation.
From Stdlib Require Import DecimalString.
Import ListNotations.
Close Scope Q_scope.
Local Open Scope list_scope.
Local Open Scope string_scope.

Set Implicit Arguments.

(* ------------------------------------------------------------------ *)
(** ** Python strings *)

Module PyStr.

Definition nl : string := String (ascii_of_nat 10) "".

(** [c.isupper()] on the ASCII range: 'A'..'Z'. *)
Definition is_upper (c : ascii) : bool :=
  let n := N_of_ascii c in ((65 <=? n) && (n <=? 90))%N.

Definition lower_char (c : ascii) : ascii :=
  if is_upper c then ascii_of_N (N_of_ascii c + 32) else c.

(** [s.lower()] on ASCII text (see [is_ascii] below): 'A'..'Z' become
    'a'..'z', every other character is left as it is. *)
Fixpoint lower (s : string) : string :=
  match s with
  | "" => ""
  | String c r => String (lower_char c) (lower r)
  end.

(** [c.isspace()] on the ASCII range: TAB, LF, VT, FF, CR, FS, GS, RS, US
    and the space. *)
Definition is_space (c : ascii) : bool :=
  let n := N_of_ascii c in
  (((9 <=? n) && (n <=? 13)) || ((28 <=? n) && (n <=? 32)))%N.

Fixpoint lstrip (s : string) : string :=
  match s with
  | "" => ""
  | String c r => if is_space c then lstrip r else s
  end.

Fixpoint rstrip (s : string) : string :=
  match s with
  | "" => ""
  | String c r =>
      match rstrip r with
      | "" => if is_space c then "" else String c ""
      | r' => String c r'
      end
  end.

(** [s.strip()] on ASCII text: the white space of [is_space] is removed at
    both ends. *)
Definition strip (s : string) : string := lstrip (rstrip s).

(** [sub in s] *)
Fixpoint contains (sub s : string) : bool :=
  prefix sub s ||
  match s with
  | "" => false
  | String _ r => contains sub r
  end.

Fixpoint all_chars (p : ascii -> bool) (s : string) : bool :=
  match s with
  | "" => true
  | String c r => p c && all_chars p r
  end.

(** No white space anywhere in [t]. *)
Definition no_space (t : string) : Prop :=
  all_chars (fun c => negb (is_space c)) t = true.

(** Two characters that are the same up to the case of an ASCII letter. *)
Definition same_letter (a b : ascii) : Prop :=
  a = b
  \/ (is_upper a = true /\ N_of_ascii b = (N_of_ascii a + 32)%N)
  \/ (is_upper b = true /\ N_of_ascii a = (N_of_ascii b + 32)%N).

Inductive eq_nocase : string -> string -> Prop :=
| eq_nocase_nil : eq_nocase "" ""
| eq_nocase_cons (a b : ascii) (s t : string) :
    same_letter a b -> eq_nocase s t ->
    eq_nocase (String a s) (String b t).

(** The specification's reading of the judge's answer, independent of
    [lower], [strip] and [contains]: somewhere in [text] stands a piece
    that is [token] up to letter case. *)
Definition occurs_nocase (token text : string) : Prop :=
  exists pre mid post,
    text = pre ++ mid ++ post /\ eq_nocase mid token.

(** [sep.join(parts)] *)
Definition join (sep : string) (parts : list string) : string :=
  String.concat sep parts.

(** Text made of ASCII characters only.  On such text [lower] and [strip]
    are Python's [str.lower] and [str.strip]; outside it Python also knows
    letters and white space that these definitions leave alone. *)
Definition is_ascii (s : string) : Prop :=
  all_chars (fun c => (N_of_ascii c <? 128)%N) s = true.

End PyStr.

(* ------------------------------------------------------------------ *)
(** ** Exceptions and outcomes *)

(** A raised exception, an instance of [Exception]: its class and [str(e)]. *)
Inductive exn : Type := Exn (cls : string) (msg : string).

Definition str (e : exn) : string := let 'Exn _ m := e in m.

Inductive outcome (A : Type) : Type :=
| Ok (a : A)
| Raise (e : exn).

Arguments Ok {A} a.
Arguments Raise {A} e.

(* ------------------------------------------------------------------ *)
(** ** Documents *)

(** [langchain_core.documents.Document]: text and metadata. *)
Record Document : Type := mkDocument {
  page_content : string;
  metadata : list (string * string)
}.

Definition Document_eq_dec (a b : Document) : {a = b} + {a <> b}.
Proof. repeat decide equality. Defined.

Definition Document_eqb (a b : Document) : bool :=
  if Document_eq_dec a b then true else false.

(* ------------------------------------------------------------------ *)
(** ** vectorstore.py *)

Module VectorStoreM.

(** §3 ScoredDocument: a document with the score of the current stage. *)
Definition ScoredDocument : Type := (Document * Q)%type.

(** Same document, equal score. *)
Definition eq_scored (a b : ScoredDocument) : Prop :=
  fst a = fst b /\ (snd a == snd b)%Q.

(** [sorted(xs, key=key, reverse=True)]: stable, highest key first. *)
Section SortedDesc.
Context {A : Type} (key : A -> Q).

Fixpoint insert_desc (x : A) (l : list A) : list A :=
  match l with
  | [] => [x]
  | y :: r =>
      if Qle_bool (key y) (key x) then x :: l else y :: insert_desc x r
  end.

Definition sorted_desc (l : list A) : list A :=
  fold_right insert_desc [] l.

(** [a] may stand before [b]: the key of [b] is not above the key of
    [a]. *)
Definition desc (a b : A) : Prop := (key b <= key a)%Q.
End SortedDesc.

(** First occurrences, in order. *)
Fixpoint unique (l : list Document) : list Document :=
  match l with
  | [] => []
  | d :: r => d :: filter (fun x => negb (Document_eqb x d)) (unique r)
  end.

(** The models behind the three library components, and whether each
    component can be constructed ([Some e]: its constructor raises [e]). *)
Record Models : Type := mkModels {
  dense_score : string -> Document -> Q;   (* embedding similarity *)
  sparse_score : string -> Document -> Q;  (* BM25 statistic *)
  rerank_score : string -> Document -> Q;  (* cross-encoder relevance *)
  dense_unavailable : option exn;
  sparse_unavailable : option exn;
  reranker_unavailable : option exn
}.

Definition IndexRetriever : Type := string -> list ScoredDocument.

(** Modelled from the spec: the Dense and the Sparse Index (FAISS and BM25
    of langchain, not part of the sources).  §4.1 steps 1 and 2: an index
    returns its top [k] documents by its score for the query. *)
Definition top_k (k : nat) (score : string -> Document -> Q)
    (documents : list Document) : IndexRetriever :=
  fun query =>
    firstn k (sorted_desc snd (map (fun d => (d, score query d)) documents)).

(** What an index constructor of the library raises on an empty list of
    documents: FAISS takes the dimension from the first embedding, BM25
    divides by the size of the corpus. *)
Definition empty_dense_index : exn :=
  Exn "IndexError" "list index out of range".

Definition empty_sparse_index : exn :=
  Exn "ZeroDivisionError" "division by zero".

(** [FAISS.from_documents(documents, self.embeddings)]: the index over the
    documents, or the exception of an unavailable embedding service, or
    [IndexError] when there is no document. *)
Definition FAISS_from_documents (m : Models) (documents : list Document)
    : outcome (list Document) :=
  match dense_unavailable m with
  | Some e => Raise e
  | None =>
      match documents with
      | [] => Raise empty_dense_index
      | _ :: _ => Ok documents
      end
  end.

(** [vectorstore.as_retriever(search_kwargs={"k": k})] *)
Definition as_retriever (m : Models) (vectorstore : list Document) (k : nat)
    : IndexRetriever :=
  top_k k (dense_score m) vectorstore.

(** [BM25Retriever.from_documents(documents)]: the index, or the exception
    of an unavailable index, or [ZeroDivisionError] when there is no
    document. *)
Definition BM25Retriever_from_documents (m : Models)
    (documents : list Document) : outcome (list Document) :=
  match sparse_unavailable m with
  | Some e => Raise e
  | None =>
      match documents with
      | [] => Raise empty_sparse_index
      | _ :: _ => Ok documents
      end
  end.

(** [HuggingFaceCrossEncoder(model_name="BAAI/bge-reranker-base")] *)
Definition HuggingFaceCrossEncoder (m : Models)
    : outcome (string -> Document -> Q) :=
  match reranker_unavailable m with
  | Some e => Raise e
  | None => Ok (rerank_score m)
  end.

(** What one candidate list contributes to a document: the scores of its
    entries for that document, accumulated. *)
Definition list_score (l : list ScoredDocument) (d : Document) : Q :=
  fold_right
    (fun sd acc => if Document_eqb (fst sd) d then (snd sd + acc)%Q else acc)
    0%Q l.

Definition fused_score (ws : list Q) (doc_lists : list (list ScoredDocument))
    (d : Document) : Q :=
  fold_right (fun wl acc => (fst wl * list_score (snd wl) d + acc)%Q)
    0%Q (combine ws doc_lists).

(** Modelled from the spec: the Fusion Retriever (langchain's
    EnsembleRetriever, not part of the sources).  §4.1 step 3: weighted
    score combination; a document found in several lists accumulates the
    weighted sum of its scores, one found in a single list keeps its single
    weighted score; one deduplicated list, ties left in original rank
    order. *)
Definition fusion (ws : list Q) (doc_lists : list (list ScoredDocument))
    : list ScoredDocument :=
  let candidates := unique (concat (map (map fst) doc_lists)) in
  sorted_desc snd (map (fun d => (d, fused_score ws doc_lists d)) candidates).

Record EnsembleRetriever : Type := mkEnsemble {
  retrievers : list IndexRetriever;
  weights : list Q
}.

Definition ensemble_invoke (e : EnsembleRetriever) (query : string)
    : list ScoredDocument :=
  fusion (weights e) (map (fun r => r query) (retrievers e)).

Record CrossEncoderReranker : Type := mkReranker {
  model : string -> Document -> Q;
  top_n : nat
}.

(** Modelled from the spec: the Reranker (langchain's CrossEncoderReranker,
    not part of the sources).  §4.1 step 4: every candidate is scored
    against the query, the candidates are re-sorted by this score alone and
    truncated to [top_n]. *)
Definition compress_documents (r : CrossEncoderReranker)
    (documents : list Document) (query : string) : list Document :=
  map fst
    (firstn (top_n r)
       (sorted_desc snd (map (fun d => (d, model r query d)) documents))).

Record ContextualCompressionRetriever : Type := mkCompression {
  base_compressor : CrossEncoderReranker;
  base_retriever : EnsembleRetriever
}.

(** Modelled from the spec: the Hybrid Retrieval Engine's composition
    (langchain's ContextualCompressionRetriever, not part of the sources):
    the fused candidates go through the reranker. *)
Definition invoke (r : ContextualCompressionRetriever) (query : string)
    : list Document :=
  compress_documents (base_compressor r)
    (map fst (ensemble_invoke (base_retriever r) query)) query.

(** The object: [self.vectorstore] and [self.retriever]. *)
Record VectorStore : Type := mkVectorStore {
  vectorstore : option (list Document);
  retriever : option ContextualCompressionRetriever
}.

(** [VectorStore.__init__] *)
Definition init : VectorStore :=
  {| vectorstore := None; retriever := None |}.

Definition not_initialized : exn :=
  Exn "ValueError"
      "Vector store not initialized. Call create_vectorstore first.".

(** [VectorStore.create_vectorstore]: the outcome and the object after the
    call.  A constructor that raises leaves the method at that point. *)
Definition create_vectorstore (m : Models) (self : VectorStore)
    (documents : list Document) : outcome unit * VectorStore :=
  match FAISS_from_documents m documents with
  | Raise e => (Raise e, self)
  | Ok vs =>
      let self1 := {| vectorstore := Some vs; retriever := retriever self |} in
      let faiss_retriever := as_retriever m vs 10 in
      match BM25Retriever_from_documents m documents with
      | Raise e => (Raise e, self1)
      | Ok corpus =>
          let bm25_retriever := top_k 10 (sparse_score m) corpus in
          let ensemble_retriever :=
            {| retrievers := [bm25_retriever; faiss_retriever];
               weights := [1 # 2; 1 # 2]%Q |} in
          match HuggingFaceCrossEncoder m with
          | Raise e => (Raise e, self1)
          | Ok cross_encoder_model =>
              let reranker :=
                {| model := cross_encoder_model; top_n := 3 |} in
              (Ok tt,
               {| vectorstore := Some vs;
                  retriever :=
                    Some {| base_compressor := reranker;
                            base_retriever := ensemble_retriever |} |})
          end
      end
  end.

(** [VectorStore.get_retriever] *)
Definition get_retriever (self : VectorStore)
    : outcome ContextualCompressionRetriever :=
  match retriever self with
  | None => Raise not_initialized
  | Some r => Ok r
  end.

(** [VectorStore.retrieve] *)
Definition retrieve (self : VectorStore) (query : string)
    : outcome (list Document) :=
  match retriever self with
  | None => Raise not_initialized
  | Some r => Ok (invoke r query)
  end.

End VectorStoreM.

(* ------------------------------------------------------------------ *)
(** ** Conversation state, messages and the world outside *)

(** Modelled from the spec: RAGState ([src/state/rag_state.py] is not part of
    the sources).  §3 SessionState: the question, and the optional retrieved
    documents and answer of the current turn. *)
Record RAGState : Type := mkRAGState {
  question : string;
  retrieved_docs : option (list Document);
  answer : option string
}.

(** The dictionary of updated fields a node returns. *)
Record Update : Type := mkUpdate {
  set_retrieved_docs : option (list Document);
  set_answer : option string
}.

Definition apply_update (s : RAGState) (u : Update) : RAGState :=
  {| question := question s;
     retrieved_docs :=
       match set_retrieved_docs u with
       | Some d => Some d
       | None => retrieved_docs s
       end;
     answer :=
       match set_answer u with
       | Some a => Some a
       | None => answer s
       end |}.

Inductive Role : Type := system | user | assistant | tool.

Record Message : Type := mkMessage { role : Role; content : string }.

(** A compiled ReAct agent: [agent.invoke({"messages": msgs})["messages"]]. *)
Definition Agent : Type := list Message -> outcome (list Message).

(** The collaborators of one deployment.  Each may raise. *)
Record World : Type := mkWorld {
  (* [(prompt | llm).invoke(vars).content] on the formatted messages *)
  llm_invoke : list Message -> outcome string;
  (* [retriever.invoke(query)] *)
  retriever_invoke : string -> outcome (list Document);
  (* [create_react_agent(llm, tools, prompt=prompt)] on the tools of
     [_build_tools] *)
  create_react_agent : outcome Agent
}.

(** What a turn does to the outside, in order. *)
Inductive Event : Type :=
| EvNode (name : string)            (* the graph enters a node *)
| EvLLM (messages : list Message)   (* one request to the language model *)
| EvRetriever (query : string)      (* one request to the retriever *)
| EvBuildAgent                      (* the agent is constructed *)
| EvAgent (messages : list Message) (* one run of the agent *).

(** The mutable part: the trace and [RAGNodes._agent]. *)
Record Heap : Type := mkHeap {
  trace : list Event;
  _agent : option Agent
}.

Definition M (A : Type) : Type := Heap -> outcome A * Heap.

Definition ret {A} (a : A) : M A := fun h => (Ok a, h).

Definition bind {A B} (c : M A) (k : A -> M B) : M B :=
  fun h =>
    match c h with
    | (Ok a, h') => k a h'
    | (Raise e, h') => (Raise e, h')
    end.

Definition raise {A} (e : exn) : M A := fun h => (Raise e, h).

(** [try: body  except Exception as e: handler(e)] *)
Definition try_except {A} (body : M A) (handler : exn -> M A) : M A :=
  fun h =>
    match body h with
    | (Ok a, h') => (Ok a, h')
    | (Raise e, h') => handler e h'
    end.

Notation "x <- c ;; k" := (bind c (fun x => k))
  (at level 61, c at next level, right associativity).
Notation "c ;;; k" := (bind c (fun _ => k))
  (at level 61, right associativity).

Definition record (ev : Event) (h : Heap) : Heap :=
  {| trace := (trace h ++ [ev])%list; _agent := _agent h |}.

Definition emit (ev : Event) : M unit := fun h => (Ok tt, record ev h).

(** The nodes a trace went through, and the requests to the language model
    it holds. *)
Fixpoint node_trace (t : list Event) : list string :=
  match t with
  | [] => []
  | EvNode name :: r => name :: node_trace r
  | _ :: r => node_trace r
  end.

Fixpoint llm_calls (t : list Event) : list (list Message) :=
  match t with
  | [] => []
  | EvLLM messages :: r => messages :: llm_calls r
  | _ :: r => llm_calls r
  end.

Definition lift {A} (o : outcome A) : M A := fun h => (o, h).

Definition call_llm (w : World) (messages : list Message) : M string :=
  emit (EvLLM messages) ;;; lift (llm_invoke w messages).

Definition call_retriever (w : World) (query : string) : M (list Document) :=
  emit (EvRetriever query) ;;; lift (retriever_invoke w query).

Definition call_agent (a : Agent) (messages : list Message)
    : M (list Message) :=
  emit (EvAgent messages) ;;; lift (a messages).

(* ------------------------------------------------------------------ *)
(** ** node/reactnode.py *)

Module RAGNodes.

(** [RAGNodes._build_agent]: builds the tools and the agent, stores it. *)
Definition _build_agent (w : World) : M unit :=
  emit EvBuildAgent ;;;
  a <- lift (create_react_agent w) ;;
  fun h => (Ok tt, {| trace := trace h; _agent := Some a |}).

(** The agent [generate_answer] runs from heap [h]: the stored one, else
    the one [_build_agent] constructs. *)
Definition agent_of (w : World) (h : Heap) : outcome Agent :=
  match _agent h with
  | Some a => Ok a
  | None => create_react_agent w
  end.

(** [RAGNodes.retrieve_docs] *)
Definition retrieve_docs (w : World) (state : RAGState) : M Update :=
  let question := question state in
  try_except
    (docs <- call_retriever w question ;;
     ret {| set_retrieved_docs := Some docs; set_answer := None |})
    (fun e => ret {| set_retrieved_docs := Some []; set_answer := None |}).

Definition index_out_of_range : exn :=
  Exn "IndexError" "list index out of range".

(** [messages[-1].content] *)
Definition last_content (messages : list Message) : M string :=
  match rev messages with
  | [] => raise index_out_of_range
  | m :: _ => ret (content m)
  end.

(** The update that carries the agent's error as the answer. *)
Definition agent_error (e : exn) : Update :=
  {| set_retrieved_docs := None;
     set_answer := Some ("Erreur de l'agent : " ++ str e) |}.

(** [RAGNodes.generate_answer] *)
Definition generate_answer (w : World) (state : RAGState) : M Update :=
  (fun h => match _agent h with
            | None => _build_agent w h
            | Some _ => (Ok tt, h)
            end) ;;;
  let question := question state in
  try_except
    (agent <- (fun h => match _agent h with
                        | Some a => (Ok a, h)
                        | None => (Raise (Exn "AttributeError"
                             "'NoneType' object has no attribute 'invoke'"), h)
                        end) ;;
     result <- call_agent agent [ {| role := user; content := question |} ] ;;
     answer <- last_content result ;;
     ret {| set_retrieved_docs := None;
            set_answer :=
              Some (if (answer =? "")%string
                    then "Impossible de générer une réponse."
                    else answer) |})
    (fun e =>
       ret {| set_retrieved_docs := None;
              set_answer := Some ("Erreur de l'agent : " ++ str e) |}).

(** [RAGNodes._execute_retriever]: the retriever as a tool of the agent. *)
Definition _execute_retriever (w : World) (query : string) : M string :=
  try_except
    (docs <- call_retriever w query ;;
     match docs with
     | [] => ret "Aucun document trouvé pour cette requête."
     | _ =>
         ret (PyStr.join (PyStr.nl ++ PyStr.nl)
                (map (fun id => "Source " ++ fst id ++ ":" ++ PyStr.nl
                                ++ page_content (snd id))
                     (combine (map (fun i => NilEmpty.string_of_uint
                                      (Nat.to_uint (S i)))
                                 (seq 0 (List.length docs)))
                              docs)))
     end)
    (fun e =>
       ret ("Erreur lors de la récupération des documents : " ++ str e)).

End RAGNodes.

(* ------------------------------------------------------------------ *)
(** ** graph_builder/graph_builder.py *)

Module GraphBuilder.

Import PyStr.

Definition judge_system_prompt : string :=
  "Vous êtes un arbitre expert. Votre rôle est de déterminer si les documents fournis contiennent suffisamment d'informations pour répondre de manière complète à la question de l'utilisateur. "
  ++ "Répondez uniquement par 'oui' si les documents sont suffisants, et 'non' s'ils ne le sont pas ou si des informations externes sont nécessaires.".

(** The judge's request for a question and a context. *)
Definition judge_messages (question context : string) : list Message :=
  [ {| role := system; content := judge_system_prompt |};
    {| role := user;
       content := "Question: " ++ question ++ nl ++ nl
                  ++ "Documents:" ++ nl ++ context |} ].

(** The documents as the judge reads them. *)
Definition judge_context (docs : list Document) : string :=
  join (nl ++ nl ++ "---" ++ nl ++ nl) (map page_content docs).

(** [GraphBuilder._decide_next_step] *)
Definition _decide_next_step (w : World) (state : RAGState) : M string :=
  let docs := retrieved_docs state in
  let question := question state in
  match docs with
  | None | Some [] => ret "agent_search"
  | Some docs =>
      let context := judge_context docs in
      response <- call_llm w (judge_messages question context) ;;
      let decision := lower (strip response) in
      if contains "oui" decision
      then ret "generate_direct"
      else ret "agent_search"
  end.

Definition direct_messages (context question : string) : list Message :=
  [ {| role := system;
       content := "Vous êtes un assistant expert en RAG. Répondez à la question en vous basant uniquement sur le contexte suivant:"
                  ++ nl ++ nl ++ context |};
    {| role := user; content := "Question: " ++ question |} ].

(** The documents as the direct generator reads them. *)
Definition direct_context (docs : list Document) : string :=
  join (nl ++ nl) (map page_content docs).

(** [GraphBuilder._generate_direct_answer] *)
Definition _generate_direct_answer (w : World) (state : RAGState)
    : M Update :=
  let question := question state in
  match retrieved_docs state with
  | None => raise (Exn "TypeError" "'NoneType' object is not iterable")
  | Some docs =>
      let context := direct_context docs in
      response <- call_llm w (direct_messages context question) ;;
      ret {| set_retrieved_docs := None; set_answer := Some response |}
  end.

(** *** The state graph *)

Definition END : string := "__end__".

Record StateGraph : Type := mkStateGraph {
  nodes : list (string * (RAGState -> M Update));
  entry_point : option string;
  branches : list (string * ((RAGState -> M string) * list (string * string)));
  edges : list (string * string)
}.

Definition empty_graph : StateGraph :=
  {| nodes := []; entry_point := None; branches := []; edges := [] |}.

Definition add_node (name : string) (action : RAGState -> M Update)
    (g : StateGraph) : StateGraph :=
  {| nodes := (nodes g ++ [(name, action)])%list; entry_point := entry_point g;
     branches := branches g; edges := edges g |}.

Definition set_entry_point (name : string) (g : StateGraph) : StateGraph :=
  {| nodes := nodes g; entry_point := Some name;
     branches := branches g; edges := edges g |}.

Definition add_conditional_edges (source : string)
    (path : RAGState -> M string) (path_map : list (string * string))
    (g : StateGraph) : StateGraph :=
  {| nodes := nodes g; entry_point := entry_point g;
     branches := (branches g ++ [(source, (path, path_map))])%list;
     edges := edges g |}.

Definition add_edge (start_key end_key : string) (g : StateGraph)
    : StateGraph :=
  {| nodes := nodes g; entry_point := entry_point g;
     branches := branches g; edges := (edges g ++ [(start_key, end_key)])%list |}.

(** [GraphBuilder.build]: the graph it wires.  Saving the picture of the
    graph is guarded by its own [try] and does not touch the graph. *)
Definition build (w : World) : StateGraph :=
  let builder := empty_graph in
  let builder := add_node "retriever" (RAGNodes.retrieve_docs w) builder in
  let builder :=
    add_node "generate_direct" (_generate_direct_answer w) builder in
  let builder :=
    add_node "agent_search" (RAGNodes.generate_answer w) builder in
  let builder := set_entry_point "retriever" builder in
  let builder :=
    add_conditional_edges "retriever" (_decide_next_step w)
      [("generate_direct", "generate_direct");
       ("agent_search", "agent_search")] builder in
  let builder := add_edge "generate_direct" END builder in
  let builder := add_edge "agent_search" END builder in
  builder.

Fixpoint lookup {V : Type} (k : string) (l : list (string * V)) : option V :=
  match l with
  | [] => None
  | (k', v) :: r => if (k =? k')%string then Some v else lookup k r
  end.

(** Where control goes after node [cur] has updated the state: through the
    node's conditional edge when it has one, else along its plain edge. *)
Definition next_node (g : StateGraph) (cur : string) (state : RAGState)
    : M string :=
  match lookup cur (branches g) with
  | Some (path, path_map) =>
      r <- path state ;;
      match lookup r path_map with
      | Some target => ret target
      | None => raise (Exn "KeyError" r)
      end
  | None =>
      match lookup cur (edges g) with
      | Some target => ret target
      | None => ret END
      end
  end.

(** One node per step, from [cur] until [END]; [fuel] is the recursion
    limit of the runtime. *)
Fixpoint run_from (fuel : nat) (g : StateGraph) (cur : string)
    (state : RAGState) : M RAGState :=
  if (cur =? END)%string then ret state
  else
    match fuel with
    | O => raise (Exn "GraphRecursionError" "Recursion limit reached")
    | S fuel' =>
        match lookup cur (nodes g) with
        | None => raise (Exn "KeyError" cur)
        | Some action =>
            emit (EvNode cur) ;;;
            u <- action state ;;
            let state' := apply_update state u in
            nxt <- next_node g cur state' ;;
            run_from fuel' g nxt state'
        end
    end.

Definition recursion_limit : nat := 25.

(** [graph.invoke(initial_state, config)] on the state of the thread. *)
Definition graph_invoke (g : StateGraph) (state : RAGState) : M RAGState :=
  match entry_point g with
  | None => raise (Exn "ValueError" "Graph must have an entrypoint")
  | Some start => run_from recursion_limit g start state
  end.

(** The state a turn starts from: what the checkpointer holds for the
    thread, with the question of the input [{"question": question}] written
    over it. *)
Definition initial_state (checkpoint : string -> option RAGState)
    (question : string) (thread_id : string) : RAGState :=
  match checkpoint thread_id with
  | Some s =>
      {| question := question; retrieved_docs := retrieved_docs s;
         answer := answer s |}
  | None =>
      {| question := question; retrieved_docs := None; answer := None |}
  end.

(** [GraphBuilder.run], on the graph of [build]; [checkpoint] is what the
    checkpointer holds when the turn begins. *)
Definition run (w : World) (checkpoint : string -> option RAGState)
    (question : string) (thread_id : string) : M RAGState :=
  graph_invoke (build w) (initial_state checkpoint question thread_id).

(** What an answering node leaves: the updated state, or its exception. *)
Definition finish (state : RAGState) (r : outcome Update * Heap)
    : outcome RAGState * Heap :=
  match r with
  | (Ok u, h) => (Ok (apply_update state u), h)
  | (Raise e, h) => (Raise e, h)
  end.

(** For stating properties of a turn: the state and the heap when the
    retrieval node has run, and what the gate then returns. *)
Definition after_retriever (w : World)
    (checkpoint : string -> option RAGState) (question thread_id : string)
    (h : Heap) : RAGState * Heap :=
  let state := initial_state checkpoint question thread_id in
  match RAGNodes.retrieve_docs w state (record (EvNode "retriever") h) with
  | (Ok u, h1) => (apply_update state u, h1)
  | (Raise _, h1) => (state, h1)
  end.

Definition gate_outcome (w : World)
    (checkpoint : string -> option RAGState) (question thread_id : string)
    (h : Heap) : outcome string :=
  let '(state, h1) := after_retriever w checkpoint question thread_id h in
  fst (_decide_next_step w state h1).

End GraphBuilder.

(* ------------------------------------------------------------------ *)
(** ** streamlit_app.py: the chat handler *)

Module App.

(** What the assistant's placeholder shows. *)
Inductive Shown : Type :=
| markdown (text : string)
| error (text : string).

(** The body of the [try] around [rag_system.run] in [main]. *)
Definition handle_question (w : World)
    (checkpoint : string -> option RAGState)
    (question thread_id : string) : M Shown :=
  try_except
    (result <- GraphBuilder.run w checkpoint question thread_id ;;
     let answer :=
       match answer result with
       | Some a => a
       | None => "Désolé, une erreur est survenue lors de la génération de la réponse."
       end in
     ret (markdown answer))
    (fun e =>
       ret (error "Désolé, une erreur technique est survenue. Veuillez vérifier les logs.")).

End App.

(* ------------------------------------------------------------------ *)
(** ** Sample deployments *)

Module Samples.

Definition paris : Document :=
  {| page_content := "Paris is the capital of France.";
     metadata := [("source", "Texte brut")] |}.

Definition berlin : Document :=
  {| page_content := "Berlin is the capital of Germany.";
     metadata := [("source", "Texte brut")] |}.

Definition rome : Document :=
  {| page_content := "Rome"; metadata := [("source", "atlas.pdf")] |}.

Definition madrid : Document :=
  {| page_content := "Madrid"; metadata := [("source", "atlas.pdf")] |}.

Definition corpus : list Document := [paris; berlin; rome; madrid].

(** Scores read off the length of the text. *)
Definition by_length (_ : string) (d : Document) : Q :=
  (Z.of_nat (String.length (page_content d)) # 1)%Q.

Definition by_brevity (_ : string) (d : Document) : Q :=
  (1 # Pos.of_succ_nat (String.length (page_content d)))%Q.

Definition mentions (query : string) (d : Document) : Q :=
  if PyStr.contains query (page_content d) then (9 # 10)%Q else (1 # 10)%Q.

Definition models : VectorStoreM.Models :=
  {| VectorStoreM.dense_score := by_length;
     VectorStoreM.sparse_score := by_brevity;
     VectorStoreM.rerank_score := mentions;
     VectorStoreM.dense_unavailable := None;
     VectorStoreM.sparse_unavailable := None;
     VectorStoreM.reranker_unavailable := None |}.

Definition connection_error : exn :=
  Exn "ConnectionError" "connection refused".

(** The embedding service is down while the store is built. *)
Definition models_dense_down : VectorStoreM.Models :=
  {| VectorStoreM.dense_score := by_length;
     VectorStoreM.sparse_score := by_brevity;
     VectorStoreM.rerank_score := mentions;
     VectorStoreM.dense_unavailable := Some connection_error;
     VectorStoreM.sparse_unavailable := None;
     VectorStoreM.reranker_unavailable := None |}.

Definition is_judge_request (messages : list Message) : bool :=
  match messages with
  | m :: _ => (content m =? GraphBuilder.judge_system_prompt)%string
  | [] => false
  end.

Definition echo_agent : Agent :=
  fun messages =>
    Ok (messages ++ [ {| role := assistant; content := "42" |} ])%list.

Definition failing_agent : Agent := fun _ => Raise connection_error.

(** The judge says yes, the generator answers. *)
Definition world_sufficient : World :=
  {| llm_invoke := fun messages =>
       if is_judge_request messages then Ok " Oui. " else Ok "Paris.";
     retriever_invoke := fun _ => Ok [paris];
     create_react_agent := Ok echo_agent |}.

(** The judge says no. *)
Definition world_insufficient : World :=
  {| llm_invoke := fun _ => Ok "non";
     retriever_invoke := fun _ => Ok [paris];
     create_react_agent := Ok echo_agent |}.

(** The language model is unreachable. *)
Definition world_llm_down : World :=
  {| llm_invoke := fun _ => Raise connection_error;
     retriever_invoke := fun _ => Ok [paris];
     create_react_agent := Ok echo_agent |}.

(** The judge says yes, then the language model fails. *)
Definition world_generator_down : World :=
  {| llm_invoke := fun messages =>
       if is_judge_request messages then Ok "oui"
       else Raise connection_error;
     retriever_invoke := fun _ => Ok [paris];
     create_react_agent := Ok echo_agent |}.

(** The retriever raises. *)
Definition world_retriever_down : World :=
  {| llm_invoke := fun _ => Ok "oui";
     retriever_invoke := fun _ => Raise connection_error;
     create_react_agent := Ok echo_agent |}.

(** The agent's own reasoning call fails. *)
Definition world_agent_down : World :=
  {| llm_invoke := fun _ => Ok "non";
     retriever_invoke := fun _ => Ok [paris];
     create_react_agent := Ok failing_agent |}.

Definition fresh : Heap := {| trace := []; _agent := None |}.

Definition no_checkpoint : string -> option RAGState := fun _ => None.

Definition retrieved (q : string) (docs : list Document) : RAGState :=
  {| question := q; retrieved_docs := Some docs; answer := None |}.

End Samples.

(* ------------------------------------------------------------------ *)
(** ** Reading a trace *)

Module Trace.

(** How often the agent was constructed. *)
Fixpoint agent_builds (t : list Event) : nat :=
  match t with
  | [] => 0
  | EvBuildAgent :: r => S (agent_builds r)
  | _ :: r => agent_builds r
  end.

(** The queries sent to the retriever. *)
Fixpoint retriever_calls (t : list Event) : list string :=
  match t with
  | [] => []
  | EvRetriever query :: r => query :: retriever_calls r
  | _ :: r => retriever_calls r
  end.

(** What a step adds to the trace: no request to the retriever and at most
    [n] requests to the language model. *)
Definition adds_at_most (n : nat) (h h' : Heap) : Prop :=
  exists t,
    trace h' = (trace h ++ t)%list
    /\ retriever_calls t = []
    /\ List.length (llm_calls t) <= n.

End Trace.

(* ------------------------------------------------------------------ *)
(** ** More of Python's strings *)

Module PyText.

(** [s.startswith(pre)] *)
Definition startswith (pre s : string) : bool := prefix pre s.

(** [bool(s)] *)
Definition truthy (s : string) : bool := negb (s =? "")%string.

(** [s.split(sep)] for a separator of one character. *)
Fixpoint split (sep : ascii) (s : string) : list string :=
  match s with
  | "" => [""]
  | String c r =>
      if Ascii.eqb c sep then "" :: split sep r
      else
        match split sep r with
        | piece :: pieces => String c piece :: pieces
        | [] => [String c ""]
        end
  end.

(** [s.replace(old, new)] for a non-empty [old]: the occurrences of [old]
    found from left to right, none overlapping the one before.  [skip]
    counts the characters of a found occurrence still to pass over. *)
Fixpoint replace_from (old new : string) (skip : nat) (s : string) : string :=
  match s with
  | "" => ""
  | String c r =>
      match skip with
      | S k => replace_from old new k r
      | O =>
          if prefix old s
          then new ++ replace_from old new (String.length old - 1) r
          else String c (replace_from old new 0 r)
      end
  end.

Definition replace (old new s : string) : string := replace_from old new 0 s.

(** [s[:n]] *)
Definition take (n : nat) (s : string) : string := substring 0 n s.

(** [str(n)] for a natural number. *)
Definition str_nat (n : nat) : string := NilEmpty.string_of_uint (Nat.to_uint n).

(** [d.get(key, default)] on a dictionary of strings. *)
Fixpoint get (d : list (string * string)) (key default : string) : string :=
  match d with
  | [] => default
  | (k, v) :: r => if (k =? key)%string then v else get r key default
  end.

End PyText.

(* ------------------------------------------------------------------ *)
(** ** streamlit_app.py: session, construction and chat *)

Module Streamlit.

Import PyStr PyText.

(** An entry of [st.session_state.messages]. *)
Record ChatMessage : Type := mkChatMessage {
  msg_role : string;
  msg_content : string
}.

(** [st.session_state] as a dictionary: a key is absent ([None]) or holds
    its value.  The system held under 'rag_system' is the [GraphBuilder] of
    a deployment, or Python's [None]. *)
Record RawSession : Type := mkRawSession {
  raw_rag_system : option (option World);
  raw_initialized : option bool;
  raw_messages : option (list ChatMessage);
  raw_thread_id : option string
}.

(** [init_session_state]; [uuid8] is [str(uuid.uuid4())[:8]]. *)
Definition init_session_state (uuid8 : string) (s : RawSession) : RawSession :=
  let s :=
    match raw_rag_system s with
    | None =>
        {| raw_rag_system := Some None; raw_initialized := raw_initialized s;
           raw_messages := raw_messages s; raw_thread_id := raw_thread_id s |}
    | Some _ => s
    end in
  let s :=
    match raw_initialized s with
    | None =>
        {| raw_rag_system := raw_rag_system s; raw_initialized := Some false;
           raw_messages := raw_messages s; raw_thread_id := raw_thread_id s |}
    | Some _ => s
    end in
  let s :=
    match raw_messages s with
    | None =>
        {| raw_rag_system := raw_rag_system s;
           raw_initialized := raw_initialized s;
           raw_messages := Some []; raw_thread_id := raw_thread_id s |}
    | Some _ => s
    end in
  match raw_thread_id s with
  | None =>
      {| raw_rag_system := raw_rag_system s;
         raw_initialized := raw_initialized s;
         raw_messages := raw_messages s;
         raw_thread_id := Some ("cogniflow-" ++ uuid8) |}
  | Some _ => s
  end.

(** The session once every key is there. *)
Record Session : Type := mkSession {
  rag_system : option World;
  initialized : bool;
  messages : list ChatMessage;
  thread_id : string
}.

Definition complete (s : RawSession) : option Session :=
  match raw_rag_system s, raw_initialized s, raw_messages s, raw_thread_id s
  with
  | Some r, Some i, Some m, Some t =>
      Some {| rag_system := r; initialized := i; messages := m;
              thread_id := t |}
  | _, _, _, _ => None
  end.

(** What the page shows, in order. *)
Inductive Ui : Type :=
| ui_error (text : string)
| ui_warning (text : string)
| ui_success (text : string)
| ui_exception (e : exn)
| ui_markdown (text : string)
(* the expander "Voir les sources consultées" over the retrieved documents *)
| ui_expander (docs : list Document)
(* the caption "Temps de réponse", with the time measured *)
| ui_response_time.

(** A run of the script: the session, the heap of the system in it and the
    page. *)
Record AppState : Type := mkAppState {
  session : Session;
  heap : Heap;
  screen : list Ui
}.

Definition show (u : Ui) (a : AppState) : AppState :=
  {| session := session a; heap := heap a;
     screen := (screen a ++ [u])%list |}.

Definition set_session (s : Session) (a : AppState) : AppState :=
  {| session := s; heap := heap a; screen := screen a |}.

(** An uploaded file. *)
Record UploadedFile : Type := mkUploadedFile {
  file_name : string;
  file_data : string
}.

(** What the application constructs and reads from outside. *)
Record Services : Type := mkServices {
  (* [get_base_components()[0]]: the language model of [Config.get_llm] *)
  base_llm : outcome (list Message -> outcome string);
  (* [HuggingFaceEmbeddings(...)] in [VectorStore.__init__] *)
  embeddings_unavailable : option exn;
  models : VectorStoreM.Models;
  agent_factory : outcome Agent;
  (* [doc_processor.splitter.split_documents] *)
  split_documents : list Document -> outcome (list Document);
  (* [UnstructuredURLLoader(urls=urls, ...).load()] *)
  load_urls : list string -> outcome (list Document);
  (* [[page.extract_text() for page in PdfReader(file).pages]] *)
  pdf_pages : UploadedFile -> outcome (list string)
}.

(** [GraphBuilder(retriever=retriever, llm=llm)] as a deployment. *)
Definition make_graph_builder (svc : Services)
    (retriever : VectorStoreM.ContextualCompressionRetriever)
    (llm : list Message -> outcome string) : World :=
  {| llm_invoke := llm;
     retriever_invoke := fun query => Ok (VectorStoreM.invoke retriever query);
     create_react_agent := agent_factory svc |}.

(** The body of the [try] of [build_rag_system]: the system, or the
    exception that left it. *)
Definition construct (svc : Services) (documents : list Document)
    : outcome World :=
  match base_llm svc with
  | Raise e => Raise e
  | Ok llm =>
      match embeddings_unavailable svc with
      | Some e => Raise e
      | None =>
          let vector_store := VectorStoreM.init in
          match VectorStoreM.create_vectorstore (models svc) vector_store
                  documents with
          | (Raise e, _) => Raise e
          | (Ok _, vector_store) =>
              match VectorStoreM.get_retriever vector_store with
              | Raise e => Raise e
              | Ok retriever => Ok (make_graph_builder svc retriever llm)
              end
          end
      end
  end.

(** [build_rag_system(documents)].  The new [RAGNodes] has no agent yet. *)
Definition build_rag_system (svc : Services) (documents : list Document)
    (a : AppState) : AppState :=
  match construct svc documents with
  | Ok graph_builder =>
      show (ui_success ("✅ Système RAG initialisé avec **"
                        ++ str_nat (List.length documents)
                        ++ "** fragments de documents."))
        {| session :=
             {| rag_system := Some graph_builder; initialized := true;
                messages := messages (session a);
                thread_id := thread_id (session a) |};
           heap := {| trace := trace (heap a); _agent := None |};
           screen := screen a |}
  | Raise e =>
      show (ui_exception e)
        (show (ui_error ("❌ Erreur lors de la construction du système : "
                         ++ str e)) a)
  end.

(** [st.session_state.rag_system.retriever]: [GraphBuilder.__init__] sets
    [nodes], [graph] and [llm], and the class has no other attribute of that
    name. *)
Definition graph_builder_retriever (graph_builder : World)
    : outcome (string -> outcome (list Document)) :=
  Raise (Exn "AttributeError"
             "'GraphBuilder' object has no attribute 'retriever'").

(** [test_retriever(query)]: the documents, or Python's [None]. *)
Definition test_retriever (query : string) (a : AppState)
    : option (list Document) * AppState :=
  match initialized (session a), rag_system (session a) with
  | true, Some graph_builder =>
      match graph_builder_retriever graph_builder with
      | Ok retriever =>
          match retriever query with
          | Ok docs => (Some docs, a)
          | Raise e =>
              (None,
               show (ui_error
                       ("Erreur lors de la récupération des documents : "
                        ++ str e)) a)
          end
      | Raise e =>
          (None,
           show (ui_error
                   ("Erreur lors de la récupération des documents : "
                    ++ str e)) a)
      end
  | _, _ =>
      (None,
       show (ui_warning "⚠️ Le système RAG n'est pas encore initialisé.") a)
  end.

(** The URLs read off the text area:
    [[url.strip() for url in urls_text.split('\n')
      if url.strip() and url.startswith('http')]] *)
Definition parse_urls (urls_text : string) : list string :=
  map strip
    (filter (fun url => truthy (strip url) && startswith "http" url)
       (split (ascii_of_nat 10) urls_text)).

(** The documents of the uploaded files, one file after the other; a file
    that cannot be read is reported and skipped. *)
Fixpoint read_pdfs (svc : Services) (files : list UploadedFile)
    (all_documents : list Document) (a : AppState)
    : list Document * AppState :=
  match files with
  | [] => (all_documents, a)
  | file :: rest =>
      let attempt :=
        match pdf_pages svc file with
        | Raise e => Raise e
        | Ok pages =>
            let pdf_text := String.concat "" pages in
            split_documents svc
              [ {| page_content := pdf_text;
                   metadata := [("source", file_name file)] |} ]
        end in
      match attempt with
      | Ok pdf_docs => read_pdfs svc rest (all_documents ++ pdf_docs)%list a
      | Raise e =>
          read_pdfs svc rest all_documents
            (show (ui_error ("Erreur lors de la lecture du fichier PDF "
                             ++ file_name file ++ ": " ++ str e)) a)
      end
  end.

(** The button "Lancer la construction" of [main]: the old system is
    dropped, the sources are read, and the system is built when they gave
    at least one document.  An exception outside the guarded parts ends the
    script. *)
Definition launch_construction (svc : Services) (urls_text raw_text : string)
    (uploaded_files : list UploadedFile) (a : AppState)
    : outcome unit * AppState :=
  let a :=
    set_session
      {| rag_system := None; initialized := false; messages := [];
         thread_id := thread_id (session a) |} a in
  match base_llm svc with
  | Raise e => (Raise e, a)
  | Ok _ =>
      let all_documents : list Document := [] in
      let '(all_documents, a) :=
        if truthy urls_text then
          let urls := parse_urls urls_text in
          match urls with
          | [] => (all_documents, a)
          | _ =>
              let attempt :=
                match load_urls svc urls with
                | Raise e => Raise e
                | Ok loaded_docs => split_documents svc loaded_docs
                end in
              match attempt with
              | Ok url_docs => ((all_documents ++ url_docs)%list, a)
              | Raise e =>
                  (all_documents,
                   show (ui_error ("Impossible de charger les URLs : "
                                   ++ str e)) a)
              end
          end
        else (all_documents, a) in
      let text_step :=
        if truthy raw_text then
          match split_documents svc
                  [ {| page_content := raw_text;
                       metadata := [("source", "Texte brut")] |} ] with
          | Ok text_docs => Ok (all_documents ++ text_docs)%list
          | Raise e => Raise e
          end
        else Ok all_documents in
      match text_step with
      | Raise e => (Raise e, a)
      | Ok all_documents =>
          let '(all_documents, a) :=
            read_pdfs svc uploaded_files all_documents a in
          match all_documents with
          | [] =>
              (Ok tt,
               show (ui_warning
                       "⚠️ Veuillez fournir au moins une source de document valide.")
                 a)
          | _ => (Ok tt, build_rag_system svc all_documents a)
          end
      end
  end.

Definition test_command : string := "/test-retriever ".

(** The answer to [/test-retriever] when documents came back. *)
Definition found_response (docs : list Document) : string :=
  fold_left
    (fun response id =>
       response
       ++ "**Document " ++ str_nat (S (fst id)) ++ ":**" ++ nl
       ++ "- Source: " ++ get (metadata (snd id)) "source" "N/A" ++ nl
       ++ "- Contenu: " ++ take 200 (page_content (snd id)) ++ "..."
       ++ nl ++ nl)
    (combine (seq 0 (List.length docs)) docs)
    ("✅ " ++ str_nat (List.length docs) ++ " documents trouvés:" ++ nl ++ nl).

Definition append_message (role content : string) (a : AppState) : AppState :=
  set_session
    {| rag_system := rag_system (session a);
       initialized := initialized (session a);
       messages :=
         (messages (session a)
          ++ [ {| msg_role := role; msg_content := content |} ])%list;
       thread_id := thread_id (session a) |} a.

(** The chat area of [main] on a question typed by the user; [checkpoint]
    is what the checkpointer of the system holds.  A question that is not
    the test command goes to [rag_system.run] inside a [try]: the answer,
    the sources and the response time are shown, or else the error text and
    the exception.  Without a system the welcome screen is shown and nothing
    is read. *)
Definition chat (checkpoint : string -> option RAGState) (question : string)
    (a : AppState) : outcome unit * AppState :=
  match initialized (session a), rag_system (session a) with
  | true, Some graph_builder =>
      if startswith test_command question then
        let query := strip (replace test_command "" question) in
        let a := append_message "user" ("Test retriever: " ++ query) a in
        let a := show (ui_markdown ("Test retriever: " ++ query)) a in
        let '(docs, a) := test_retriever query a in
        let response :=
          match docs with
          | Some (d :: ds) => found_response (d :: ds)
          | _ => "❌ Aucun document trouvé ou erreur."
          end in
        (Ok tt,
         append_message "assistant" response (show (ui_markdown response) a))
      else
        let a := append_message "user" question a in
        let a := show (ui_markdown question) a in
        match GraphBuilder.run graph_builder checkpoint question
                (thread_id (session a)) (heap a) with
        | (Ok result, h) =>
            let a := {| session := session a; heap := h;
                        screen := screen a |} in
            let full_response :=
              match answer result with
              | Some text => text
              | None => "Désolé, une erreur est survenue lors de la génération de la réponse."
              end in
            let a := show (ui_markdown full_response) a in
            let a :=
              match retrieved_docs result with
              | Some (d :: ds) => show (ui_expander (d :: ds)) a
              | _ => a
              end in
            let a := show ui_response_time a in
            (Ok tt, append_message "assistant" full_response a)
        | (Raise e, h) =>
            let a := {| session := session a; heap := h;
                        screen := screen a |} in
            let full_response :=
              "Désolé, une erreur technique est survenue. Veuillez vérifier les logs." in
            let a := show (ui_error full_response) a in
            let a := show (ui_exception e) a in
            (Ok tt, append_message "assistant" full_response a)
        end
  | _, _ => (Ok tt, a)
  end.



(** The text of what the handler shows. *)
Definition shown_text (shown : App.Shown) : string :=
  match shown with
  | App.markdown text => text
  | App.error text => text
  end.

End Streamlit.

(* ------------------------------------------------------------------ *)
(** ** Sample sessions *)

Module AppSamples.

Import Streamlit.

Definition splitter (docs : list Document) : outcome (list Document) :=
  Ok docs.

Definition services : Services :=
  {| base_llm := Ok (fun _ => Ok "non");
     embeddings_unavailable := None;
     models := Samples.models;
     agent_factory := Ok Samples.echo_agent;
     split_documents := splitter;
     load_urls := fun _ => Raise Samples.connection_error;
     pdf_pages := fun _ => Ok ["Rome"] |}.

(** The reranker cannot be downloaded. *)
Definition services_reranker_down : Services :=
  {| base_llm := Ok (fun _ => Ok "non");
     embeddings_unavailable := None;
     models :=
       {| VectorStoreM.dense_score := Samples.by_length;
          VectorStoreM.sparse_score := Samples.by_brevity;
          VectorStoreM.rerank_score := Samples.mentions;
          VectorStoreM.dense_unavailable := None;
          VectorStoreM.sparse_unavailable := None;
          VectorStoreM.reranker_unavailable := Some Samples.connection_error |};
     agent_factory := Ok Samples.echo_agent;
     split_documents := splitter;
     load_urls := fun _ => Raise Samples.connection_error;
     pdf_pages := fun _ => Ok ["Rome"] |}.

Definition new_session : Session :=
  {| rag_system := None; initialized := false; messages := [];
     thread_id := "cogniflow-1a2b3c4d" |}.

Definition start : AppState :=
  {| session := new_session; heap := Samples.fresh; screen := [] |}.

(** A session with a system in it and one exchange in its history. *)
Definition ready : AppState :=
  {| session :=
       {| rag_system := Some Samples.world_insufficient; initialized := true;
          messages := [ {| msg_role := "user"; msg_content := "Bonjour" |};
                        {| msg_role := "assistant"; msg_content := "42" |} ];
          thread_id := "cogniflow-1a2b3c4d" |};
     heap := Samples.fresh;
     screen := [] |}.

(** No agent can be constructed. *)
Definition world_no_agent : World :=
  {| llm_invoke := fun _ => Ok "non";
     retriever_invoke := fun _ => Ok [Samples.paris];
     create_react_agent := Raise Samples.connection_error |}.

(** An agent whose last message is empty. *)
Definition world_silent_agent : World :=
  {| llm_invoke := fun _ => Ok "non";
     retriever_invoke := fun _ => Ok [Samples.paris];
     create_react_agent :=
       Ok (fun messages => Ok [ {| role := assistant; content := "" |} ]) |}.

End AppSamples.

(* ================================================================== *)
(** * Properties *)

(* ------------------------------------------------------------------ *)
(** ** Sorting by descending key *)

Section SortedDescFacts.
Import VectorStoreM.
Context {A : Type} (key : A -> Q).

Lemma insert_desc_perm (x : A) (l : list A) :
  Permutation (insert_desc key x l) (x :: l).
Proof.
  induction l as [|y r IH]; simpl.
  - apply Permutation_refl.
  - destruct (Qle_bool (key y) (key x)).
    + apply Permutation_refl.
    + apply perm_trans with (y :: x :: r).
      * apply perm_skip, IH.
      * apply perm_swap.
Qed.

Lemma sorted_desc_perm (l : list A) : Permutation (sorted_desc key l) l.
Proof.
  induction l as [|x r IH]; simpl.
  - apply perm_nil.
  - apply perm_trans with (x :: sorted_desc key r).
    + apply insert_desc_perm.
    + apply perm_skip, IH.
Qed.

Lemma sorted_desc_length (l : list A) :
  List.length (sorted_desc key l) = List.length l.
Proof. apply Permutation_length, sorted_desc_perm. Qed.

Lemma sorted_desc_In (l : list A) (x : A) :
  In x (sorted_desc key l) <-> In x l.
Proof.
  split; apply Permutation_in.
  - apply sorted_desc_perm.
  - apply Permutation_sym, sorted_desc_perm.
Qed.

Lemma desc_trans (a b c : A) :
  desc key a b -> desc key b c -> desc key a c.
Proof.
  unfold desc. intros Hab Hbc. apply Qle_trans with (key b); assumption.
Qed.

Lemma insert_desc_sorted (x : A) (l : list A) :
  StronglySorted (desc key) l ->
  StronglySorted (desc key) (insert_desc key x l).
Proof.
  induction 1 as [|y r Hr IH Hy]; simpl.
  - repeat constructor.
  - destruct (Qle_bool (key y) (key x)) eqn:E.
    + apply Qle_bool_iff in E.
      constructor.
      * constructor; assumption.
      * constructor; [exact E|].
        apply Forall_impl with (P := desc key y); [|exact Hy].
        intros z Hz. apply desc_trans with y; assumption.
    + assert (Hxy : desc key y x).
      { unfold desc. apply Qnot_lt_le. intro Hlt.
        apply Qlt_le_weak in Hlt. apply Qle_bool_iff in Hlt. congruence. }
      constructor; [exact IH|].
      apply (Permutation_Forall (Permutation_sym (insert_desc_perm x r))).
      constructor; assumption.
Qed.

Lemma sorted_desc_sorted (l : list A) :
  StronglySorted (desc key) (sorted_desc key l).
Proof.
  induction l as [|x r IH]; simpl.
  - constructor.
  - apply insert_desc_sorted, IH.
Qed.

End SortedDescFacts.

Lemma In_firstn {A : Type} (n : nat) (l : list A) (x : A) :
  In x (firstn n l) -> In x l.
Proof.
  revert n. induction l as [|y r IH]; intros [|n]; simpl; try tauto.
  intros [H|H]; [left; exact H | right; apply (IH n), H].
Qed.

Lemma firstn_sorted {A : Type} (R : A -> A -> Prop) (n : nat) (l : list A) :
  StronglySorted R l -> StronglySorted R (firstn n l).
Proof.
  intros H. revert n.
  induction H as [|y r Hr IH Hy]; intros [|n]; simpl; try constructor.
  - apply IH.
  - rewrite Forall_forall in *. intros z Hz. apply Hy.
    apply (In_firstn n r), Hz.
Qed.

(* ------------------------------------------------------------------ *)
(** ** The retrieval pipeline *)

Section RetrievalFacts.
Import VectorStoreM.

Lemma Document_eqb_eq (a b : Document) : Document_eqb a b = true <-> a = b.
Proof.
  unfold Document_eqb. destruct (Document_eq_dec a b); split; congruence.
Qed.

Lemma unique_In (l : list Document) (d : Document) :
  In d (unique l) <-> In d l.
Proof.
  induction l as [|x r IH]; simpl; [tauto|].
  rewrite filter_In, IH.
  destruct (Document_eq_dec x d) as [->|Hne]; [tauto|].
  split.
  - tauto.
  - intros [H|H]; [tauto|]. right. split; [exact H|].
    destruct (Document_eqb d x) eqn:E; [|reflexivity].
    apply Document_eqb_eq in E. congruence.
Qed.

Lemma NoDup_filter (f : Document -> bool) (l : list Document) :
  NoDup l -> NoDup (filter f l).
Proof.
  induction 1 as [|x r Hx Hr IH]; simpl; [constructor|].
  destruct (f x); [|exact IH].
  constructor; [|exact IH].
  rewrite filter_In. tauto.
Qed.

Lemma unique_NoDup (l : list Document) : NoDup (unique l).
Proof.
  induction l as [|x r IH]; simpl; constructor.
  - rewrite filter_In. intros [_ H].
    destruct (Document_eqb x x) eqn:E; [discriminate|].
    assert (Document_eqb x x = true) by (apply Document_eqb_eq; reflexivity).
    congruence.
  - apply NoDup_filter, IH.
Qed.

Lemma eq_scored_equiv : Equivalence eq_scored.
Proof.
  split.
  - intros [d q]. split; reflexivity.
  - intros a b [H1 H2]. split; symmetry; assumption.
  - intros a b c [H1 H2] [H3 H4]. split.
    + congruence.
    + rewrite H2. exact H4.
Qed.

Lemma scored_map_pointwise (f g : Document -> Q) (l : list Document) :
  (forall d, (f d == g d)%Q) ->
  PermutationA eq_scored (map (fun d => (d, f d)) l)
                         (map (fun d => (d, g d)) l).
Proof.
  intros H. induction l as [|x r IH]; simpl.
  - constructor.
  - constructor; [split; [reflexivity|apply H] | exact IH].
Qed.

Lemma fused_score_swap (w : Q) (D S : list ScoredDocument) (d : Document) :
  (fused_score [w; w] [D; S] d == fused_score [w; w] [S; D] d)%Q.
Proof. unfold fused_score. simpl. ring. Qed.

Lemma candidates_swap (D S : list ScoredDocument) :
  Permutation (unique (concat (map (map fst) [D; S])))
              (unique (concat (map (map fst) [S; D]))).
Proof.
  apply NoDup_Permutation; try apply unique_NoDup.
  intros d. rewrite !unique_In. simpl. rewrite !app_nil_r, !in_app_iff.
  tauto.
Qed.

(** Every entry of a fused list carries the fused score of its document,
    and no document twice. *)
Lemma fusion_entries (ws : list Q) (ls : list (list ScoredDocument))
    (sd : ScoredDocument) :
  In sd (fusion ws ls) -> snd sd = fused_score ws ls (fst sd).
Proof.
  unfold fusion. rewrite sorted_desc_In, in_map_iff.
  intros [d [<- _]]. reflexivity.
Qed.

Lemma fusion_NoDup (ws : list Q) (ls : list (list ScoredDocument)) :
  NoDup (map fst (fusion ws ls)).
Proof.
  unfold fusion.
  apply (Permutation_NoDup (l := unique (concat (map (map fst) ls)))).
  - apply Permutation_sym.
    eapply perm_trans.
    + apply Permutation_map, sorted_desc_perm.
    + rewrite map_map. simpl. rewrite map_id. apply Permutation_refl.
  - apply unique_NoDup.
Qed.

Lemma scored_sorted_fst (f : Document -> Q) (l : list Document) (n : nat) :
  StronglySorted (desc f)
    (map fst (firstn n (sorted_desc snd (map (fun d => (d, f d)) l)))).
Proof.
  set (s := firstn n _).
  assert (Hs : StronglySorted (desc (snd (A:=Document))) s).
  { apply firstn_sorted, sorted_desc_sorted. }
  assert (He : Forall (fun sd => snd sd = f (fst sd)) s).
  { rewrite Forall_forall. intros sd Hin. apply In_firstn in Hin.
    rewrite sorted_desc_In, in_map_iff in Hin.
    destruct Hin as [d [<- _]]. reflexivity. }
  clearbody s. induction Hs as [|x r Hr IH Hx]; simpl; constructor.
  - apply IH. inversion He; assumption.
  - inversion He as [|? ? Hxe Hre]; subst.
    rewrite Forall_forall in *. intros d Hd.
    rewrite in_map_iff in Hd. destruct Hd as [y [<- Hy]].
    unfold desc in *. rewrite <- Hxe, <- (Hre y Hy). apply Hx, Hy.
Qed.

Lemma top_k_incl (k : nat) (score : string -> Document -> Q)
    (documents : list Document) (query : string) (d : Document) :
  In d (map fst (top_k k score documents query)) -> In d documents.
Proof.
  unfold top_k. rewrite in_map_iff. intros [sd [<- Hin]].
  apply In_firstn in Hin. rewrite sorted_desc_In, in_map_iff in Hin.
  destruct Hin as [x [<- Hx]]. exact Hx.
Qed.

Lemma compress_documents_incl (r : CrossEncoderReranker)
    (documents : list Document) (query : string) (d : Document) :
  In d (compress_documents r documents query) -> In d documents.
Proof.
  unfold compress_documents. rewrite in_map_iff. intros [sd [<- Hin]].
  apply In_firstn in Hin. rewrite sorted_desc_In, in_map_iff in Hin.
  destruct Hin as [x [<- Hx]]. exact Hx.
Qed.

Lemma compress_documents_length (r : CrossEncoderReranker)
    (documents : list Document) (query : string) :
  List.length (compress_documents r documents query) <= top_n r.
Proof.
  unfold compress_documents. rewrite length_map, length_firstn.
  apply Nat.le_min_l.
Qed.

Lemma fusion_incl (ws : list Q) (ls : list (list ScoredDocument))
    (d : Document) :
  In d (map fst (fusion ws ls)) -> In d (concat (map (map fst) ls)).
Proof.
  unfold fusion. rewrite in_map_iff. intros [sd [<- Hin]].
  rewrite sorted_desc_In, in_map_iff in Hin.
  destruct Hin as [x [<- Hx]]. simpl. apply unique_In, Hx.
Qed.

(** With its three components available, [create_vectorstore] installs
    the reranked ensemble of the sparse and the dense retriever. *)
Lemma create_vectorstore_available (m : Models) (self : VectorStore)
    (documents : list Document) :
  documents <> [] ->
  dense_unavailable m = None ->
  sparse_unavailable m = None ->
  reranker_unavailable m = None ->
  create_vectorstore m self documents =
  (Ok tt,
   {| vectorstore := Some documents;
      retriever :=
        Some {| base_compressor :=
                  {| model := rerank_score m; top_n := 3 |};
                base_retriever :=
                  {| retrievers :=
                       [top_k 10 (sparse_score m) documents;
                        as_retriever m documents 10];
                     weights := [1 # 2; 1 # 2]%Q |} |} |}).
Proof.
  intros Hne Hd Hs Hr.
  unfold create_vectorstore, FAISS_from_documents,
    BM25Retriever_from_documents, HuggingFaceCrossEncoder.
  rewrite Hd, Hs, Hr.
  destruct documents as [|d documents]; [congruence | reflexivity].
Qed.

(** On an empty list the dense index cannot be constructed, and the store
    is left as it was. *)
Lemma create_vectorstore_empty (m : Models) (self : VectorStore) :
  dense_unavailable m = None ->
  create_vectorstore m self [] = (Raise empty_dense_index, self).
Proof.
  intros Hd. unfold create_vectorstore, FAISS_from_documents.
  now rewrite Hd.
Qed.

Lemma firstn_pos {A : Type} (n : nat) (l : list A) :
  0 < n -> 0 < List.length l -> 0 < List.length (firstn n l).
Proof. intros Hn Hl. rewrite length_firstn. lia. Qed.

Lemma top_k_pos (k : nat) (score : string -> Document -> Q)
    (documents : list Document) (query : string) :
  0 < k -> documents <> [] ->
  0 < List.length (top_k k score documents query).
Proof.
  intros Hk Hne. unfold top_k. apply firstn_pos; [exact Hk|].
  rewrite sorted_desc_length, length_map.
  destruct documents; [congruence | simpl; lia].
Qed.

(** A corpus that is not empty gives a result that is not empty. *)
Lemma invoke_pos (r : ContextualCompressionRetriever) (query : string)
    (first : IndexRetriever) (others : list IndexRetriever) :
  retrievers (base_retriever r) = first :: others ->
  0 < top_n (base_compressor r) ->
  0 < List.length (first query) ->
  0 < List.length (invoke r query).
Proof.
  intros Hr Hn Hf. unfold invoke, compress_documents.
  rewrite length_map. apply firstn_pos; [exact Hn|].
  rewrite sorted_desc_length, !length_map.
  unfold ensemble_invoke, fusion. rewrite Hr.
  rewrite sorted_desc_length, length_map.
  cbn [map concat].
  destruct (first query) as [|sd rest]; [simpl in Hf; lia|].
  simpl. lia.
Qed.
End RetrievalFacts.

#[local] Existing Instance eq_scored_equiv.

(** C1, as the code has it.  Once the vector store is built on a corpus
    that is not empty, [retrieve] returns, for every query, a list of at
    least one and at most three documents of the corpus in non-increasing
    order of rerank score.  An empty corpus cannot be indexed:
    [create_vectorstore] raises on it and leaves the store as it was, so
    that [retrieve] on a store built on nothing else raises instead of
    returning the empty list. *)
Theorem retrieve_bounded_and_ordered (m : VectorStoreM.Models)
    (self : VectorStoreM.VectorStore) (documents : list Document)
    (query : string) :
  VectorStoreM.dense_unavailable m = None ->
  VectorStoreM.sparse_unavailable m = None ->
  VectorStoreM.reranker_unavailable m = None ->
  (documents <> [] ->
   exists docs,
     VectorStoreM.retrieve
       (snd (VectorStoreM.create_vectorstore m self documents)) query
     = Ok docs
     /\ List.length docs <= 3
     /\ StronglySorted
          (VectorStoreM.desc (VectorStoreM.rerank_score m query)) docs
     /\ incl docs documents
     /\ docs <> [])
  /\ VectorStoreM.create_vectorstore m self []
     = (Raise VectorStoreM.empty_dense_index, self)
  /\ VectorStoreM.retrieve
       (snd (VectorStoreM.create_vectorstore m VectorStoreM.init [])) query
     = Raise VectorStoreM.not_initialized.
Proof.
  intros Hd Hs Hr.
  split; [|split;
    [apply create_vectorstore_empty, Hd
    |now rewrite (create_vectorstore_empty m VectorStoreM.init Hd)]].
  intros Hne.
  rewrite (create_vectorstore_available m self Hne Hd Hs Hr).
  unfold VectorStoreM.retrieve.
  cbn [snd VectorStoreM.retriever].
  eexists. split; [reflexivity|].
  split; [|split; [|split]].
  - apply (compress_documents_length
             {| VectorStoreM.model := VectorStoreM.rerank_score m;
                VectorStoreM.top_n := 3 |}).
  - unfold VectorStoreM.invoke.
    cbn [VectorStoreM.base_compressor VectorStoreM.base_retriever].
    apply scored_sorted_fst.
  - unfold VectorStoreM.invoke.
    cbn [VectorStoreM.base_compressor VectorStoreM.base_retriever].
    intros d Hin.
    apply compress_documents_incl in Hin.
    unfold VectorStoreM.ensemble_invoke in Hin.
    cbn [VectorStoreM.retrievers VectorStoreM.weights map] in Hin.
    apply fusion_incl in Hin.
    cbn [map concat] in Hin.
    rewrite app_nil_r in Hin. apply in_app_or in Hin.
    destruct Hin as [Hin|Hin]; apply top_k_incl in Hin; exact Hin.
  - intros E.
    assert (Hpos : 0 < List.length
              (VectorStoreM.invoke
                 {| VectorStoreM.base_compressor :=
                      {| VectorStoreM.model := VectorStoreM.rerank_score m;
                         VectorStoreM.top_n := 3 |};
                    VectorStoreM.base_retriever :=
                      {| VectorStoreM.retrievers :=
                           [VectorStoreM.top_k 10
                              (VectorStoreM.sparse_score m) documents;
                            VectorStoreM.as_retriever m documents 10];
                         VectorStoreM.weights := [1 # 2; 1 # 2]%Q |} |}
                 query)).
    { eapply invoke_pos; [reflexivity | cbn; lia |].
      apply top_k_pos; [lia | exact Hne]. }
    rewrite E in Hpos. simpl in Hpos. lia.
Qed.

(** C8.  With weights (0.5, 0.5), fusing (D, S) and fusing (S, D) give the
    same candidates with the same fused scores: the two fused lists are equal
    up to order, every document has the same fused score under both, neither
    list names a document twice, and the same holds for an ensemble whose two
    retrievers return D and S when they are swapped. *)
Theorem fusion_equal_weights_commutative
    (D S : list VectorStoreM.ScoredDocument) :
  PermutationA VectorStoreM.eq_scored
    (VectorStoreM.fusion [1 # 2; 1 # 2]%Q [D; S])
    (VectorStoreM.fusion [1 # 2; 1 # 2]%Q [S; D])
  /\ (forall d,
        (VectorStoreM.fused_score [1 # 2; 1 # 2] [D; S] d ==
         VectorStoreM.fused_score [1 # 2; 1 # 2] [S; D] d)%Q)
  /\ NoDup (map fst (VectorStoreM.fusion [1 # 2; 1 # 2]%Q [D; S]))
  /\ NoDup (map fst (VectorStoreM.fusion [1 # 2; 1 # 2]%Q [S; D]))
  /\ (forall query,
        PermutationA VectorStoreM.eq_scored
          (VectorStoreM.ensemble_invoke
             {| VectorStoreM.retrievers := [fun _ => D; fun _ => S];
                VectorStoreM.weights := [1 # 2; 1 # 2]%Q |} query)
          (VectorStoreM.ensemble_invoke
             {| VectorStoreM.retrievers := [fun _ => S; fun _ => D];
                VectorStoreM.weights := [1 # 2; 1 # 2]%Q |} query)).
Proof.
  assert (H : PermutationA VectorStoreM.eq_scored
    (VectorStoreM.fusion [1 # 2; 1 # 2]%Q [D; S])
    (VectorStoreM.fusion [1 # 2; 1 # 2]%Q [S; D])).
  { unfold VectorStoreM.fusion.
    etransitivity.
    { apply Permutation_PermutationA; [exact eq_scored_equiv|].
      apply sorted_desc_perm. }
    etransitivity.
    2:{ apply Permutation_PermutationA; [exact eq_scored_equiv|].
        apply Permutation_sym, sorted_desc_perm. }
    etransitivity.
    { apply Permutation_PermutationA; [exact eq_scored_equiv|].
      apply Permutation_map, candidates_swap. }
    apply scored_map_pointwise. intros d. apply fused_score_swap. }
  split; [exact H|]. split; [|split; [|split]].
  - intros d. apply fused_score_swap.
  - apply fusion_NoDup.
  - apply fusion_NoDup.
  - intros query. exact H.
Qed.

(* ------------------------------------------------------------------ *)
(** ** Strings: what [lower], [strip] and [in] decide *)

Section StringFacts.
Import PyStr.

Lemma append_assoc (a b c : string) : (a ++ b) ++ c = a ++ b ++ c.
Proof. induction a as [|x a IH]; simpl; [reflexivity | now rewrite IH]. Qed.

Lemma prefix_cons (a b : ascii) (t s : string) :
  prefix (String a t) (String b s) = if ascii_dec a b then prefix t s else false.
Proof. reflexivity. Qed.

Lemma prefix_iff (t s : string) :
  prefix t s = true <-> exists post, s = t ++ post.
Proof.
  revert s. induction t as [|a t IH]; intros s.
  - destruct s; simpl; split; eauto.
  - destruct s as [|b s].
    + simpl. split; [discriminate | intros [post H]; discriminate].
    + rewrite prefix_cons. destruct (ascii_dec a b) as [->|Hne].
      * rewrite IH. split; intros [post H]; exists post.
        -- simpl. now rewrite H.
        -- simpl in H. now inversion H.
      * split; [discriminate|]. intros [post H]. simpl in H.
        inversion H. congruence.
Qed.

Lemma contains_iff (t s : string) :
  contains t s = true <-> exists pre post, s = pre ++ t ++ post.
Proof.
  induction s as [|c s IH]; simpl.
  - rewrite orb_false_r.
    change (match t with "" => true | String _ _ => false end)
      with (prefix t "").
    rewrite prefix_iff. split.
    + intros [post H]. exists "", post. exact H.
    + intros [pre [post H]]. destruct pre; [|discriminate].
      exists post. exact H.
  - rewrite orb_true_iff, IH.
    change (match t with
            | "" => true
            | String a t' =>
                if ascii_dec a c then prefix t' s else false
            end) with (prefix t (String c s)).
    rewrite prefix_iff. split.
    + intros [[post H] | [pre [post H]]].
      * exists "", post. exact H.
      * exists (String c pre), post. simpl. now rewrite H.
    + intros [pre [post H]]. destruct pre as [|x pre].
      * left. exists post. exact H.
      * right. simpl in H. inversion H. eauto.
Qed.

Lemma lower_app (a b : string) : lower (a ++ b) = lower a ++ lower b.
Proof. induction a as [|x a IH]; simpl; [reflexivity | now rewrite IH]. Qed.

Lemma lower_split (s a b : string) :
  lower s = a ++ b ->
  exists a' b', s = a' ++ b' /\ lower a' = a /\ lower b' = b.
Proof.
  revert s. induction a as [|x a IH]; intros s H.
  - exists "", s. auto.
  - destruct s as [|c s]; [discriminate|].
    simpl in H. inversion H as [[Hc Hs]].
    destruct (IH s Hs) as [a' [b' [-> [Ha Hb]]]].
    exists (String c a'), b'. simpl. rewrite Ha. auto.
Qed.

Lemma is_upper_bounds (c : ascii) :
  is_upper c = true <-> (65 <= N_of_ascii c <= 90)%N.
Proof.
  unfold is_upper. rewrite andb_true_iff, !N.leb_le. reflexivity.
Qed.

Lemma N_of_lower_upper (c : ascii) :
  is_upper c = true ->
  N_of_ascii (lower_char c) = (N_of_ascii c + 32)%N.
Proof.
  intros H. unfold lower_char. rewrite H.
  apply is_upper_bounds in H. apply N_ascii_embedding. lia.
Qed.

Lemma N_of_ascii_inj (a b : ascii) : N_of_ascii a = N_of_ascii b -> a = b.
Proof.
  intros H. rewrite <- (ascii_N_embedding a), <- (ascii_N_embedding b).
  now rewrite H.
Qed.

Lemma same_letter_lower (a b : ascii) :
  same_letter a b <-> lower_char a = lower_char b.
Proof.
  split.
  - intros [-> | [[Ha Hb] | [Hb Ha]]]; [reflexivity | |].
    + apply N_of_ascii_inj. rewrite (@N_of_lower_upper _ Ha).
      unfold lower_char.
      replace (is_upper b) with false; [now rewrite Hb|].
      symmetry. apply not_true_is_false. intros Hu.
      apply is_upper_bounds in Ha, Hu. lia.
    + apply N_of_ascii_inj. rewrite (@N_of_lower_upper _ Hb).
      unfold lower_char.
      replace (is_upper a) with false; [now rewrite Ha|].
      symmetry. apply not_true_is_false. intros Hu.
      apply is_upper_bounds in Hb, Hu. lia.
  - intros H. apply (f_equal N_of_ascii) in H. unfold same_letter.
    destruct (is_upper a) eqn:Ea, (is_upper b) eqn:Eb.
    + rewrite (@N_of_lower_upper _ Ea), (@N_of_lower_upper _ Eb) in H.
      left. apply N_of_ascii_inj. lia.
    + rewrite (@N_of_lower_upper _ Ea) in H. unfold lower_char in H.
      rewrite Eb in H. right. left. split; [reflexivity | now rewrite H].
    + rewrite (@N_of_lower_upper _ Eb) in H. unfold lower_char in H.
      rewrite Ea in H. right. right. split; [reflexivity | exact H].
    + unfold lower_char in H. rewrite Ea, Eb in H.
      left. apply N_of_ascii_inj, H.
Qed.

Lemma eq_nocase_lower (s t : string) :
  eq_nocase s t <-> lower s = lower t.
Proof.
  split.
  - induction 1 as [|a b s t Hab Hst IH]; simpl; [reflexivity|].
    apply same_letter_lower in Hab. now rewrite Hab, IH.
  - revert t. induction s as [|a s IH]; intros [|b t] H;
      try discriminate; [constructor|].
    simpl in H. inversion H as [[Hc Hs]]. constructor.
    + apply same_letter_lower, Hc.
    + apply IH, Hs.
Qed.

(** A token already in lower case occurs in [lower s] exactly when it
    occurs in [s] up to letter case. *)
Lemma contains_lower_iff (t s : string) :
  lower t = t ->
  (contains t (lower s) = true <-> occurs_nocase t s).
Proof.
  intros Ht. rewrite contains_iff. unfold occurs_nocase. split.
  - intros [pre [post H]].
    apply lower_split in H. destruct H as [pre' [rest [-> [Hp Hr]]]].
    apply lower_split in Hr. destruct Hr as [mid [post' [-> [Hm Hq]]]].
    exists pre', mid, post'. split; [reflexivity|].
    apply eq_nocase_lower. congruence.
  - intros [pre [mid [post [-> H]]]].
    apply eq_nocase_lower in H.
    exists (lower pre), (lower post).
    rewrite !lower_app. congruence.
Qed.

Lemma space_lower (c : ascii) : is_space c = true -> lower_char c = c.
Proof.
  intros H. unfold lower_char.
  destruct (is_upper c) eqn:E; [|reflexivity].
  apply is_upper_bounds in E. unfold is_space in H.
  rewrite orb_true_iff, !andb_true_iff, !N.leb_le in H. lia.
Qed.

Lemma rstrip_cons (c : ascii) (r : string) :
  (rstrip (String c r) = "" /\ rstrip r = "" /\ is_space c = true)
  \/ rstrip (String c r) = String c (rstrip r).
Proof.
  simpl. destruct (rstrip r) eqn:E.
  - destruct (is_space c); [left | right]; auto.
  - right. reflexivity.
Qed.

Lemma no_space_head (a c : ascii) (t : string) :
  no_space (String a t) -> is_space c = true -> a <> c.
Proof.
  unfold no_space. simpl. rewrite andb_true_iff, negb_true_iff.
  intros [Ha _] Hc ->. congruence.
Qed.

Lemma no_space_tail (a : ascii) (t : string) :
  no_space (String a t) -> no_space t.
Proof. unfold no_space. simpl. rewrite andb_true_iff. tauto. Qed.

Lemma prefix_space (t : string) (c : ascii) (s : string) :
  no_space t -> is_space c = true ->
  prefix t (String (lower_char c) s) = prefix t "".
Proof.
  intros Ht Hc. destruct t as [|a t]; [reflexivity|].
  rewrite prefix_cons, (@space_lower c Hc).
  destruct (ascii_dec a c) as [E|_]; [|reflexivity].
  exfalso. exact (@no_space_head a c t Ht Hc E).
Qed.

Lemma prefix_lower_rstrip (s t : string) :
  no_space t -> prefix t (lower (rstrip s)) = prefix t (lower s).
Proof.
  revert t. induction s as [|c r IH]; intros t Ht; [reflexivity|].
  destruct (rstrip_cons c r) as [[E [Er Hc]] | E]; rewrite E.
  - simpl lower. now rewrite (@prefix_space t c _ Ht Hc).
  - destruct t as [|a t]; [reflexivity|].
    simpl lower. rewrite !prefix_cons.
    destruct (ascii_dec a (lower_char c)); [|reflexivity].
    apply IH, (@no_space_tail a t Ht).
Qed.

Lemma contains_cons (t : string) (c : ascii) (s : string) :
  contains t (String c s) = prefix t (String c s) || contains t s.
Proof. reflexivity. Qed.

Lemma contains_nil (t : string) : contains t "" = prefix t "".
Proof. simpl. destruct t; reflexivity. Qed.

Lemma contains_lower_rstrip (s t : string) :
  no_space t -> contains t (lower (rstrip s)) = contains t (lower s).
Proof.
  intros Ht. induction s as [|c r IH]; [reflexivity|].
  pose proof (@prefix_lower_rstrip (String c r) t Ht) as Hp.
  destruct (rstrip_cons c r) as [[E [Er Hc]] | E]; rewrite E in *.
  - rewrite Er in IH. simpl lower in *.
    rewrite contains_cons, <- Hp, <- IH, contains_nil.
    now destruct (prefix t "").
  - simpl lower in *. rewrite !contains_cons, Hp, IH. reflexivity.
Qed.

Lemma contains_lower_lstrip (s t : string) :
  no_space t -> contains t (lower (lstrip s)) = contains t (lower s).
Proof.
  intros Ht. induction s as [|c r IH]; [reflexivity|].
  simpl lstrip. destruct (is_space c) eqn:Hc; [|reflexivity].
  simpl lower. rewrite contains_cons, (@prefix_space t c _ Ht Hc), IH.
  destruct t as [|a t]; [destruct (lower r)|]; reflexivity.
Qed.

(** Stripping white space does not change whether a token without white
    space occurs. *)
Lemma contains_lower_strip (s t : string) :
  no_space t -> contains t (lower (strip s)) = contains t (lower s).
Proof.
  intros Ht. unfold strip.
  now rewrite contains_lower_lstrip, contains_lower_rstrip.
Qed.

(** The test of the gate on the judge's answer. *)
Lemma oui_in_decision (response : string) :
  contains "oui" (lower (strip response)) = true
  <-> occurs_nocase "oui" response.
Proof.
  rewrite contains_lower_strip by reflexivity.
  apply contains_lower_iff. reflexivity.
Qed.
End StringFacts.

(* ------------------------------------------------------------------ *)
(** ** The nodes and the gate, one call at a time *)

Section NodeFacts.
Import GraphBuilder.
Variable w : World.

Lemma retrieve_docs_ok (state : RAGState) (h : Heap) (docs : list Document) :
  retriever_invoke w (question state) = Ok docs ->
  RAGNodes.retrieve_docs w state h =
  (Ok {| set_retrieved_docs := Some docs; set_answer := None |},
   record (EvRetriever (question state)) h).
Proof.
  intros H.
  unfold RAGNodes.retrieve_docs, try_except, call_retriever, bind, emit, lift.
  rewrite H. reflexivity.
Qed.

Lemma retrieve_docs_raise (state : RAGState) (h : Heap) (e : exn) :
  retriever_invoke w (question state) = Raise e ->
  RAGNodes.retrieve_docs w state h =
  (Ok {| set_retrieved_docs := Some []; set_answer := None |},
   record (EvRetriever (question state)) h).
Proof.
  intros H.
  unfold RAGNodes.retrieve_docs, try_except, call_retriever, bind, emit, lift.
  rewrite H. reflexivity.
Qed.

(** The retrieval node never raises and always sets the documents. *)
Lemma retrieve_docs_total (state : RAGState) (h : Heap) :
  exists docs,
    RAGNodes.retrieve_docs w state h =
    (Ok {| set_retrieved_docs := Some docs; set_answer := None |},
     record (EvRetriever (question state)) h).
Proof.
  destruct (retriever_invoke w (question state)) as [docs|e] eqn:E.
  - exists docs. apply retrieve_docs_ok, E.
  - exists []. apply (retrieve_docs_raise state h E).
Qed.

Lemma decide_empty (state : RAGState) (h : Heap) :
  retrieved_docs state = None \/ retrieved_docs state = Some [] ->
  _decide_next_step w state h = (Ok "agent_search", h).
Proof.
  unfold _decide_next_step. intros [-> | ->]; reflexivity.
Qed.

Lemma decide_judged (state : RAGState) (h : Heap) (d : Document)
    (docs : list Document) (response : string) :
  retrieved_docs state = Some (d :: docs) ->
  llm_invoke w
    (judge_messages (question state) (judge_context (d :: docs)))
  = Ok response ->
  _decide_next_step w state h =
  (Ok (if PyStr.contains "oui" (PyStr.lower (PyStr.strip response))
       then "generate_direct" else "agent_search"),
   record (EvLLM (judge_messages (question state)
                    (judge_context (d :: docs)))) h).
Proof.
  intros Hd Hl. unfold _decide_next_step. rewrite Hd.
  unfold call_llm, bind, emit, lift. rewrite Hl.
  destruct (PyStr.contains "oui" (PyStr.lower (PyStr.strip response)));
    reflexivity.
Qed.

Lemma decide_raise (state : RAGState) (h : Heap) (d : Document)
    (docs : list Document) (e : exn) :
  retrieved_docs state = Some (d :: docs) ->
  llm_invoke w
    (judge_messages (question state) (judge_context (d :: docs)))
  = Raise e ->
  _decide_next_step w state h =
  (Raise e,
   record (EvLLM (judge_messages (question state)
                    (judge_context (d :: docs)))) h).
Proof.
  intros Hd Hl. unfold _decide_next_step. rewrite Hd.
  unfold call_llm, bind, emit, lift. rewrite Hl. reflexivity.
Qed.

Lemma direct_answer_ok (state : RAGState) (h : Heap)
    (docs : list Document) (response : string) :
  retrieved_docs state = Some docs ->
  llm_invoke w (direct_messages (direct_context docs) (question state))
  = Ok response ->
  _generate_direct_answer w state h =
  (Ok {| set_retrieved_docs := None; set_answer := Some response |},
   record (EvLLM (direct_messages (direct_context docs) (question state)))
     h).
Proof.
  intros Hd Hl. unfold _generate_direct_answer. rewrite Hd.
  unfold call_llm, bind, emit, lift. rewrite Hl. reflexivity.
Qed.

Lemma direct_answer_raise (state : RAGState) (h : Heap)
    (docs : list Document) (e : exn) :
  retrieved_docs state = Some docs ->
  llm_invoke w (direct_messages (direct_context docs) (question state))
  = Raise e ->
  _generate_direct_answer w state h =
  (Raise e,
   record (EvLLM (direct_messages (direct_context docs) (question state)))
     h).
Proof.
  intros Hd Hl. unfold _generate_direct_answer. rewrite Hd.
  unfold call_llm, bind, emit, lift. rewrite Hl. reflexivity.
Qed.
End NodeFacts.

(* ------------------------------------------------------------------ *)
(** ** The agent node *)

Section AgentFacts.
Variable w : World.

Lemma node_trace_app (a b : list Event) :
  node_trace (a ++ b) = (node_trace a ++ node_trace b)%list.
Proof.
  induction a as [|[] a IH]; simpl; try assumption.
  - reflexivity.
  - now rewrite IH.
Qed.

(** A failing run of the agent becomes an answer. *)
Lemma generate_answer_raise (state : RAGState) (h : Heap) (a : Agent)
    (e : exn) :
  RAGNodes.agent_of w h = Ok a ->
  a [ {| role := user; content := question state |} ] = Raise e ->
  fst (RAGNodes.generate_answer w state h) = Ok (RAGNodes.agent_error e).
Proof.
  unfold RAGNodes.agent_of, RAGNodes.generate_answer, RAGNodes._build_agent,
    try_except, call_agent, bind, emit, lift, ret.
  intros Ha He. destruct (_agent h) as [a'|] eqn:E.
  - inversion Ha; subst a'. rewrite E. cbn. rewrite He. reflexivity.
  - rewrite Ha. cbn. rewrite He. reflexivity.
Qed.

(** The agent node enters no node of the graph. *)
Lemma generate_answer_nodes (state : RAGState) (h : Heap) :
  node_trace (trace (snd (RAGNodes.generate_answer w state h))) =
  node_trace (trace h).
Proof.
  unfold RAGNodes.generate_answer, RAGNodes._build_agent,
    RAGNodes.last_content, try_except, call_agent, bind, emit, lift, ret,
    raise.
  destruct (_agent h) as [a|] eqn:E.
  - rewrite E. cbn.
    destruct (a _) as [ms|e]; cbn.
    + destruct (rev ms); cbn; rewrite node_trace_app; cbn;
        apply app_nil_r.
    + rewrite node_trace_app. cbn. apply app_nil_r.
  - cbn. destruct (create_react_agent w) as [a|e]; cbn.
    + destruct (a _) as [ms|e]; cbn.
      * destruct (rev ms); cbn; rewrite !node_trace_app; cbn;
          rewrite !app_nil_r; reflexivity.
      * rewrite !node_trace_app. cbn. rewrite !app_nil_r. reflexivity.
    + rewrite node_trace_app. cbn. apply app_nil_r.
Qed.

Lemma direct_answer_nodes (state : RAGState) (h : Heap) :
  node_trace (trace (snd (GraphBuilder._generate_direct_answer w state h)))
  = node_trace (trace h).
Proof.
  unfold GraphBuilder._generate_direct_answer, call_llm, bind, emit, lift,
    ret, raise.
  destruct (retrieved_docs state) as [docs|]; cbn; [|reflexivity].
  destruct (llm_invoke w _); cbn; rewrite node_trace_app; cbn;
    apply app_nil_r.
Qed.

Lemma decide_nodes (state : RAGState) (h : Heap) :
  node_trace (trace (snd (GraphBuilder._decide_next_step w state h)))
  = node_trace (trace h).
Proof.
  unfold GraphBuilder._decide_next_step, call_llm, bind, emit, lift, ret.
  destruct (retrieved_docs state) as [[|d docs]|]; cbn; try reflexivity.
  destruct (llm_invoke w _) as [r|e]; cbn.
  - destruct (PyStr.contains _ _); cbn; rewrite node_trace_app; cbn;
      apply app_nil_r.
  - rewrite node_trace_app. cbn. apply app_nil_r.
Qed.

Lemma decide_routes (state : RAGState) (h : Heap) (r : string) :
  fst (GraphBuilder._decide_next_step w state h) = Ok r ->
  r = "generate_direct" \/ r = "agent_search".
Proof.
  unfold GraphBuilder._decide_next_step, call_llm, bind, emit, lift, ret.
  destruct (retrieved_docs state) as [[|d docs]|]; cbn;
    try (intros H; inversion H; auto).
  revert H. destruct (llm_invoke w _) as [x|e]; cbn; [|discriminate].
  destruct (PyStr.contains _ _); cbn; intros H; inversion H; auto.
Qed.
End AgentFacts.

(* ------------------------------------------------------------------ *)
(** ** One turn of the graph *)

Section TurnFacts.
Import GraphBuilder.
Variable w : World.

Lemma run_from_direct (fuel : nat) (state : RAGState) (h : Heap) :
  run_from (S fuel) (build w) "generate_direct" state h =
  finish state
    (_generate_direct_answer w state (record (EvNode "generate_direct") h)).
Proof.
  cbn. unfold bind, emit, finish.
  destruct (_generate_direct_answer w state _) as [[u|e] h1];
    [|reflexivity].
  cbn. destruct fuel; reflexivity.
Qed.

Lemma run_from_agent (fuel : nat) (state : RAGState) (h : Heap) :
  run_from (S fuel) (build w) "agent_search" state h =
  finish state
    (RAGNodes.generate_answer w state (record (EvNode "agent_search") h)).
Proof.
  cbn. unfold bind at 1 2. unfold emit, finish.
  destruct (RAGNodes.generate_answer w state _) as [[u|e] h1];
    [|reflexivity].
  cbn. destruct fuel; reflexivity.
Qed.

(** A turn, spelled out: retrieval, the gate, one answering node. *)
Lemma run_turn (checkpoint : string -> option RAGState)
    (q thread_id : string) (h : Heap) :
  run w checkpoint q thread_id h =
  let '(state, h1) := after_retriever w checkpoint q thread_id h in
  match _decide_next_step w state h1 with
  | (Raise e, h2) => (Raise e, h2)
  | (Ok r, h2) =>
      if (r =? "generate_direct")%string then
        finish state
          (_generate_direct_answer w state
             (record (EvNode "generate_direct") h2))
      else if (r =? "agent_search")%string then
        finish state
          (RAGNodes.generate_answer w state
             (record (EvNode "agent_search") h2))
      else (Raise (Exn "KeyError" r), h2)
  end.
Proof.
  unfold run, graph_invoke, after_retriever.
  cbn [build entry_point add_edge add_conditional_edges set_entry_point
       add_node empty_graph].
  set (state := initial_state checkpoint q thread_id).
  unfold recursion_limit.
  change (run_from 25 ?g "retriever" state h) with
    ((emit (EvNode "retriever") ;;;
      u <- RAGNodes.retrieve_docs w state ;;
      nxt <- next_node g "retriever" (apply_update state u) ;;
      run_from 24 g nxt (apply_update state u)) h).
  unfold bind at 1 2. unfold emit.
  destruct (retrieve_docs_total w state (record (EvNode "retriever") h))
    as [docs ->].
  change (next_node ?g "retriever" ?st) with
    (r <- _decide_next_step w st ;;
     match lookup r [("generate_direct", "generate_direct");
                     ("agent_search", "agent_search")] with
     | Some target => ret target
     | None => raise (Exn "KeyError" r)
     end).
  unfold bind.
  destruct (_decide_next_step w _ _) as [[r|e] h2]; [|reflexivity].
  cbn [lookup].
  destruct (r =? "generate_direct")%string eqn:E1.
  - unfold ret. apply (run_from_direct 23).
  - destruct (r =? "agent_search")%string eqn:E2.
    + unfold ret. apply (run_from_agent 23).
    + reflexivity.
Qed.

Lemma initial_state_question (checkpoint : string -> option RAGState)
    (q thread_id : string) :
  question (initial_state checkpoint q thread_id) = q.
Proof. unfold initial_state. destruct (checkpoint thread_id); reflexivity. Qed.

Lemma after_retriever_ok (checkpoint : string -> option RAGState)
    (q thread_id : string) (h : Heap) (docs : list Document) :
  retriever_invoke w q = Ok docs ->
  after_retriever w checkpoint q thread_id h =
  ({| question := q; retrieved_docs := Some docs;
      answer := answer (initial_state checkpoint q thread_id) |},
   record (EvRetriever q) (record (EvNode "retriever") h)).
Proof.
  intros H. unfold after_retriever.
  rewrite (@retrieve_docs_ok w _ _ docs)
    by (rewrite initial_state_question; exact H).
  unfold apply_update. cbn [set_retrieved_docs set_answer].
  rewrite initial_state_question. reflexivity.
Qed.

Lemma after_retriever_raise (checkpoint : string -> option RAGState)
    (q thread_id : string) (h : Heap) (e : exn) :
  retriever_invoke w q = Raise e ->
  after_retriever w checkpoint q thread_id h =
  ({| question := q; retrieved_docs := Some [];
      answer := answer (initial_state checkpoint q thread_id) |},
   record (EvRetriever q) (record (EvNode "retriever") h)).
Proof.
  intros H. unfold after_retriever.
  rewrite (@retrieve_docs_raise w _ _ e)
    by (rewrite initial_state_question; exact H).
  unfold apply_update. cbn [set_retrieved_docs set_answer].
  rewrite initial_state_question. reflexivity.
Qed.

(** After the retrieval node: the question asked, some document list, one
    more node entered, the agent untouched. *)
Lemma after_retriever_shape (checkpoint : string -> option RAGState)
    (q thread_id : string) (h : Heap) :
  exists docs,
    after_retriever w checkpoint q thread_id h =
    ({| question := q; retrieved_docs := Some docs;
        answer := answer (initial_state checkpoint q thread_id) |},
     record (EvRetriever q) (record (EvNode "retriever") h)).
Proof.
  destruct (retriever_invoke w q) as [docs|e] eqn:E.
  - exists docs. apply after_retriever_ok, E.
  - exists []. apply (@after_retriever_raise _ _ _ _ e), E.
Qed.

Lemma decide_agent (state : RAGState) (h : Heap) :
  _agent (snd (_decide_next_step w state h)) = _agent h.
Proof.
  unfold _decide_next_step, call_llm, bind, emit, lift, ret.
  destruct (retrieved_docs state) as [[|d docs]|]; cbn; try reflexivity.
  destruct (llm_invoke w _) as [r|e]; cbn; [|reflexivity].
  destruct (PyStr.contains _ _); reflexivity.
Qed.

Lemma snd_finish (state : RAGState) (r : outcome Update * Heap) :
  snd (finish state r) = snd r.
Proof. destruct r as [[u|e] h]; reflexivity. Qed.

Lemma node_trace_record (name : string) (h : Heap) :
  node_trace (trace (record (EvNode name) h)) =
  (node_trace (trace h) ++ [name])%list.
Proof. cbn. now rewrite node_trace_app. Qed.

Lemma node_trace_record_retriever (q : string) (h : Heap) :
  node_trace (trace (record (EvRetriever q) h)) = node_trace (trace h).
Proof. cbn. rewrite node_trace_app. cbn. apply app_nil_r. Qed.
End TurnFacts.

(* ------------------------------------------------------------------ *)
(** ** The Sufficiency Gate *)

(** C2.  When the retrieved document list is empty, the gate returns
    "agent_search" whatever the question and whatever the language model
    would do, and leaves the heap as it was: no request to the judge is
    made. *)
Theorem gate_empty_goes_to_agent (w : World) (state : RAGState) (h : Heap) :
  retrieved_docs state = Some [] \/ retrieved_docs state = None ->
  GraphBuilder._decide_next_step w state h = (Ok "agent_search", h)
  /\ llm_calls (trace (snd (GraphBuilder._decide_next_step w state h))) =
     llm_calls (trace h).
Proof.
  intros H.
  assert (E : GraphBuilder._decide_next_step w state h
              = (Ok "agent_search", h)).
  { apply decide_empty. tauto. }
  rewrite E. split; reflexivity.
Qed.

Lemma gate_empty_goes_to_agent_witness :
  (retrieved_docs (Samples.retrieved "What is today's weather?" []) = Some []
   \/ retrieved_docs (Samples.retrieved "What is today's weather?" []) = None)
  /\ GraphBuilder._decide_next_step Samples.world_llm_down
       (Samples.retrieved "What is today's weather?" []) Samples.fresh
     = (Ok "agent_search", Samples.fresh).
Proof.
  split.
  - left. reflexivity.
  - apply (gate_empty_goes_to_agent Samples.world_llm_down
             (Samples.retrieved "What is today's weather?" [])
             Samples.fresh).
    left. reflexivity.
Defined.

(** C3.  On a non-empty document list, when the judge answers with the
    ASCII text [response], the gate returns "generate_direct" exactly when
    "oui" occurs in [response] up to letter case, and "agent_search" exactly
    when it does not. *)
Theorem gate_direct_iff_affirmative (w : World) (state : RAGState) (h : Heap)
    (d : Document) (docs : list Document) (response : string) :
  retrieved_docs state = Some (d :: docs) ->
  llm_invoke w
    (GraphBuilder.judge_messages (question state)
       (GraphBuilder.judge_context (d :: docs))) = Ok response ->
  PyStr.is_ascii response ->
  (fst (GraphBuilder._decide_next_step w state h) = Ok "generate_direct"
   <-> PyStr.occurs_nocase "oui" response)
  /\ (fst (GraphBuilder._decide_next_step w state h) = Ok "agent_search"
      <-> ~ PyStr.occurs_nocase "oui" response).
Proof.
  intros Hd Hl _. rewrite (decide_judged w state h Hd Hl).
  cbn [fst]. rewrite <- oui_in_decision.
  destruct (PyStr.contains "oui" (PyStr.lower (PyStr.strip response)));
    split; split; intros H; try reflexivity; try discriminate;
    try congruence.
Qed.

Lemma gate_direct_iff_affirmative_witness :
  fst (GraphBuilder._decide_next_step Samples.world_sufficient
         (Samples.retrieved "What is the capital of France?" [Samples.paris])
         Samples.fresh) = Ok "generate_direct"
  <-> PyStr.occurs_nocase "oui" " Oui. ".
Proof.
  apply (gate_direct_iff_affirmative Samples.world_sufficient
           (Samples.retrieved "What is the capital of France?"
              [Samples.paris])
           Samples.fresh (d := Samples.paris) (docs := [])
           (response := " Oui. ")); reflexivity.
Defined.

(** C4, as the code has it.  On a non-empty document list, when the request
    to the judge raises, the gate returns nothing: the exception leaves the
    gate after that one request, leaves the turn with only the retrieval
    node entered, and the chat handler shows its error box. *)
Theorem gate_judge_failure_propagates (w : World)
    (checkpoint : string -> option RAGState) (q thread_id : string)
    (h : Heap) (d : Document) (docs : list Document) (e : exn) :
  retriever_invoke w q = Ok (d :: docs) ->
  llm_invoke w
    (GraphBuilder.judge_messages q (GraphBuilder.judge_context (d :: docs)))
  = Raise e ->
  (forall state h',
      question state = q -> retrieved_docs state = Some (d :: docs) ->
      GraphBuilder._decide_next_step w state h' =
      (Raise e,
       record (EvLLM (GraphBuilder.judge_messages q
                        (GraphBuilder.judge_context (d :: docs)))) h'))
  /\ fst (GraphBuilder.run w checkpoint q thread_id h) = Raise e
  /\ node_trace (trace (snd (GraphBuilder.run w checkpoint q thread_id h)))
     = (node_trace (trace h) ++ ["retriever"])%list
  /\ fst (App.handle_question w checkpoint q thread_id h)
     = Ok (App.error
             "Désolé, une erreur technique est survenue. Veuillez vérifier les logs.").
Proof.
  intros Hr Hl.
  assert (Hgate : forall state h',
      question state = q -> retrieved_docs state = Some (d :: docs) ->
      GraphBuilder._decide_next_step w state h' =
      (Raise e,
       record (EvLLM (GraphBuilder.judge_messages q
                        (GraphBuilder.judge_context (d :: docs)))) h')).
  { intros state h' Hq Hd. subst q. apply (decide_raise w state h' Hd Hl). }
  assert (Hrun : GraphBuilder.run w checkpoint q thread_id h =
     (Raise e,
      record (EvLLM (GraphBuilder.judge_messages q
                       (GraphBuilder.judge_context (d :: docs))))
        (record (EvRetriever q) (record (EvNode "retriever") h)))).
  { rewrite run_turn. unfold GraphBuilder.after_retriever.
    assert (Hq : question
                   (GraphBuilder.initial_state checkpoint q thread_id) = q).
    { unfold GraphBuilder.initial_state.
      destruct (checkpoint thread_id); reflexivity. }
    rewrite (retrieve_docs_ok w _ _ (docs := d :: docs)), Hq
      by (rewrite Hq; exact Hr).
    rewrite Hgate; [reflexivity | exact Hq | reflexivity]. }
  split; [exact Hgate|].
  split; [rewrite Hrun; reflexivity|].
  split.
  - rewrite Hrun. cbn. rewrite !node_trace_app. cbn.
    rewrite !app_nil_r. reflexivity.
  - unfold App.handle_question, try_except, bind.
    rewrite Hrun. reflexivity.
Qed.

Lemma gate_judge_failure_propagates_witness :
  fst (GraphBuilder.run Samples.world_llm_down Samples.no_checkpoint
         "What is the capital of France?" "t1" Samples.fresh)
  = Raise Samples.connection_error.
Proof.
  destruct (gate_judge_failure_propagates Samples.world_llm_down
              Samples.no_checkpoint "What is the capital of France?" "t1"
              Samples.fresh (d := Samples.paris) (docs := [])
              (e := Samples.connection_error) eq_refl eq_refl)
    as [_ [H _]].
  exact H.
Defined.

(** C4 as stated fails: with one document retrieved and the language model
    unreachable, the gate raises instead of returning "agent_search". *)
Lemma gate_fail_open_counterexample :
  fst (GraphBuilder._decide_next_step Samples.world_llm_down
         (Samples.retrieved "What is the capital of France?" [Samples.paris])
         Samples.fresh) = Raise Samples.connection_error
  /\ fst (GraphBuilder._decide_next_step Samples.world_llm_down
           (Samples.retrieved "What is the capital of France?"
              [Samples.paris])
           Samples.fresh) <> Ok "agent_search".
Proof.
  split.
  - reflexivity.
  - intros H. vm_compute in H. discriminate H.
Qed.

(* ------------------------------------------------------------------ *)
(** ** The Direct Answer Generator *)

(** C6, as the code has it.  When the gate has chosen the direct path and
    the generation request raises, the generator raises that very exception,
    wrapped in nothing, the turn ends with it after entering the retrieval
    and the direct node only, no answer is produced, and the chat handler
    shows its error box. *)
Theorem direct_failure_propagates (w : World)
    (checkpoint : string -> option RAGState) (q thread_id : string)
    (h : Heap) (d : Document) (docs : list Document) (response : string)
    (e : exn) :
  retriever_invoke w q = Ok (d :: docs) ->
  llm_invoke w
    (GraphBuilder.judge_messages q (GraphBuilder.judge_context (d :: docs)))
  = Ok response ->
  PyStr.occurs_nocase "oui" response ->
  llm_invoke w
    (GraphBuilder.direct_messages (GraphBuilder.direct_context (d :: docs)) q)
  = Raise e ->
  (forall state h',
      question state = q -> retrieved_docs state = Some (d :: docs) ->
      fst (GraphBuilder._generate_direct_answer w state h') = Raise e)
  /\ fst (GraphBuilder.run w checkpoint q thread_id h) = Raise e
  /\ node_trace (trace (snd (GraphBuilder.run w checkpoint q thread_id h)))
     = (node_trace (trace h) ++ ["retriever"; "generate_direct"])%list
  /\ fst (App.handle_question w checkpoint q thread_id h)
     = Ok (App.error
             "Désolé, une erreur technique est survenue. Veuillez vérifier les logs.").
Proof.
  intros Hr Hj Hyes Hg.
  assert (Hnode : forall state h',
      question state = q -> retrieved_docs state = Some (d :: docs) ->
      GraphBuilder._generate_direct_answer w state h' =
      (Raise e,
       record (EvLLM (GraphBuilder.direct_messages
                        (GraphBuilder.direct_context (d :: docs)) q)) h')).
  { intros state h' Hq Hd. subst q. apply (direct_answer_raise w state h' Hd Hg). }
  apply oui_in_decision in Hyes.
  assert (Hrun : exists h3,
     GraphBuilder.run w checkpoint q thread_id h = (Raise e, h3) /\
     node_trace (trace h3) =
     (node_trace (trace h) ++ ["retriever"; "generate_direct"])%list).
  { rewrite run_turn, (@after_retriever_ok w checkpoint q thread_id h (d :: docs) Hr).
    rewrite (@decide_judged w _ _ d docs response) by (assumption || reflexivity).
    rewrite Hyes. cbn [String.eqb Ascii.eqb Bool.eqb].
    rewrite Hnode by reflexivity. cbn [GraphBuilder.finish question].
    eexists. split; [reflexivity|].
    cbn. rewrite !node_trace_app. cbn. rewrite !app_nil_r, <- app_assoc.
    reflexivity. }
  destruct Hrun as [h3 [Hrun Htr]].
  split; [intros state h' Hq Hd; now rewrite Hnode|].
  split; [now rewrite Hrun|].
  split; [now rewrite Hrun|].
  unfold App.handle_question, try_except, bind. rewrite Hrun. reflexivity.
Qed.

Lemma direct_failure_propagates_witness :
  fst (GraphBuilder.run Samples.world_generator_down Samples.no_checkpoint
         "What is the capital of France?" "t1" Samples.fresh)
  = Raise Samples.connection_error.
Proof.
  assert (Hyes : PyStr.occurs_nocase "oui" "oui").
  { exists "", "oui", "". split; [reflexivity|].
    repeat constructor. }
  destruct (direct_failure_propagates Samples.world_generator_down
              Samples.no_checkpoint "What is the capital of France?" "t1"
              Samples.fresh (d := Samples.paris) (docs := [])
              (response := "oui") (e := Samples.connection_error)
              eq_refl eq_refl Hyes eq_refl)
    as [_ [H _]].
  exact H.
Defined.

(** C6 as stated fails: with one document retrieved, the judge saying yes
    and the generation request refused, what leaves the generator and the
    turn is the request's own [ConnectionError], not an
    [AnswerGenerationError]. *)
Lemma direct_failure_not_wrapped_counterexample :
  fst (GraphBuilder._generate_direct_answer Samples.world_generator_down
         (Samples.retrieved "What is the capital of France?" [Samples.paris])
         Samples.fresh)
  = Raise (Exn "ConnectionError" "connection refused")
  /\ fst (GraphBuilder.run Samples.world_generator_down Samples.no_checkpoint
           "What is the capital of France?" "t1" Samples.fresh)
     = Raise (Exn "ConnectionError" "connection refused")
  /\ forall msg,
       fst (GraphBuilder.run Samples.world_generator_down
              Samples.no_checkpoint "What is the capital of France?" "t1"
              Samples.fresh)
       <> Raise (Exn "AnswerGenerationError" msg).
Proof.
  split; [reflexivity|]. split; [reflexivity|].
  intros msg H. vm_compute in H. discriminate H.
Qed.

(* ------------------------------------------------------------------ *)
(** ** The agent path *)

(** C7.  Whenever the agent node runs with an agent at hand and the agent's
    run raises, the node returns the message "Erreur de l'agent : ..." as
    the answer; from the agent node the graph reaches its end with that
    answer in the state; and a turn the gate has sent to the agent returns
    that state, which the chat handler shows as the answer. *)
Theorem agent_failure_becomes_answer (w : World) (a : Agent) (e : exn)
    (checkpoint : string -> option RAGState) (q thread_id : string)
    (h : Heap) :
  RAGNodes.agent_of w h = Ok a ->
  a [ {| role := user; content := q |} ] = Raise e ->
  (forall state, question state = q ->
     fst (RAGNodes.generate_answer w state h) = Ok (RAGNodes.agent_error e))
  /\ (forall state fuel, question state = q ->
       fst (GraphBuilder.run_from (S fuel) (GraphBuilder.build w)
              "agent_search" state h)
       = Ok {| question := q; retrieved_docs := retrieved_docs state;
               answer := Some ("Erreur de l'agent : " ++ str e) |})
  /\ (GraphBuilder.gate_outcome w checkpoint q thread_id h
      = Ok "agent_search" ->
      (exists docs,
         fst (GraphBuilder.run w checkpoint q thread_id h)
         = Ok {| question := q; retrieved_docs := docs;
                 answer := Some ("Erreur de l'agent : " ++ str e) |})
      /\ fst (App.handle_question w checkpoint q thread_id h)
         = Ok (App.markdown ("Erreur de l'agent : " ++ str e))).
Proof.
  intros Ha He.
  assert (Hnode : forall state h', question state = q ->
            _agent h' = _agent h ->
            fst (RAGNodes.generate_answer w state h')
            = Ok (RAGNodes.agent_error e)).
  { intros state h' Hq Hh. subst q.
    apply (@generate_answer_raise w state h' a e); [|exact He].
    unfold RAGNodes.agent_of in *. now rewrite Hh. }
  assert (Hfin : forall state h', question state = q ->
            _agent h' = _agent h ->
            fst (GraphBuilder.finish state
                   (RAGNodes.generate_answer w state h'))
            = Ok {| question := q; retrieved_docs := retrieved_docs state;
                    answer := Some ("Erreur de l'agent : " ++ str e) |}).
  { intros state h' Hq Hh. pose proof (Hnode state h' Hq Hh) as H.
    destruct (RAGNodes.generate_answer w state h') as [[u|e'] h1];
      cbn in H; [|discriminate H].
    injection H as ->. cbn [fst GraphBuilder.finish].
    unfold apply_update. cbn [set_retrieved_docs set_answer RAGNodes.agent_error].
    now rewrite Hq. }
  split; [intros state Hq; now apply Hnode|].
  split.
  { intros state fuel Hq. rewrite run_from_agent. now apply Hfin. }
  intros Hgate.
  assert (Hrun : exists docs,
            fst (GraphBuilder.run w checkpoint q thread_id h)
            = Ok {| question := q; retrieved_docs := docs;
                    answer := Some ("Erreur de l'agent : " ++ str e) |}).
  { rewrite run_turn. unfold GraphBuilder.gate_outcome in Hgate.
    destruct (after_retriever_shape w checkpoint q thread_id h)
      as [docs Hshape].
    rewrite Hshape in *.
    pose proof (decide_agent w
      {| question := q; retrieved_docs := Some docs;
         answer := answer (GraphBuilder.initial_state checkpoint q thread_id) |}
      (record (EvRetriever q) (record (EvNode "retriever") h))) as Hag.
    destruct (GraphBuilder._decide_next_step w _ _) as [[r|e'] h2];
      cbn [fst snd] in *; inversion Hgate; subst r.
    cbn [String.eqb Ascii.eqb Bool.eqb].
    exists (Some docs). now apply Hfin. }
  split; [exact Hrun|].
  destruct Hrun as [docs Hrun].
  unfold App.handle_question, try_except, bind, ret.
  destruct (GraphBuilder.run w checkpoint q thread_id h) as [[st|e'] h1];
    cbn in Hrun; inversion Hrun; subst. reflexivity.
Qed.

Lemma agent_failure_becomes_answer_witness :
  fst (App.handle_question Samples.world_agent_down Samples.no_checkpoint
         "What is today's weather?" "t1" Samples.fresh)
  = Ok (App.markdown "Erreur de l'agent : connection refused").
Proof.
  destruct (@agent_failure_becomes_answer Samples.world_agent_down
              Samples.failing_agent Samples.connection_error
              Samples.no_checkpoint "What is today's weather?" "t1"
              Samples.fresh eq_refl eq_refl)
    as [_ [_ H]].
  exact (proj2 (H eq_refl)).
Defined.

(* ------------------------------------------------------------------ *)
(** ** The shape of a turn *)

(** The nodes a turn enters, by what the gate returns. *)
Lemma turn_shape (w : World)
    (checkpoint : string -> option RAGState) (q thread_id : string)
    (h : Heap) :
  let entered :=
    node_trace (trace (snd (GraphBuilder.run w checkpoint q thread_id h))) in
  match GraphBuilder.gate_outcome w checkpoint q thread_id h with
  | Ok r =>
      (r = "generate_direct" \/ r = "agent_search")
      /\ entered = (node_trace (trace h) ++ ["retriever"; r])%list
  | Raise e =>
      entered = (node_trace (trace h) ++ ["retriever"])%list
      /\ fst (GraphBuilder.run w checkpoint q thread_id h) = Raise e
  end.
Proof.
  cbv zeta. rewrite run_turn. unfold GraphBuilder.gate_outcome.
  destruct (after_retriever_shape w checkpoint q thread_id h)
    as [docs Hshape].
  rewrite Hshape.
  set (state := {| question := q; retrieved_docs := Some docs;
                   answer := _ |}).
  set (h1 := record (EvRetriever q) (record (EvNode "retriever") h)).
  assert (Hh1 : node_trace (trace h1)
                = (node_trace (trace h) ++ ["retriever"])%list).
  { unfold h1. now rewrite node_trace_record_retriever, node_trace_record. }
  pose proof (decide_nodes w state h1) as Hn.
  pose proof (@decide_routes w state h1) as Hroutes.
  destruct (GraphBuilder._decide_next_step w state h1) as [[r|e] h2];
    cbn [fst snd] in *.
  - destruct (Hroutes r eq_refl) as [-> | ->];
      cbn [String.eqb Ascii.eqb Bool.eqb]; (split; [auto|]);
      rewrite snd_finish.
    + rewrite direct_answer_nodes, node_trace_record, Hn, Hh1.
      now rewrite <- app_assoc.
    + rewrite generate_answer_nodes, node_trace_record, Hn, Hh1.
      now rewrite <- app_assoc.
  - split; [|reflexivity]. now rewrite Hn, Hh1.
Qed.

(** C9, as the code has it.  Every turn enters the retrieval node once and
    then, when the gate returns a decision, exactly one answering node, the
    one the gate names, and nothing else; when the gate raises, the turn
    ends with that exception and enters no answering node.  No node is
    entered twice. *)
Theorem turn_single_pass (w : World)
    (checkpoint : string -> option RAGState) (q thread_id : string)
    (h : Heap) :
  exists visited,
    node_trace (trace (snd (GraphBuilder.run w checkpoint q thread_id h)))
    = (node_trace (trace h) ++ visited)%list
    /\ NoDup visited
    /\ match GraphBuilder.gate_outcome w checkpoint q thread_id h with
       | Ok r =>
           (r = "generate_direct" \/ r = "agent_search")
           /\ visited = ["retriever"; r]
       | Raise e =>
           visited = ["retriever"]
           /\ fst (GraphBuilder.run w checkpoint q thread_id h) = Raise e
       end.
Proof.
  pose proof (turn_shape w checkpoint q thread_id h) as H. cbv zeta in H.
  destruct (GraphBuilder.gate_outcome w checkpoint q thread_id h) as [r|e].
  - destruct H as [Hr H]. exists ["retriever"; r].
    split; [exact H|]. split; [|auto].
    destruct Hr as [-> | ->];
      (constructor; [cbn; intros [E|[]]; discriminate E|]);
      (constructor; [intros []|constructor]).
  - destruct H as [H He]. exists ["retriever"].
    split; [exact H|]. split; [|auto].
    constructor; [intros []|constructor].
Qed.

(** C9 as stated fails: with one document retrieved and the language model
    unreachable, the turn enters the retrieval node and no answering node. *)
Lemma turn_without_answer_counterexample :
  node_trace
    (trace (snd (GraphBuilder.run Samples.world_llm_down
                   Samples.no_checkpoint "What is the capital of France?"
                   "t1" Samples.fresh))) = ["retriever"]
  /\ ~ (In "generate_direct"
          (node_trace
             (trace (snd (GraphBuilder.run Samples.world_llm_down
                            Samples.no_checkpoint
                            "What is the capital of France?" "t1"
                            Samples.fresh))))
        \/ In "agent_search"
             (node_trace
                (trace (snd (GraphBuilder.run Samples.world_llm_down
                               Samples.no_checkpoint
                               "What is the capital of France?" "t1"
                               Samples.fresh))))).
Proof.
  split.
  - reflexivity.
  - vm_compute. intros [[H|[]] | [H|[]]]; discriminate H.
Qed.

(* ------------------------------------------------------------------ *)
(** ** A failing retriever *)

(** C10.  When the retriever raises on the question, the retrieval node
    returns the empty document list and raises nothing; the gate then
    returns "agent_search" without a request to the judge; the turn enters
    the retrieval node and the agent node, never the direct node; and the
    state and heap the gate receives are those of a retriever that found
    nothing. *)
Theorem retriever_failure_goes_to_agent (w : World)
    (checkpoint : string -> option RAGState) (q thread_id : string)
    (h : Heap) (e : exn) :
  retriever_invoke w q = Raise e ->
  (forall state h', question state = q ->
     RAGNodes.retrieve_docs w state h' =
     (Ok {| set_retrieved_docs := Some []; set_answer := None |},
      record (EvRetriever q) h'))
  /\ GraphBuilder.gate_outcome w checkpoint q thread_id h = Ok "agent_search"
  /\ (let '(state, h1) :=
        GraphBuilder.after_retriever w checkpoint q thread_id h in
      snd (GraphBuilder._decide_next_step w state h1) = h1)
  /\ node_trace (trace (snd (GraphBuilder.run w checkpoint q thread_id h)))
     = (node_trace (trace h) ++ ["retriever"; "agent_search"])%list
  /\ GraphBuilder.after_retriever w checkpoint q thread_id h =
     GraphBuilder.after_retriever
       {| llm_invoke := llm_invoke w;
          retriever_invoke := fun _ => Ok [];
          create_react_agent := create_react_agent w |}
       checkpoint q thread_id h.
Proof.
  intros Hr.
  assert (Hgate : GraphBuilder.gate_outcome w checkpoint q thread_id h
                  = Ok "agent_search").
  { unfold GraphBuilder.gate_outcome.
    now rewrite (@after_retriever_raise w checkpoint q thread_id h e Hr). }
  split.
  { intros state h' Hq. subst q. apply (@retrieve_docs_raise w state h' e Hr). }
  split; [exact Hgate|].
  split.
  { now rewrite (@after_retriever_raise w checkpoint q thread_id h e Hr). }
  split.
  { pose proof (turn_shape w checkpoint q thread_id h) as H.
    rewrite Hgate in H. apply H. }
  rewrite (@after_retriever_raise w checkpoint q thread_id h e Hr).
  symmetry. now apply after_retriever_ok.
Qed.

Lemma retriever_failure_goes_to_agent_witness :
  GraphBuilder.gate_outcome Samples.world_retriever_down
    Samples.no_checkpoint "What is the capital of France?" "t1" Samples.fresh
  = Ok "agent_search".
Proof.
  destruct (@retriever_failure_goes_to_agent Samples.world_retriever_down
              Samples.no_checkpoint "What is the capital of France?" "t1"
              Samples.fresh Samples.connection_error eq_refl)
    as [_ [H _]].
  exact H.
Defined.

(* ------------------------------------------------------------------ *)
(** ** An unavailable index *)

(** C5, as the code has it.  When exactly one of the dense and the sparse
    index cannot be constructed, [create_vectorstore] on a fresh store (one
    that holds no retriever) raises and installs no retriever, so that
    [get_retriever] and [retrieve] raise "Vector store not initialized":
    nothing is computed from the remaining index.  On a corpus that is not
    empty the exception raised is the constructor's own.  And when a
    retriever raises inside the retrieval node, the node returns the empty
    list. *)
Theorem index_failure_fails_retrieval (m : VectorStoreM.Models)
    (documents : list Document) (query : string) (e : exn) :
  (VectorStoreM.dense_unavailable m = Some e
   /\ VectorStoreM.sparse_unavailable m = None)
  \/ (VectorStoreM.dense_unavailable m = None
      /\ VectorStoreM.sparse_unavailable m = Some e) ->
  (exists e',
     fst (VectorStoreM.create_vectorstore m VectorStoreM.init documents)
     = Raise e'
     /\ (documents <> [] -> e' = e))
  /\ VectorStoreM.retriever
       (snd (VectorStoreM.create_vectorstore m VectorStoreM.init documents))
     = None
  /\ VectorStoreM.get_retriever
       (snd (VectorStoreM.create_vectorstore m VectorStoreM.init documents))
     = Raise VectorStoreM.not_initialized
  /\ VectorStoreM.retrieve
       (snd (VectorStoreM.create_vectorstore m VectorStoreM.init documents))
       query
     = Raise VectorStoreM.not_initialized
  /\ (forall w state h e',
        retriever_invoke w (question state) = Raise e' ->
        fst (RAGNodes.retrieve_docs w state h)
        = Ok {| set_retrieved_docs := Some []; set_answer := None |}).
Proof.
  intros H.
  assert (Hc : exists e' vs,
             VectorStoreM.create_vectorstore m VectorStoreM.init documents
             = (Raise e',
                {| VectorStoreM.vectorstore := vs;
                   VectorStoreM.retriever := None |})
             /\ (documents <> [] -> e' = e)).
  { unfold VectorStoreM.create_vectorstore,
      VectorStoreM.FAISS_from_documents,
      VectorStoreM.BM25Retriever_from_documents.
    destruct H as [[Hd Hs] | [Hd Hs]]; rewrite Hd, ?Hs.
    - exists e, None. split; [reflexivity | tauto].
    - destruct documents as [|d documents].
      + exists VectorStoreM.empty_dense_index, None.
        split; [reflexivity | congruence].
      + exists e, (Some (d :: documents)). split; [reflexivity | tauto]. }
  destruct Hc as [e1 [vs [Hc He1]]].
  rewrite Hc.
  split; [exists e1; split; [reflexivity | exact He1]|].
  split; [reflexivity|]. split; [reflexivity|]. split; [reflexivity|].
  intros w state h e' Hr.
  now rewrite (@retrieve_docs_raise w state h e' Hr).
Qed.

Lemma index_failure_fails_retrieval_witness :
  VectorStoreM.retrieve
    (snd (VectorStoreM.create_vectorstore Samples.models_dense_down
            VectorStoreM.init Samples.corpus))
    "capital"
  = Raise VectorStoreM.not_initialized.
Proof.
  destruct (@index_failure_fails_retrieval Samples.models_dense_down
              Samples.corpus "capital" Samples.connection_error
              (or_introl (conj eq_refl eq_refl)))
    as [_ [_ [_ [H _]]]].
  exact H.
Defined.

(** C5 as stated fails: with the dense index unavailable and the sparse one
    available, retrieval over a corpus of four documents returns no result
    at all. *)
Lemma degraded_retrieval_counterexample :
  VectorStoreM.sparse_unavailable Samples.models_dense_down = None
  /\ fst (VectorStoreM.create_vectorstore Samples.models_dense_down
            VectorStoreM.init Samples.corpus)
     = Raise Samples.connection_error
  /\ forall docs,
       VectorStoreM.retrieve
         (snd (VectorStoreM.create_vectorstore Samples.models_dense_down
                 VectorStoreM.init Samples.corpus))
         "capital"
       <> Ok docs.
Proof.
  split; [reflexivity|]. split; [reflexivity|].
  intros docs H. vm_compute in H. discriminate H.
Qed.

Lemma retrieve_bounded_and_ordered_witness :
  exists docs,
    VectorStoreM.retrieve
      (snd (VectorStoreM.create_vectorstore Samples.models
              VectorStoreM.init Samples.corpus))
      "capital" = Ok docs
    /\ List.length docs <= 3
    /\ StronglySorted
         (VectorStoreM.desc
            (VectorStoreM.rerank_score Samples.models "capital")) docs
    /\ incl docs Samples.corpus
    /\ docs <> [].
Proof.
  apply (proj1 (@retrieve_bounded_and_ordered Samples.models
                  VectorStoreM.init Samples.corpus "capital"
                  eq_refl eq_refl eq_refl)).
  discriminate.
Defined.

(** C1 as stated fails on the empty corpus: with every component available,
    building the store on no document raises, and [retrieve] on the store
    then raises instead of returning the empty list. *)
Lemma empty_corpus_counterexample :
  VectorStoreM.dense_unavailable Samples.models = None
  /\ VectorStoreM.sparse_unavailable Samples.models = None
  /\ VectorStoreM.reranker_unavailable Samples.models = None
  /\ fst (VectorStoreM.create_vectorstore Samples.models
            VectorStoreM.init [])
     = Raise (Exn "IndexError" "list index out of range")
  /\ VectorStoreM.retrieve
       (snd (VectorStoreM.create_vectorstore Samples.models
               VectorStoreM.init []))
       "capital"
     = Raise VectorStoreM.not_initialized
  /\ VectorStoreM.retrieve
       (snd (VectorStoreM.create_vectorstore Samples.models
               VectorStoreM.init []))
       "capital"
     <> Ok [].
Proof.
  repeat (split; [reflexivity|]).
  intros H. vm_compute in H. discriminate H.
Qed.

(* ------------------------------------------------------------------ *)
(** ** Scenarios *)

(** Scenario A: one document about Paris, the judge says yes, the answer
    comes from the direct generator. *)
Example scenario_direct_answer :
  fst (GraphBuilder.run Samples.world_sufficient Samples.no_checkpoint
         "What is the capital of France?" "t1" Samples.fresh)
  = Ok {| question := "What is the capital of France?";
          retrieved_docs := Some [Samples.paris];
          answer := Some "Paris." |}
  /\ node_trace
       (trace (snd (GraphBuilder.run Samples.world_sufficient
                      Samples.no_checkpoint "What is the capital of France?"
                      "t1" Samples.fresh)))
     = ["retriever"; "generate_direct"].
Proof. split; reflexivity. Qed.

(** The judge says no: the agent answers, after being built once. *)
Example scenario_agent_answer :
  fst (GraphBuilder.run Samples.world_insufficient Samples.no_checkpoint
         "What is today's weather?" "t1" Samples.fresh)
  = Ok {| question := "What is today's weather?";
          retrieved_docs := Some [Samples.paris];
          answer := Some "42" |}
  /\ node_trace
       (trace (snd (GraphBuilder.run Samples.world_insufficient
                      Samples.no_checkpoint "What is today's weather?" "t1"
                      Samples.fresh)))
     = ["retriever"; "agent_search"].
Proof. split; reflexivity. Qed.

(** A second turn on a thread starts from the checkpoint of the first and
    overwrites its documents and its answer. *)
Example scenario_second_turn :
  fst (GraphBuilder.run Samples.world_insufficient
         (fun _ => Some {| question := "What is the capital of France?";
                           retrieved_docs := Some [Samples.berlin];
                           answer := Some "Paris." |})
         "What is today's weather?" "t1" Samples.fresh)
  = Ok {| question := "What is today's weather?";
          retrieved_docs := Some [Samples.paris];
          answer := Some "42" |}.
Proof. reflexivity. Qed.

Example decision_text :
  PyStr.lower (PyStr.strip " Oui. ") = "oui."
  /\ PyStr.contains "oui" (PyStr.lower (PyStr.strip "Non.")) = false
  /\ PyStr.contains "oui" (PyStr.lower (PyStr.strip "Louis")) = true.
Proof. repeat split; reflexivity. Qed.

(** The retriever as a tool never raises. *)
Lemma execute_retriever_total (w : World) (query : string) (h : Heap) :
  exists text, fst (RAGNodes._execute_retriever w query h) = Ok text.
Proof.
  unfold RAGNodes._execute_retriever, try_except, call_retriever, bind, emit,
    lift, ret.
  destruct (retriever_invoke w query) as [[|d docs]|e]; cbn; eauto.
Qed.

(* ================================================================== *)
(** * Further properties of the code *)

(* ------------------------------------------------------------------ *)
(** ** Building and rebuilding the vector store *)

Section StoreFacts.
Import VectorStoreM.

Lemma create_vectorstore_cases (m : Models) (self : VectorStore)
    (documents : list Document) :
  create_vectorstore m self documents =
  match dense_unavailable m with
  | Some e => (Raise e, self)
  | None =>
      match documents with
      | [] => (Raise empty_dense_index, self)
      | _ :: _ =>
      match sparse_unavailable m with
      | Some e =>
          (Raise e,
           {| vectorstore := Some documents; retriever := retriever self |})
      | None =>
          match reranker_unavailable m with
          | Some e =>
              (Raise e,
               {| vectorstore := Some documents;
                  retriever := retriever self |})
          | None =>
              (Ok tt,
               {| vectorstore := Some documents;
                  retriever :=
                    Some {| base_compressor :=
                              {| model := rerank_score m; top_n := 3 |};
                            base_retriever :=
                              {| retrievers :=
                                   [top_k 10 (sparse_score m) documents;
                                    as_retriever m documents 10];
                                 weights := [1 # 2; 1 # 2]%Q |} |} |})
          end
      end
      end
  end.
Proof.
  unfold create_vectorstore, FAISS_from_documents,
    BM25Retriever_from_documents, HuggingFaceCrossEncoder.
  destruct (dense_unavailable m); [reflexivity|].
  destruct documents as [|d documents]; [reflexivity|].
  destruct (sparse_unavailable m); [reflexivity|].
  destruct (reranker_unavailable m); reflexivity.
Qed.
End StoreFacts.

(** X1.  [create_vectorstore] succeeds exactly when there is a document and
    the dense index, the sparse index and the reranker can all be
    constructed; it then installs a retriever, whatever the store held
    before, and [retrieve] answers every query with what [get_retriever]'s
    retriever returns. *)
Theorem create_vectorstore_succeeds_iff (m : VectorStoreM.Models)
    (self : VectorStoreM.VectorStore) (documents : list Document) :
  (fst (VectorStoreM.create_vectorstore m self documents) = Ok tt
   <-> documents <> []
       /\ VectorStoreM.dense_unavailable m = None
       /\ VectorStoreM.sparse_unavailable m = None
       /\ VectorStoreM.reranker_unavailable m = None)
  /\ (fst (VectorStoreM.create_vectorstore m self documents) = Ok tt ->
      exists r,
        VectorStoreM.get_retriever
          (snd (VectorStoreM.create_vectorstore m self documents)) = Ok r
        /\ forall query,
             VectorStoreM.retrieve
               (snd (VectorStoreM.create_vectorstore m self documents)) query
             = Ok (VectorStoreM.invoke r query)).
Proof.
  rewrite create_vectorstore_cases.
  destruct (VectorStoreM.dense_unavailable m) as [e1|];
    [split; [split; [discriminate | intros [_ [H _]]; discriminate]
            | discriminate]|].
  destruct documents as [|d documents];
    [split; [split; [discriminate | intros [H _]; congruence]
            | discriminate]|].
  destruct (VectorStoreM.sparse_unavailable m) as [e2|];
    [split; [split; [discriminate | intros [_ [_ [H _]]]; discriminate]
            | discriminate]|].
  destruct (VectorStoreM.reranker_unavailable m) as [e3|];
    [split; [split; [discriminate | intros [_ [_ [_ H]]]; discriminate]
            | discriminate]|].
  split; [split; [intros _; repeat split; discriminate | reflexivity]|].
  intros _. eexists. split; reflexivity.
Qed.

(** X2.  A [create_vectorstore] that raises leaves the installed retriever
    in place: [retrieve] goes on answering as before the call, also when the
    dense index was rebuilt and [vectorstore] already holds the new
    documents; when the dense index itself could not be built, for want of
    the embedding service or of a document, [vectorstore] is as before. *)
Theorem failed_rebuild_keeps_retriever (m : VectorStoreM.Models)
    (self : VectorStoreM.VectorStore) (documents : list Document) (e : exn) :
  fst (VectorStoreM.create_vectorstore m self documents) = Raise e ->
  VectorStoreM.retriever
    (snd (VectorStoreM.create_vectorstore m self documents))
  = VectorStoreM.retriever self
  /\ (forall query,
        VectorStoreM.retrieve
          (snd (VectorStoreM.create_vectorstore m self documents)) query
        = VectorStoreM.retrieve self query)
  /\ (VectorStoreM.dense_unavailable m = None -> documents <> [] ->
      VectorStoreM.vectorstore
        (snd (VectorStoreM.create_vectorstore m self documents))
      = Some documents)
  /\ (VectorStoreM.dense_unavailable m <> None \/ documents = [] ->
      VectorStoreM.vectorstore
        (snd (VectorStoreM.create_vectorstore m self documents))
      = VectorStoreM.vectorstore self).
Proof.
  rewrite create_vectorstore_cases.
  destruct (VectorStoreM.dense_unavailable m) as [e1|].
  { intros _. repeat split; try reflexivity. discriminate. }
  destruct documents as [|d documents].
  { intros _. repeat split; try reflexivity. congruence. }
  destruct (VectorStoreM.sparse_unavailable m) as [e2|].
  { intros _. repeat split; try reflexivity.
    intros [H|H]; [congruence | discriminate]. }
  destruct (VectorStoreM.reranker_unavailable m) as [e3|].
  { intros _. repeat split; try reflexivity.
    intros [H|H]; [congruence | discriminate]. }
  discriminate.
Qed.

Lemma failed_rebuild_keeps_retriever_witness :
  VectorStoreM.retrieve
    (snd (VectorStoreM.create_vectorstore
            (Streamlit.models AppSamples.services_reranker_down)
            (snd (VectorStoreM.create_vectorstore Samples.models
                    VectorStoreM.init Samples.corpus))
            [Samples.rome]))
    "capital"
  = Ok [Samples.berlin; Samples.paris; Samples.madrid]
  /\ VectorStoreM.vectorstore
       (snd (VectorStoreM.create_vectorstore
               (Streamlit.models AppSamples.services_reranker_down)
               (snd (VectorStoreM.create_vectorstore Samples.models
                       VectorStoreM.init Samples.corpus))
               [Samples.rome]))
     = Some [Samples.rome].
Proof.
  destruct (@failed_rebuild_keeps_retriever
              (Streamlit.models AppSamples.services_reranker_down)
              (snd (VectorStoreM.create_vectorstore Samples.models
                      VectorStoreM.init Samples.corpus))
              [Samples.rome] Samples.connection_error eq_refl)
    as [_ [H1 [H2 _]]].
  split.
  - rewrite H1. vm_compute. reflexivity.
  - apply H2; [reflexivity | discriminate].
Defined.

(* ------------------------------------------------------------------ *)
(** ** Joined texts *)

Section JoinFacts.
Import PyStr.

Lemma contains_middle (x pre post : string) :
  contains x (pre ++ x ++ post) = true.
Proof. apply contains_iff. eauto. Qed.

Lemma contains_trans (x y z : string) :
  contains x y = true -> contains y z = true -> contains x z = true.
Proof.
  rewrite !contains_iff. intros [p1 [q1 ->]] [p2 [q2 ->]].
  exists (p2 ++ p1), (q1 ++ q2).
  now rewrite !append_assoc.
Qed.

Lemma contains_refl (x : string) : contains x x = true.
Proof.
  apply contains_iff. exists "", "". simpl.
  induction x as [|c x IH]; simpl; [reflexivity | now rewrite <- IH].
Qed.

Lemma contains_suffix (x pre : string) : contains x (pre ++ x) = true.
Proof.
  apply contains_iff. exists pre, "".
  f_equal. induction x as [|c x IH]; simpl; [reflexivity | now rewrite <- IH].
Qed.

Lemma join_contains (sep : string) (parts : list string) (x : string) :
  In x parts -> contains x (join sep parts) = true.
Proof.
  unfold join. induction parts as [|y r IH]; [intros []|].
  intros [E | Hin].
  - subst y. destruct r as [|z r]; simpl.
    + apply contains_refl.
    + apply (contains_middle x "" (sep ++ String.concat sep (z :: r))).
  - destruct r as [|z r]; [destruct Hin|].
    change (String.concat sep (y :: z :: r))
      with (y ++ sep ++ String.concat sep (z :: r)).
    apply contains_trans with (String.concat sep (z :: r)); [now apply IH|].
    rewrite <- append_assoc. apply contains_suffix.
Qed.

Lemma In_combine_r {A B : Type} (l1 : list A) (l2 : list B) (b : B) :
  List.length l1 = List.length l2 -> In b l2 ->
  exists a, In (a, b) (combine l1 l2).
Proof.
  revert l1. induction l2 as [|y r IH]; intros l1 Hlen Hin.
  - destruct Hin.
  - destruct l1 as [|x l1]; [discriminate Hlen|].
    injection Hlen as Hlen. destruct Hin as [E | Hin].
    + subst y. exists x. now left.
    + destruct (IH l1 Hlen Hin) as [a Ha]. exists a. now right.
Qed.
End JoinFacts.

(* ------------------------------------------------------------------ *)
(** ** The retriever tool and the agent node *)

Section ToolFacts.
Variable w : World.

Lemma agent_builds_app (a b : list Event) :
  Trace.agent_builds (a ++ b) = Trace.agent_builds a + Trace.agent_builds b.
Proof.
  induction a as [|[] a IH]; simpl; try assumption.
  - reflexivity.
  - now rewrite IH.
Qed.

(** With an agent in the heap the node runs it, and only that. *)
Lemma generate_answer_stored (state : RAGState) (h : Heap) (a : Agent) :
  _agent h = Some a ->
  snd (RAGNodes.generate_answer w state h) =
  record (EvAgent [ {| role := user; content := question state |} ]) h.
Proof.
  intros E.
  unfold RAGNodes.generate_answer, RAGNodes.last_content, try_except,
    call_agent, bind, emit, lift, ret, raise.
  rewrite E. cbn. rewrite E. cbn.
  destruct (a _) as [ms|e]; cbn; [|reflexivity].
  destruct (rev ms); reflexivity.
Qed.

(** Without one, the node constructs it first and keeps it. *)
Lemma generate_answer_built (state : RAGState) (h : Heap) (a : Agent) :
  _agent h = None -> create_react_agent w = Ok a ->
  snd (RAGNodes.generate_answer w state h) =
  record (EvAgent [ {| role := user; content := question state |} ])
    {| trace := (trace h ++ [EvBuildAgent])%list; _agent := Some a |}.
Proof.
  intros E Hc.
  unfold RAGNodes.generate_answer, RAGNodes._build_agent,
    RAGNodes.last_content, try_except, call_agent, bind, emit, lift, ret,
    raise.
  rewrite E. cbn. rewrite Hc. cbn.
  destruct (a _) as [ms|e]; cbn; [|reflexivity].
  destruct (rev ms); reflexivity.
Qed.

Lemma generate_answer_unbuilt (state : RAGState) (h : Heap) (e : exn) :
  _agent h = None -> create_react_agent w = Raise e ->
  RAGNodes.generate_answer w state h = (Raise e, record EvBuildAgent h).
Proof.
  intros E Hc.
  unfold RAGNodes.generate_answer, RAGNodes._build_agent, try_except, bind,
    emit, lift.
  rewrite E. cbn. rewrite Hc. reflexivity.
Qed.

(** What the node answers when it has an agent to run. *)
Lemma generate_answer_value (state : RAGState) (h : Heap) (a : Agent) :
  RAGNodes.agent_of w h = Ok a ->
  fst (RAGNodes.generate_answer w state h) =
  Ok {| set_retrieved_docs := None;
        set_answer :=
          Some match a [ {| role := user; content := question state |} ] with
               | Raise e => "Erreur de l'agent : " ++ str e
               | Ok messages =>
                   match rev messages with
                   | [] =>
                       "Erreur de l'agent : "
                       ++ str RAGNodes.index_out_of_range
                   | m :: _ =>
                       if (content m =? "")%string
                       then "Impossible de générer une réponse."
                       else content m
                   end
               end |}.
Proof.
  unfold RAGNodes.agent_of, RAGNodes.generate_answer, RAGNodes._build_agent,
    RAGNodes.last_content, try_except, call_agent, bind, emit, lift, ret,
    raise.
  intros Ha. destruct (_agent h) as [a'|] eqn:E.
  - injection Ha as ->. rewrite E. cbn.
    destruct (a _) as [ms|e]; cbn; [|reflexivity].
    destruct (rev ms); reflexivity.
  - rewrite Ha. cbn.
    destruct (a _) as [ms|e]; cbn; [|reflexivity].
    destruct (rev ms); reflexivity.
Qed.
End ToolFacts.

(** X3.  The retriever tool of the agent never raises: an exception of the
    retriever comes back as the text "Erreur lors de la récupération des
    documents : ..." with its message, an empty result as "Aucun document
    trouvé pour cette requête.", and otherwise the text of every retrieved
    document stands in the observation. *)
Theorem execute_retriever_observation (w : World) (query : string)
    (h : Heap) :
  exists text,
    fst (RAGNodes._execute_retriever w query h) = Ok text
    /\ (forall e, retriever_invoke w query = Raise e ->
          text = "Erreur lors de la récupération des documents : " ++ str e)
    /\ (retriever_invoke w query = Ok [] ->
          text = "Aucun document trouvé pour cette requête.")
    /\ (forall docs d, retriever_invoke w query = Ok docs -> In d docs ->
          PyStr.contains (page_content d) text = true).
Proof.
  unfold RAGNodes._execute_retriever, try_except, call_retriever, bind, emit,
    lift, ret.
  destruct (retriever_invoke w query) as [[|d0 docs0]|e]; cbn [fst].
  - eexists. split; [reflexivity|].
    split; [discriminate|]. split; [reflexivity|].
    intros docs d H. injection H as <-. intros [].
  - eexists. split; [reflexivity|].
    split; [discriminate|]. split; [discriminate|].
    intros docs d H Hin. injection H as <-.
    set (labels := map (fun i => NilEmpty.string_of_uint (Nat.to_uint (S i)))
                       (seq 0 (List.length (d0 :: docs0)))).
    destruct (@In_combine_r _ _ labels (d0 :: docs0) d) as [label Hl];
      [unfold labels; now rewrite length_map, length_seq | exact Hin |].
    eapply contains_trans; [|apply join_contains, in_map, Hl].
    cbn [fst snd].
    rewrite <- !append_assoc. apply contains_suffix.
  - eexists. split; [reflexivity|].
    split; [intros e' H; now injection H as <-|].
    split; [discriminate|]. intros docs d H. discriminate H.
Qed.

(** X4.  The agent is constructed lazily and kept: when it can be
    constructed, the heap holds an agent after any run of the agent node, a
    further run uses that same agent and constructs nothing, and one run
    constructs at most once. *)
Theorem agent_built_at_most_once (w : World) (a : Agent)
    (state1 state2 : RAGState) (h : Heap) :
  create_react_agent w = Ok a ->
  exists a',
    _agent (snd (RAGNodes.generate_answer w state1 h)) = Some a'
    /\ _agent (snd (RAGNodes.generate_answer w state2
                     (snd (RAGNodes.generate_answer w state1 h)))) = Some a'
    /\ Trace.agent_builds
         (trace (snd (RAGNodes.generate_answer w state2
                        (snd (RAGNodes.generate_answer w state1 h)))))
       = Trace.agent_builds
           (trace (snd (RAGNodes.generate_answer w state1 h)))
    /\ Trace.agent_builds (trace (snd (RAGNodes.generate_answer w state1 h)))
       <= S (Trace.agent_builds (trace h))
    /\ (_agent h <> None ->
        Trace.agent_builds
          (trace (snd (RAGNodes.generate_answer w state1 h)))
        = Trace.agent_builds (trace h)).
Proof.
  intros Hc.
  assert (Hstep : forall st hh b, _agent hh = Some b ->
            _agent (snd (RAGNodes.generate_answer w st hh)) = Some b
            /\ Trace.agent_builds
                 (trace (snd (RAGNodes.generate_answer w st hh)))
               = Trace.agent_builds (trace hh)).
  { intros st hh b E. rewrite (@generate_answer_stored w st hh b E).
    split; [exact E|]. cbn. rewrite agent_builds_app. cbn. lia. }
  destruct (_agent h) as [b|] eqn:E.
  - exists b. destruct (Hstep state1 h b E) as [H1 H2].
    destruct (Hstep state2 _ b H1) as [H3 H4].
    repeat split; try assumption; [lia | intros _; exact H2].
  - exists a.
    assert (H1 : _agent (snd (RAGNodes.generate_answer w state1 h)) = Some a)
      by now rewrite (@generate_answer_built w state1 h a E Hc).
    destruct (Hstep state2 _ a H1) as [H3 H4].
    repeat split; try assumption.
    + rewrite (@generate_answer_built w state1 h a E Hc). cbn.
      rewrite !agent_builds_app. cbn. lia.
    + intros H. now destruct H.
Qed.

Lemma agent_built_at_most_once_witness :
  Trace.agent_builds
    (trace (snd (RAGNodes.generate_answer Samples.world_insufficient
                   (Samples.retrieved "b" [])
                   (snd (RAGNodes.generate_answer Samples.world_insufficient
                           (Samples.retrieved "a" []) Samples.fresh)))))
  = Trace.agent_builds
      (trace (snd (RAGNodes.generate_answer Samples.world_insufficient
                     (Samples.retrieved "a" []) Samples.fresh))).
Proof.
  destruct (@agent_built_at_most_once Samples.world_insufficient
              Samples.echo_agent (Samples.retrieved "a" [])
              (Samples.retrieved "b" []) Samples.fresh eq_refl)
    as [a' [_ [_ [H _]]]].
  exact H.
Defined.

(** X5.  Constructing the agent happens outside the [try] of the agent
    node: when no agent is stored and its construction raises, the node
    raises that exception instead of answering, a turn sent to the agent
    ends with it, and the chat handler shows its error box. *)
Theorem agent_construction_failure_escapes (w : World) (e : exn)
    (checkpoint : string -> option RAGState) (q thread_id : string)
    (h : Heap) :
  _agent h = None ->
  create_react_agent w = Raise e ->
  (forall state, fst (RAGNodes.generate_answer w state h) = Raise e)
  /\ (GraphBuilder.gate_outcome w checkpoint q thread_id h
      = Ok "agent_search" ->
      fst (GraphBuilder.run w checkpoint q thread_id h) = Raise e
      /\ fst (App.handle_question w checkpoint q thread_id h)
         = Ok (App.error
                 "Désolé, une erreur technique est survenue. Veuillez vérifier les logs.")).
Proof.
  intros Hn Hc.
  split.
  { intros state. now rewrite (@generate_answer_unbuilt w state h e Hn Hc). }
  intros Hgate.
  assert (Hrun : fst (GraphBuilder.run w checkpoint q thread_id h) = Raise e).
  { rewrite run_turn. unfold GraphBuilder.gate_outcome in Hgate.
    destruct (after_retriever_shape w checkpoint q thread_id h)
      as [docs Hshape].
    rewrite Hshape in *.
    pose proof (decide_agent w
      {| question := q; retrieved_docs := Some docs;
         answer := answer (GraphBuilder.initial_state checkpoint q thread_id) |}
      (record (EvRetriever q) (record (EvNode "retriever") h))) as Hag.
    destruct (GraphBuilder._decide_next_step w _ _) as [[r|e'] h2];
      cbn [fst snd] in *; inversion Hgate; subst r.
    cbn [String.eqb Ascii.eqb Bool.eqb].
    rewrite (@generate_answer_unbuilt w _ (record (EvNode "agent_search") h2) e);
      [reflexivity | cbn; now rewrite Hag | exact Hc]. }
  split; [exact Hrun|].
  unfold App.handle_question, try_except, bind, ret.
  destruct (GraphBuilder.run w checkpoint q thread_id h) as [[st|e'] h1];
    cbn in Hrun; [discriminate Hrun | reflexivity].
Qed.

Lemma agent_construction_failure_escapes_witness :
  fst (App.handle_question AppSamples.world_no_agent Samples.no_checkpoint
         "What is today's weather?" "t1" Samples.fresh)
  = Ok (App.error
          "Désolé, une erreur technique est survenue. Veuillez vérifier les logs.").
Proof.
  destruct (@agent_construction_failure_escapes AppSamples.world_no_agent
              Samples.connection_error Samples.no_checkpoint
              "What is today's weather?" "t1" Samples.fresh eq_refl eq_refl)
    as [_ H].
  exact (proj2 (H eq_refl)).
Defined.

(** X6.  With an agent at hand the agent node always returns an answer, and
    never an empty one: an empty last message becomes "Impossible de générer
    une réponse.", a result without messages becomes "Erreur de l'agent :
    list index out of range", and the retrieved documents are not touched. *)
Theorem agent_answer_never_empty (w : World) (a : Agent) (state : RAGState)
    (h : Heap) :
  RAGNodes.agent_of w h = Ok a ->
  exists text,
    fst (RAGNodes.generate_answer w state h)
    = Ok {| set_retrieved_docs := None; set_answer := Some text |}
    /\ text <> ""
    /\ (a [ {| role := user; content := question state |} ] = Ok [] ->
        text = "Erreur de l'agent : list index out of range")
    /\ (forall messages m,
          a [ {| role := user; content := question state |} ]
          = Ok (messages ++ [m])%list ->
          content m = "" ->
          text = "Impossible de générer une réponse.")
    /\ (forall messages m,
          a [ {| role := user; content := question state |} ]
          = Ok (messages ++ [m])%list ->
          content m <> "" ->
          text = content m).
Proof.
  intros Ha. eexists. split; [apply (@generate_answer_value w state h a Ha)|].
  destruct (a _) as [ms|e].
  - split; [|split; [|split]].
    + destruct (rev ms) as [|m r]; [discriminate|].
      destruct (content m =? "")%string eqn:E; [discriminate|].
      now apply String.eqb_neq in E.
    + intros H. injection H as ->. reflexivity.
    + intros messages m H Hm. injection H as ->.
      rewrite rev_unit, Hm. reflexivity.
    + intros messages m H Hm. injection H as ->.
      rewrite rev_unit. apply String.eqb_neq in Hm. now rewrite Hm.
  - split; [discriminate|]. repeat split; discriminate.
Qed.

Lemma agent_answer_never_empty_witness :
  fst (RAGNodes.generate_answer AppSamples.world_silent_agent
         (Samples.retrieved "What is today's weather?" []) Samples.fresh)
  = Ok {| set_retrieved_docs := None;
          set_answer := Some "Impossible de générer une réponse." |}.
Proof.
  destruct (@agent_answer_never_empty AppSamples.world_silent_agent
              (fun _ => Ok [ {| role := assistant; content := "" |} ])
              (Samples.retrieved "What is today's weather?" [])
              Samples.fresh eq_refl)
    as [text [H [_ [_ [Hm _]]]]].
  rewrite H, (Hm [] {| role := assistant; content := "" |} eq_refl eq_refl).
  reflexivity.
Defined.

(* ------------------------------------------------------------------ *)
(** ** Turns, whatever the state they start from *)

Section InvokeFacts.
Import GraphBuilder.
Variable w : World.

(** [graph.invoke] spelled out, from any state. *)
Lemma graph_invoke_turn (state : RAGState) (h : Heap) :
  graph_invoke (build w) state h =
  match RAGNodes.retrieve_docs w state (record (EvNode "retriever") h) with
  | (Raise e, h1) => (Raise e, h1)
  | (Ok u, h1) =>
      match _decide_next_step w (apply_update state u) h1 with
      | (Raise e, h2) => (Raise e, h2)
      | (Ok r, h2) =>
          if (r =? "generate_direct")%string then
            finish (apply_update state u)
              (_generate_direct_answer w (apply_update state u)
                 (record (EvNode "generate_direct") h2))
          else if (r =? "agent_search")%string then
            finish (apply_update state u)
              (RAGNodes.generate_answer w (apply_update state u)
                 (record (EvNode "agent_search") h2))
          else (Raise (Exn "KeyError" r), h2)
      end
  end.
Proof.
  unfold graph_invoke.
  cbn [build entry_point add_edge add_conditional_edges set_entry_point
       add_node empty_graph].
  unfold recursion_limit.
  change (run_from 25 ?g "retriever" state h) with
    ((emit (EvNode "retriever") ;;;
      u <- RAGNodes.retrieve_docs w state ;;
      nxt <- next_node g "retriever" (apply_update state u) ;;
      run_from 24 g nxt (apply_update state u)) h).
  unfold bind at 1 2. unfold emit.
  destruct (retrieve_docs_total w state (record (EvNode "retriever") h))
    as [docs ->].
  change (next_node ?g "retriever" ?st) with
    (r <- _decide_next_step w st ;;
     match lookup r [("generate_direct", "generate_direct");
                     ("agent_search", "agent_search")] with
     | Some target => ret target
     | None => raise (Exn "KeyError" r)
     end).
  unfold bind.
  destruct (_decide_next_step w _ _) as [[r|e] h2]; [|reflexivity].
  cbn [lookup].
  destruct (r =? "generate_direct")%string eqn:E1.
  - unfold ret. apply (run_from_direct w 23).
  - destruct (r =? "agent_search")%string eqn:E2.
    + unfold ret. apply (run_from_agent w 23).
    + reflexivity.
Qed.

(** The nodes read the question and the documents, never the answer. *)
Lemma retrieve_docs_reads_question (s1 s2 : RAGState) (h : Heap) :
  question s1 = question s2 ->
  RAGNodes.retrieve_docs w s1 h = RAGNodes.retrieve_docs w s2 h.
Proof. unfold RAGNodes.retrieve_docs. now intros ->. Qed.

Lemma decide_reads (s1 s2 : RAGState) (h : Heap) :
  question s1 = question s2 -> retrieved_docs s1 = retrieved_docs s2 ->
  _decide_next_step w s1 h = _decide_next_step w s2 h.
Proof. unfold _decide_next_step. now intros -> ->. Qed.

Lemma direct_answer_reads (s1 s2 : RAGState) (h : Heap) :
  question s1 = question s2 -> retrieved_docs s1 = retrieved_docs s2 ->
  _generate_direct_answer w s1 h = _generate_direct_answer w s2 h.
Proof. unfold _generate_direct_answer. now intros -> ->. Qed.

Lemma generate_answer_reads (s1 s2 : RAGState) (h : Heap) :
  question s1 = question s2 ->
  RAGNodes.generate_answer w s1 h = RAGNodes.generate_answer w s2 h.
Proof. unfold RAGNodes.generate_answer. now intros ->. Qed.

(** An answering node that returns sets the answer and only the answer. *)
Lemma direct_answer_sets_answer (state : RAGState) (h : Heap) (u : Update) :
  fst (_generate_direct_answer w state h) = Ok u ->
  exists text, u = {| set_retrieved_docs := None; set_answer := Some text |}.
Proof.
  unfold _generate_direct_answer, call_llm, bind, emit, lift, ret, raise.
  destruct (retrieved_docs state) as [docs|]; cbn; [|discriminate].
  destruct (llm_invoke w _) as [text|e]; cbn; [|discriminate].
  intros H. injection H as <-. eauto.
Qed.

Lemma generate_answer_sets_answer (state : RAGState) (h : Heap) (u : Update) :
  fst (RAGNodes.generate_answer w state h) = Ok u ->
  exists text, u = {| set_retrieved_docs := None; set_answer := Some text |}.
Proof.
  destruct (RAGNodes.agent_of w h) as [a|e] eqn:Ha.
  - rewrite (@generate_answer_value w state h a Ha).
    intros H. injection H as <-. eauto.
  - unfold RAGNodes.agent_of in Ha.
    destruct (_agent h) eqn:E; [discriminate|].
    rewrite (@generate_answer_unbuilt w state h e E Ha). discriminate.
Qed.

Lemma finish_overwrites (s1 s2 : RAGState) (r : outcome Update * Heap) :
  question s1 = question s2 -> retrieved_docs s1 = retrieved_docs s2 ->
  (forall u, fst r = Ok u ->
     exists text,
       u = {| set_retrieved_docs := None; set_answer := Some text |}) ->
  finish s1 r = finish s2 r.
Proof.
  intros Hq Hd Hu. destruct r as [[u|e] h1]; [|reflexivity].
  destruct (Hu u eq_refl) as [text ->].
  unfold finish, apply_update. cbn. now rewrite Hq, Hd.
Qed.

(** A turn depends on the state it starts from through the question
    alone. *)
Lemma graph_invoke_reads_question (s1 s2 : RAGState) (h : Heap) :
  question s1 = question s2 ->
  graph_invoke (build w) s1 h = graph_invoke (build w) s2 h.
Proof.
  intros Hq. rewrite !graph_invoke_turn.
  rewrite (@retrieve_docs_reads_question s1 s2 _ Hq).
  destruct (retrieve_docs_total w s2 (record (EvNode "retriever") h))
    as [docs ->].
  set (t1 := apply_update s1 _). set (t2 := apply_update s2 _).
  assert (Hq' : question t1 = question t2) by exact Hq.
  assert (Hd' : retrieved_docs t1 = retrieved_docs t2) by reflexivity.
  rewrite (@decide_reads t1 t2 _ Hq' Hd').
  destruct (_decide_next_step w t2 _) as [[r|e] h2]; [|reflexivity].
  destruct (r =? "generate_direct")%string.
  - rewrite (@direct_answer_reads t1 t2 _ Hq' Hd').
    apply finish_overwrites; try assumption.
    intros u. apply direct_answer_sets_answer.
  - destruct (r =? "agent_search")%string; [|reflexivity].
    rewrite (@generate_answer_reads t1 t2 _ Hq').
    apply finish_overwrites; try assumption.
    intros u. apply generate_answer_sets_answer.
Qed.
End InvokeFacts.

(** X7.  A turn does not depend on what the thread's checkpoint holds, nor
    on the thread: the outcome and the heap of [run] are the same for every
    checkpointer and thread id, and [graph.invoke] on two states with the
    same question gives the same result.  The documents and the answer of an
    earlier turn are never read. *)
Theorem turn_ignores_checkpoint (w : World)
    (checkpoint1 checkpoint2 : string -> option RAGState)
    (q thread1 thread2 : string) (h : Heap) :
  GraphBuilder.run w checkpoint1 q thread1 h
  = GraphBuilder.run w checkpoint2 q thread2 h
  /\ (forall s1 s2,
        question s1 = question s2 ->
        GraphBuilder.graph_invoke (GraphBuilder.build w) s1 h
        = GraphBuilder.graph_invoke (GraphBuilder.build w) s2 h)
  /\ App.handle_question w checkpoint1 q thread1 h
     = App.handle_question w checkpoint2 q thread2 h.
Proof.
  assert (H : GraphBuilder.run w checkpoint1 q thread1 h
              = GraphBuilder.run w checkpoint2 q thread2 h).
  { unfold GraphBuilder.run. apply graph_invoke_reads_question.
    now rewrite !initial_state_question. }
  split; [exact H|]. split.
  - intros s1 s2. apply graph_invoke_reads_question.
  - unfold App.handle_question, try_except, bind. now rewrite H.
Qed.

(* ------------------------------------------------------------------ *)
(** ** What a turn requests and what it leaves *)

Section RequestFacts.
Import GraphBuilder.
Variable w : World.

Lemma llm_calls_app (a b : list Event) :
  llm_calls (a ++ b) = (llm_calls a ++ llm_calls b)%list.
Proof.
  induction a as [|[] a IH]; simpl; try assumption.
  - reflexivity.
  - now rewrite IH.
Qed.

Lemma retriever_calls_app (a b : list Event) :
  Trace.retriever_calls (a ++ b)
  = (Trace.retriever_calls a ++ Trace.retriever_calls b)%list.
Proof.
  induction a as [|[] a IH]; simpl; try assumption.
  - reflexivity.
  - now rewrite IH.
Qed.

Lemma adds_refl (h : Heap) : Trace.adds_at_most 0 h h.
Proof. exists []. now rewrite app_nil_r. Qed.

Lemma adds_trans (n m : nat) (h1 h2 h3 : Heap) :
  Trace.adds_at_most n h1 h2 -> Trace.adds_at_most m h2 h3 ->
  Trace.adds_at_most (n + m) h1 h3.
Proof.
  intros [t1 [E1 [R1 L1]]] [t2 [E2 [R2 L2]]]. exists (t1 ++ t2)%list.
  rewrite E2, E1, app_assoc, retriever_calls_app, llm_calls_app, R1, R2,
    length_app.
  split; [reflexivity|]. split; [reflexivity | lia].
Qed.

Lemma adds_node (name : string) (h : Heap) :
  Trace.adds_at_most 0 h (record (EvNode name) h).
Proof. exists [EvNode name]. repeat split; auto. Qed.

Lemma adds_llm (messages : list Message) (h : Heap) :
  Trace.adds_at_most 1 h (record (EvLLM messages) h).
Proof.
  exists [EvLLM messages]. split; [reflexivity|]. split; [reflexivity|].
  cbn. lia.
Qed.

Lemma adds_weaken (n m : nat) (h h' : Heap) :
  n <= m -> Trace.adds_at_most n h h' -> Trace.adds_at_most m h h'.
Proof.
  intros Hnm [t [E [R L]]]. exists t. repeat split; try assumption. lia.
Qed.

Lemma adds_decide (state : RAGState) (h : Heap) :
  Trace.adds_at_most 1 h (snd (_decide_next_step w state h)).
Proof.
  unfold _decide_next_step, call_llm, bind, emit, lift, ret.
  destruct (retrieved_docs state) as [[|d docs]|];
    try (apply (@adds_weaken 0 1); [lia | apply adds_refl]).
  destruct (llm_invoke w _) as [r|e]; [|apply adds_llm].
  destruct (PyStr.contains _ _); apply adds_llm.
Qed.

Lemma adds_direct (state : RAGState) (h : Heap) :
  Trace.adds_at_most 1 h (snd (_generate_direct_answer w state h)).
Proof.
  unfold _generate_direct_answer, call_llm, bind, emit, lift, ret, raise.
  destruct (retrieved_docs state) as [docs|];
    [|apply (@adds_weaken 0 1); [lia | apply adds_refl]].
  destruct (llm_invoke w _) as [r|e]; apply adds_llm.
Qed.

Lemma adds_agent (state : RAGState) (h : Heap) :
  Trace.adds_at_most 0 h (snd (RAGNodes.generate_answer w state h)).
Proof.
  destruct (_agent h) as [a|] eqn:E.
  - rewrite (@generate_answer_stored w state h a E).
    eexists [EvAgent _]. repeat split; reflexivity || (cbn; lia).
  - destruct (create_react_agent w) as [a|e] eqn:Hc.
    + rewrite (@generate_answer_built w state h a E Hc).
      exists [EvBuildAgent;
              EvAgent [ {| role := user; content := question state |} ]].
      split; [cbn; now rewrite <- app_assoc|].
      split; [reflexivity | cbn; lia].
    + rewrite (@generate_answer_unbuilt w state h e E Hc).
      exists [EvBuildAgent]. repeat split; reflexivity || (cbn; lia).
Qed.
End RequestFacts.

Section TurnResults.
Import GraphBuilder.
Variable w : World.

(** What [run] returns when it returns: the question, the documents of the
    retrieval node, and the answer of the node the gate chose. *)
Lemma completed_turn_shape (checkpoint : string -> option RAGState)
    (q thread_id : string) (h : Heap) (st : RAGState) :
  fst (run w checkpoint q thread_id h) = Ok st ->
  exists docs text,
    st = {| question := q; retrieved_docs := Some docs;
            answer := Some text |}.
Proof.
  rewrite run_turn.
  destruct (after_retriever_shape w checkpoint q thread_id h)
    as [docs ->].
  destruct (_decide_next_step w _ _) as [[r|e] h2]; [|discriminate].
  set (state := {| question := q; retrieved_docs := Some docs;
                   answer := _ |}).
  assert (Hfin : forall res,
            (forall u, fst res = Ok u ->
               exists text,
                 u = {| set_retrieved_docs := None;
                        set_answer := Some text |}) ->
            fst (finish state res) = Ok st ->
            exists docs text,
              st = {| question := q; retrieved_docs := Some docs;
                      answer := Some text |}).
  { intros [[u|e] h3] Hu H; [|discriminate H].
    destruct (Hu u eq_refl) as [text ->]. cbn in H. injection H as <-.
    now exists docs, text. }
  destruct (r =? "generate_direct")%string.
  - apply Hfin. intros u. apply direct_answer_sets_answer.
  - destruct (r =? "agent_search")%string; [|discriminate].
    apply Hfin. intros u. apply generate_answer_sets_answer.
Qed.

(** After the retrieval node, a turn adds at most two requests to the
    language model, one when the gate sends it to the agent, and none to the
    retriever. *)
Lemma turn_adds (checkpoint : string -> option RAGState)
    (q thread_id : string) (h : Heap) :
  Trace.adds_at_most 2
    (record (EvRetriever q) (record (EvNode "retriever") h))
    (snd (run w checkpoint q thread_id h))
  /\ (gate_outcome w checkpoint q thread_id h = Ok "agent_search" ->
      Trace.adds_at_most 1
        (record (EvRetriever q) (record (EvNode "retriever") h))
        (snd (run w checkpoint q thread_id h))).
Proof.
  rewrite run_turn. unfold gate_outcome.
  destruct (after_retriever_shape w checkpoint q thread_id h)
    as [docs ->].
  set (state := {| question := q; retrieved_docs := Some docs;
                   answer := _ |}).
  set (h1 := record (EvRetriever q) (record (EvNode "retriever") h)).
  pose proof (adds_decide w state h1) as Hd.
  destruct (_decide_next_step w state h1) as [[r|e] h2]; cbn [fst snd] in *.
  2:{ split; [|discriminate].
      apply (@adds_weaken 1 2); [lia | exact Hd]. }
  assert (Hdir : Trace.adds_at_most 2 h1
            (snd (finish state
                    (_generate_direct_answer w state
                       (record (EvNode "generate_direct") h2))))).
  { rewrite snd_finish. apply (@adds_trans 1 1 h1 h2); [exact Hd|].
    apply (@adds_trans 0 1 h2 (record (EvNode "generate_direct") h2));
      [apply adds_node | apply adds_direct]. }
  assert (Hag : Trace.adds_at_most 1 h1
            (snd (finish state
                    (RAGNodes.generate_answer w state
                       (record (EvNode "agent_search") h2))))).
  { rewrite snd_finish. apply (@adds_trans 1 0 h1 h2); [exact Hd|].
    apply (@adds_trans 0 0 h2 (record (EvNode "agent_search") h2));
      [apply adds_node | apply adds_agent]. }
  destruct (r =? "generate_direct")%string eqn:E1.
  - split; [exact Hdir|]. intros H. injection H as ->. discriminate E1.
  - destruct (r =? "agent_search")%string eqn:E2.
    + split; [|intros _; exact Hag].
      apply (@adds_weaken 1 2); [lia | exact Hag].
    + split; [|intros H; injection H as ->; discriminate E2].
      apply (@adds_weaken 1 2); [lia | exact Hd].
Qed.
End TurnResults.

(** X8.  When the retriever finds documents, the judge's answer holds "oui"
    and the generation request succeeds, the turn returns the question, the
    retrieved documents and the generator's text as the answer, after
    exactly two requests to the language model, the judge's and then the
    generator's; the chat handler shows that text. *)
Theorem direct_path_answers (w : World)
    (checkpoint : string -> option RAGState) (q thread_id : string)
    (h : Heap) (d : Document) (docs : list Document)
    (response text : string) :
  retriever_invoke w q = Ok (d :: docs) ->
  llm_invoke w
    (GraphBuilder.judge_messages q (GraphBuilder.judge_context (d :: docs)))
  = Ok response ->
  PyStr.occurs_nocase "oui" response ->
  llm_invoke w
    (GraphBuilder.direct_messages (GraphBuilder.direct_context (d :: docs)) q)
  = Ok text ->
  fst (GraphBuilder.run w checkpoint q thread_id h)
  = Ok {| question := q; retrieved_docs := Some (d :: docs);
          answer := Some text |}
  /\ llm_calls (trace (snd (GraphBuilder.run w checkpoint q thread_id h)))
     = (llm_calls (trace h)
        ++ [GraphBuilder.judge_messages q
              (GraphBuilder.judge_context (d :: docs));
            GraphBuilder.direct_messages
              (GraphBuilder.direct_context (d :: docs)) q])%list
  /\ fst (App.handle_question w checkpoint q thread_id h)
     = Ok (App.markdown text).
Proof.
  intros Hr Hj Hyes Hg.
  apply oui_in_decision in Hyes.
  assert (Hrun : GraphBuilder.run w checkpoint q thread_id h =
    (Ok {| question := q; retrieved_docs := Some (d :: docs);
           answer := Some text |},
     record (EvLLM (GraphBuilder.direct_messages
                      (GraphBuilder.direct_context (d :: docs)) q))
       (record (EvNode "generate_direct")
          (record (EvLLM (GraphBuilder.judge_messages q
                            (GraphBuilder.judge_context (d :: docs))))
             (record (EvRetriever q) (record (EvNode "retriever") h)))))).
  { rewrite run_turn,
      (@after_retriever_ok w checkpoint q thread_id h (d :: docs) Hr).
    rewrite (@decide_judged w _ _ d docs response)
      by (assumption || reflexivity).
    rewrite Hyes. cbn [String.eqb Ascii.eqb Bool.eqb].
    rewrite (@direct_answer_ok w _ _ (d :: docs) text)
      by (assumption || reflexivity).
    reflexivity. }
  rewrite Hrun. split; [reflexivity|]. split.
  - cbn. rewrite !llm_calls_app. cbn. rewrite !app_nil_r, <- app_assoc.
    reflexivity.
  - unfold App.handle_question, try_except, bind. rewrite Hrun. reflexivity.
Qed.

Lemma direct_path_answers_witness :
  fst (App.handle_question Samples.world_sufficient Samples.no_checkpoint
         "What is the capital of France?" "t1" Samples.fresh)
  = Ok (App.markdown "Paris.").
Proof.
  assert (Hyes : PyStr.occurs_nocase "oui" " Oui. ").
  { exists " ", "Oui", ". ". split; [reflexivity|].
    constructor; [right; left; split; reflexivity|].
    repeat constructor. }
  destruct (@direct_path_answers Samples.world_sufficient
              Samples.no_checkpoint "What is the capital of France?" "t1"
              Samples.fresh Samples.paris [] " Oui. " "Paris."
              eq_refl eq_refl Hyes eq_refl)
    as [_ [_ H]].
  exact H.
Defined.

(** X9.  A turn that returns has answered: the state it returns holds the
    question asked, a document list set by the retrieval node and an answer,
    and the chat handler shows that answer, never its default text for a
    missing answer. *)
Theorem completed_turn_has_answer (w : World)
    (checkpoint : string -> option RAGState) (q thread_id : string)
    (h : Heap) (st : RAGState) :
  fst (GraphBuilder.run w checkpoint q thread_id h) = Ok st ->
  question st = q
  /\ exists docs text,
       retrieved_docs st = Some docs
       /\ answer st = Some text
       /\ fst (App.handle_question w checkpoint q thread_id h)
          = Ok (App.markdown text).
Proof.
  intros H.
  destruct (@completed_turn_shape w checkpoint q thread_id h st H)
    as [docs [text ->]].
  split; [reflexivity|]. exists docs, text.
  split; [reflexivity|]. split; [reflexivity|].
  unfold App.handle_question, try_except, bind, ret.
  destruct (GraphBuilder.run w checkpoint q thread_id h) as [[st'|e] h1];
    cbn in H; [|discriminate H].
  injection H as ->. reflexivity.
Qed.

Lemma completed_turn_has_answer_witness :
  exists docs text,
    retrieved_docs
      {| question := "What is today's weather?";
         retrieved_docs := Some [Samples.paris]; answer := Some "42" |}
    = Some docs
    /\ answer
         {| question := "What is today's weather?";
            retrieved_docs := Some [Samples.paris]; answer := Some "42" |}
       = Some text
    /\ fst (App.handle_question Samples.world_insufficient
              Samples.no_checkpoint "What is today's weather?" "t1"
              Samples.fresh)
       = Ok (App.markdown text).
Proof.
  exact (proj2 (@completed_turn_has_answer Samples.world_insufficient
                  Samples.no_checkpoint "What is today's weather?" "t1"
                  Samples.fresh
                  {| question := "What is today's weather?";
                     retrieved_docs := Some [Samples.paris];
                     answer := Some "42" |}
                  eq_refl)).
Defined.

(** X10.  The chat handler never raises: it shows the answer of the turn
    when [run] returns, and its technical-error text exactly when [run]
    raises. *)
Theorem handle_question_never_raises (w : World)
    (checkpoint : string -> option RAGState) (q thread_id : string)
    (h : Heap) :
  exists shown,
    fst (App.handle_question w checkpoint q thread_id h) = Ok shown
    /\ match fst (GraphBuilder.run w checkpoint q thread_id h) with
       | Ok st => exists text, answer st = Some text
                               /\ shown = App.markdown text
       | Raise _ =>
           shown = App.error
                     "Désolé, une erreur technique est survenue. Veuillez vérifier les logs."
       end.
Proof.
  pose proof (@completed_turn_shape w checkpoint q thread_id h) as Hs.
  unfold App.handle_question, try_except, bind, ret.
  destruct (GraphBuilder.run w checkpoint q thread_id h) as [[st|e] h1];
    cbn [fst] in *.
  - destruct (Hs st eq_refl) as [docs [text ->]].
    eexists. split; [reflexivity|]. now exists text.
  - eexists. split; reflexivity.
Qed.

(** X11.  The direct generator only ever runs on documents: when the gate
    of a turn returns "generate_direct", the retriever has returned a
    non-empty list for the question and the judge, asked about exactly that
    list, has answered; an answer in ASCII text has "oui" in it, up to
    letter case. *)
Theorem direct_generation_has_documents (w : World)
    (checkpoint : string -> option RAGState) (q thread_id : string)
    (h : Heap) :
  GraphBuilder.gate_outcome w checkpoint q thread_id h
  = Ok "generate_direct" ->
  exists d docs response,
    retriever_invoke w q = Ok (d :: docs)
    /\ llm_invoke w
         (GraphBuilder.judge_messages q
            (GraphBuilder.judge_context (d :: docs))) = Ok response
    /\ (PyStr.is_ascii response -> PyStr.occurs_nocase "oui" response).
Proof.
  unfold GraphBuilder.gate_outcome.
  destruct (retriever_invoke w q) as [[|d docs]|e] eqn:Hr.
  - rewrite (@after_retriever_ok w checkpoint q thread_id h [] Hr).
    rewrite decide_empty by (right; reflexivity). discriminate.
  - rewrite (@after_retriever_ok w checkpoint q thread_id h (d :: docs) Hr).
    destruct (llm_invoke w
                (GraphBuilder.judge_messages q
                   (GraphBuilder.judge_context (d :: docs))))
      as [response|e] eqn:Hl.
    + rewrite (@decide_judged w _ _ d docs response)
        by (assumption || reflexivity).
      cbn [fst].
      destruct (PyStr.contains "oui" (PyStr.lower (PyStr.strip response)))
        eqn:Hc; [|discriminate].
      intros _. exists d, docs, response.
      split; [reflexivity|]. split; [exact Hl|].
      intros _. now apply oui_in_decision.
    + rewrite (@decide_raise w _ _ d docs e)
        by (assumption || reflexivity).
      discriminate.
  - rewrite (@after_retriever_raise w checkpoint q thread_id h e Hr).
    rewrite decide_empty by (right; reflexivity). discriminate.
Qed.

Lemma direct_generation_has_documents_witness :
  exists d docs response,
    retriever_invoke Samples.world_sufficient "What is the capital of France?"
    = Ok (d :: docs)
    /\ llm_invoke Samples.world_sufficient
         (GraphBuilder.judge_messages "What is the capital of France?"
            (GraphBuilder.judge_context (d :: docs))) = Ok response
    /\ (PyStr.is_ascii response -> PyStr.occurs_nocase "oui" response).
Proof.
  exact (@direct_generation_has_documents Samples.world_sufficient
           Samples.no_checkpoint "What is the capital of France?" "t1"
           Samples.fresh eq_refl).
Defined.

(** X12.  Nothing retrieved is withheld from the language model: the text of
    every retrieved document and the question stand in the user message of
    the judge's request, and in the generator's request the text of every
    document stands in the system message and the question in the user
    message. *)
Theorem requests_contain_documents (q : string) (d : Document)
    (docs : list Document) :
  In d docs ->
  (exists m,
     In m (GraphBuilder.judge_messages q (GraphBuilder.judge_context docs))
     /\ role m = user
     /\ PyStr.contains q (content m) = true
     /\ PyStr.contains (page_content d) (content m) = true)
  /\ (exists m,
        In m (GraphBuilder.direct_messages
                (GraphBuilder.direct_context docs) q)
        /\ role m = system
        /\ PyStr.contains (page_content d) (content m) = true)
  /\ (exists m,
        In m (GraphBuilder.direct_messages
                (GraphBuilder.direct_context docs) q)
        /\ role m = user
        /\ PyStr.contains q (content m) = true).
Proof.
  intros Hin.
  assert (Hj : PyStr.contains (page_content d)
                 (GraphBuilder.judge_context docs) = true)
    by (apply join_contains, in_map, Hin).
  assert (Hd : PyStr.contains (page_content d)
                 (GraphBuilder.direct_context docs) = true)
    by (apply join_contains, in_map, Hin).
  split; [|split].
  - eexists. split; [right; left; reflexivity|]. cbn [role content].
    split; [reflexivity|]. split.
    + apply (contains_middle q "Question: ").
    + eapply contains_trans; [exact Hj|].
      rewrite <- !append_assoc. apply contains_suffix.
  - eexists. split; [left; reflexivity|]. cbn [role content].
    split; [reflexivity|].
    eapply contains_trans; [exact Hd|].
    rewrite <- !append_assoc. apply contains_suffix.
  - eexists. split; [right; left; reflexivity|]. cbn [role content].
    split; [reflexivity|]. apply contains_suffix.
Qed.

Lemma requests_contain_documents_witness :
  exists m,
    In m (GraphBuilder.judge_messages "What is the capital of France?"
            (GraphBuilder.judge_context [Samples.berlin; Samples.paris]))
    /\ role m = user
    /\ PyStr.contains "What is the capital of France?" (content m) = true
    /\ PyStr.contains (page_content Samples.paris) (content m) = true.
Proof.
  exact (proj1 (@requests_contain_documents "What is the capital of France?"
                  Samples.paris [Samples.berlin; Samples.paris]
                  (or_intror (or_introl eq_refl)))).
Defined.

(** X13.  Leaving aside what the agent does inside its own run, the code of
    a turn sends exactly one request to the retriever, for the question
    asked, and at most two requests to the language model (the judge's and
    the generator's), at most one when the gate sends the turn to the agent;
    what the trace held before the turn stays in front. *)
Theorem turn_request_budget (w : World)
    (checkpoint : string -> option RAGState) (q thread_id : string)
    (h : Heap) :
  Trace.retriever_calls
    (trace (snd (GraphBuilder.run w checkpoint q thread_id h)))
  = (Trace.retriever_calls (trace h) ++ [q])%list
  /\ List.length
       (llm_calls (trace (snd (GraphBuilder.run w checkpoint q thread_id h))))
     <= List.length (llm_calls (trace h)) + 2
  /\ (GraphBuilder.gate_outcome w checkpoint q thread_id h
      = Ok "agent_search" ->
      List.length
        (llm_calls
           (trace (snd (GraphBuilder.run w checkpoint q thread_id h))))
      <= List.length (llm_calls (trace h)) + 1)
  /\ exists t,
       trace (snd (GraphBuilder.run w checkpoint q thread_id h))
       = (trace h ++ t)%list.
Proof.
  destruct (turn_adds w checkpoint q thread_id h) as [[t [E [R L]]] Hag].
  assert (Hl : llm_calls
                 (trace (record (EvRetriever q)
                           (record (EvNode "retriever") h)))
               = llm_calls (trace h)).
  { cbn. rewrite !llm_calls_app. cbn. now rewrite !app_nil_r. }
  split; [|split; [|split]].
  - rewrite E, retriever_calls_app, R. cbn.
    rewrite !retriever_calls_app. cbn. now rewrite !app_nil_r.
  - rewrite E, llm_calls_app, length_app, Hl. lia.
  - intros Hg. destruct (Hag Hg) as [t' [E' [R' L']]].
    rewrite E', llm_calls_app, length_app, Hl. lia.
  - rewrite E. cbn. rewrite <- !app_assoc. eauto.
Qed.

(* ------------------------------------------------------------------ *)
(** ** Stripping, splitting and replacing *)

Section TextFacts.
Import PyStr PyText.

Lemma rstrip_idem (s : string) : rstrip (rstrip s) = rstrip s.
Proof.
  induction s as [|c r IH]; [reflexivity|].
  simpl. destruct (rstrip r) as [|a r'] eqn:E.
  - destruct (is_space c) eqn:Hc; [reflexivity|].
    simpl. now rewrite Hc.
  - change (rstrip (String c (String a r')))
      with (match rstrip (String a r') with
            | "" => if is_space c then "" else String c ""
            | String x y => String c (String x y)
            end).
    now rewrite IH.
Qed.

Lemma lstrip_idem (s : string) : lstrip (lstrip s) = lstrip s.
Proof.
  induction s as [|c r IH]; [reflexivity|].
  simpl. destruct (is_space c) eqn:Hc; [exact IH|].
  simpl. now rewrite Hc.
Qed.

Lemma rstrip_fixed_tail (c : ascii) (r : string) :
  rstrip (String c r) = String c r -> rstrip r = r.
Proof.
  simpl. destruct (rstrip r) as [|a r'] eqn:E.
  - destruct (is_space c); [discriminate|].
    intros H. now injection H as <-.
  - intros H. now injection H as <-.
Qed.

Lemma rstrip_lstrip_fixed (s : string) :
  rstrip s = s -> rstrip (lstrip s) = lstrip s.
Proof.
  induction s as [|c r IH]; [reflexivity|].
  intros H. simpl lstrip. destruct (is_space c); [|exact H].
  apply IH, (rstrip_fixed_tail H).
Qed.

Lemma strip_idem (s : string) : strip (strip s) = strip s.
Proof.
  unfold strip.
  rewrite (rstrip_lstrip_fixed (rstrip_idem s)). apply lstrip_idem.
Qed.

Lemma prefix_rstrip (s t : string) :
  no_space t -> prefix t (rstrip s) = prefix t s.
Proof.
  revert t. induction s as [|c r IH]; intros t Ht; [reflexivity|].
  destruct (rstrip_cons c r) as [[E [Er Hc]] | E]; rewrite E.
  - destruct t as [|a t]; [reflexivity|].
    rewrite prefix_cons.
    destruct (ascii_dec a c) as [Eac|_]; [|reflexivity].
    exfalso. exact (@no_space_head a c t Ht Hc Eac).
  - destruct t as [|a t]; [reflexivity|].
    rewrite !prefix_cons.
    destruct (ascii_dec a c); [|reflexivity].
    apply IH, (@no_space_tail a t Ht).
Qed.

Lemma lstrip_prefixed (s t : string) (a : ascii) :
  is_space a = false -> prefix (String a t) s = true -> lstrip s = s.
Proof.
  intros Ha H. destruct s as [|c r]; [reflexivity|].
  rewrite prefix_cons in H.
  destruct (ascii_dec a c) as [<-|]; [|discriminate].
  simpl. now rewrite Ha.
Qed.

(** Stripping keeps a leading token that has no white space in it. *)
Lemma prefix_strip (s t : string) :
  no_space t -> prefix t s = true -> prefix t (strip s) = true.
Proof.
  intros Ht H. unfold strip.
  rewrite <- (@prefix_rstrip s t Ht) in H.
  destruct t as [|a t]; [now destruct (lstrip (rstrip s))|].
  rewrite (@lstrip_prefixed (rstrip s) t a); [exact H | | exact H].
  unfold no_space in Ht. simpl in Ht.
  apply andb_true_iff in Ht. now apply negb_true_iff.
Qed.
End TextFacts.

(** X14.  Every URL read off a text area that holds ASCII text is a line
    of the text with its surrounding white space removed, such that the line
    itself begins with "http" at its first character; the URL begins with
    "http", is not empty and has no white space left at either end. *)
Theorem parse_urls_clean (urls_text : string) :
  PyStr.is_ascii urls_text ->
  Forall
    (fun url =>
       (exists line,
          In line (PyText.split (ascii_of_nat 10) urls_text)
          /\ url = PyStr.strip line
          /\ PyText.startswith "http" line = true)
       /\ PyText.startswith "http" url = true
       /\ PyStr.strip url = url
       /\ url <> "")
    (Streamlit.parse_urls urls_text).
Proof.
  intros _.
  unfold Streamlit.parse_urls. rewrite Forall_forall. intros url Hin.
  rewrite in_map_iff in Hin. destruct Hin as [line [<- Hl]].
  rewrite filter_In, andb_true_iff in Hl. destruct Hl as [Hl [Ht Hp]].
  split; [exists line; auto|].
  split; [apply prefix_strip; [reflexivity | exact Hp]|].
  split; [apply strip_idem|].
  unfold PyText.truthy in Ht. apply negb_true_iff in Ht.
  now apply String.eqb_neq in Ht.
Qed.

Lemma parse_urls_clean_witness :
  Forall
    (fun url =>
       (exists line,
          In line
            (PyText.split (ascii_of_nat 10)
               ("https://a.org/x " ++ PyStr.nl ++ " http://b.org"))
          /\ url = PyStr.strip line
          /\ PyText.startswith "http" line = true)
       /\ PyText.startswith "http" url = true
       /\ PyStr.strip url = url
       /\ url <> "")
    (Streamlit.parse_urls
       ("https://a.org/x " ++ PyStr.nl ++ " http://b.org")).
Proof.
  apply (@parse_urls_clean
           ("https://a.org/x " ++ PyStr.nl ++ " http://b.org")).
  reflexivity.
Defined.

Example parse_urls_lines :
  Streamlit.parse_urls
    ("https://a.org/x " ++ PyStr.nl ++ " http://b.org" ++ PyStr.nl
     ++ PyStr.nl ++ "ftp://c.org" ++ PyStr.nl)
  = ["https://a.org/x"].
Proof. reflexivity. Qed.

Section ReplaceFacts.
Import PyStr PyText.

Lemma replace_from_skip (old new x rest : string) :
  replace_from old new (String.length x) (x ++ rest)
  = replace_from old new 0 rest.
Proof.
  induction x as [|c x IH]; [reflexivity|]. simpl. exact IH.
Qed.

Lemma replace_prefix (old new rest : string) :
  old <> "" -> replace old new (old ++ rest) = new ++ replace old new rest.
Proof.
  intros Hne. destruct old as [|c o]; [congruence|].
  unfold replace.
  change (replace_from (String c o) new 0 (String c o ++ rest))
    with (if prefix (String c o) (String c (o ++ rest))
          then new ++ replace_from (String c o) new
                        (String.length (String c o) - 1) (o ++ rest)
          else String c (replace_from (String c o) new 0 (o ++ rest))).
  replace (prefix (String c o) (String c (o ++ rest))) with true
    by (symmetry; apply prefix_iff; now exists rest).
  replace (String.length (String c o) - 1) with (String.length o)
    by (simpl; lia).
  now rewrite replace_from_skip.
Qed.

Lemma replace_absent (old new s : string) :
  contains old s = false -> replace old new s = s.
Proof.
  unfold replace. induction s as [|c r IH]; [reflexivity|].
  rewrite contains_cons, orb_false_iff. intros [Hp Hc].
  change (replace_from old new 0 (String c r))
    with (if prefix old (String c r)
          then new ++ replace_from old new (String.length old - 1) r
          else String c (replace_from old new 0 r)).
  now rewrite Hp, IH.
Qed.
End ReplaceFacts.

(* ------------------------------------------------------------------ *)
(** ** The session and the construction of the system *)

(** X15.  [init_session_state] fills in the missing keys and touches no key
    that is there: afterwards every key is present, a key that held a value
    still holds it, a missing thread id is "cogniflow-" followed by the
    eight characters drawn, and running it again, with whatever characters,
    changes nothing. *)
Theorem init_session_state_idempotent (uuid8 uuid8' : string)
    (s : Streamlit.RawSession) :
  (exists session,
     Streamlit.complete (Streamlit.init_session_state uuid8 s) = Some session)
  /\ Streamlit.init_session_state uuid8'
       (Streamlit.init_session_state uuid8 s)
     = Streamlit.init_session_state uuid8 s
  /\ (forall v, Streamlit.raw_rag_system s = Some v ->
        Streamlit.raw_rag_system (Streamlit.init_session_state uuid8 s)
        = Some v)
  /\ (forall v, Streamlit.raw_initialized s = Some v ->
        Streamlit.raw_initialized (Streamlit.init_session_state uuid8 s)
        = Some v)
  /\ (forall v, Streamlit.raw_messages s = Some v ->
        Streamlit.raw_messages (Streamlit.init_session_state uuid8 s)
        = Some v)
  /\ (forall v, Streamlit.raw_thread_id s = Some v ->
        Streamlit.raw_thread_id (Streamlit.init_session_state uuid8 s)
        = Some v)
  /\ (Streamlit.raw_thread_id s = None ->
      Streamlit.raw_thread_id (Streamlit.init_session_state uuid8 s)
      = Some ("cogniflow-" ++ uuid8)).
Proof.
  destruct s as [[r|] [i|] [m|] [t|]]; cbn;
    (split; [eexists; reflexivity|]);
    repeat split; auto; discriminate.
Qed.

Section AppFacts.
Import Streamlit.

Lemma construct_cases (svc : Services) (documents : list Document) :
  construct svc documents =
  match base_llm svc with
  | Raise e => Raise e
  | Ok llm =>
      match embeddings_unavailable svc with
      | Some e => Raise e
      | None =>
          match VectorStoreM.dense_unavailable (models svc) with
          | Some e => Raise e
          | None =>
              match documents with
              | [] => Raise VectorStoreM.empty_dense_index
              | _ :: _ =>
              match VectorStoreM.sparse_unavailable (models svc) with
              | Some e => Raise e
              | None =>
                  match VectorStoreM.reranker_unavailable (models svc) with
                  | Some e => Raise e
                  | None =>
                      Ok {| llm_invoke := llm;
                            retriever_invoke := fun query =>
                              VectorStoreM.retrieve
                                (snd (VectorStoreM.create_vectorstore
                                        (models svc) VectorStoreM.init
                                        documents)) query;
                            create_react_agent := agent_factory svc |}
                  end
              end
              end
          end
      end
  end.
Proof.
  unfold construct. rewrite create_vectorstore_cases.
  destruct (base_llm svc) as [llm|e]; [|reflexivity].
  destruct (embeddings_unavailable svc); [reflexivity|].
  destruct (VectorStoreM.dense_unavailable (models svc)); [reflexivity|].
  destruct documents as [|d documents]; [reflexivity|].
  destruct (VectorStoreM.sparse_unavailable (models svc)); [reflexivity|].
  destruct (VectorStoreM.reranker_unavailable (models svc)); reflexivity.
Qed.


Lemma handle_question_total (w : World)
    (checkpoint : string -> option RAGState) (q thread_id : string)
    (h : Heap) :
  exists shown h',
    App.handle_question w checkpoint q thread_id h = (Ok shown, h').
Proof.
  unfold App.handle_question, try_except, bind, ret.
  destruct (GraphBuilder.run w checkpoint q thread_id h) as [[st|e] h1];
    eauto.
Qed.

Lemma test_retriever_shape (query : string) (a : AppState) :
  fst (test_retriever query a) = None
  /\ session (snd (test_retriever query a)) = session a
  /\ heap (snd (test_retriever query a)) = heap a.
Proof.
  unfold test_retriever.
  destruct (initialized (session a)); destruct (rag_system (session a));
    repeat split; reflexivity.
Qed.
End AppFacts.

(** X16.  [build_rag_system] never raises.  When there is a document and
    the language model, the embeddings, both indexes and the reranker can
    all be constructed, the session holds a system whose retriever is the store's [retrieve] over
    the documents given, with no agent built yet, and is marked initialized;
    the history and the thread id are kept.  Otherwise the session and the
    heap are left exactly as they were and the page shows the error and the
    exception. *)
Theorem build_rag_system_outcome (svc : Streamlit.Services)
    (documents : list Document) (a : Streamlit.AppState) :
  ((exists llm, Streamlit.base_llm svc = Ok llm)
   /\ documents <> []
   /\ Streamlit.embeddings_unavailable svc = None
   /\ VectorStoreM.dense_unavailable (Streamlit.models svc) = None
   /\ VectorStoreM.sparse_unavailable (Streamlit.models svc) = None
   /\ VectorStoreM.reranker_unavailable (Streamlit.models svc) = None ->
   Streamlit.initialized
     (Streamlit.session (Streamlit.build_rag_system svc documents a)) = true
   /\ (exists graph_builder,
         Streamlit.rag_system
           (Streamlit.session (Streamlit.build_rag_system svc documents a))
         = Some graph_builder
         /\ forall query,
              retriever_invoke graph_builder query
              = VectorStoreM.retrieve
                  (snd (VectorStoreM.create_vectorstore
                          (Streamlit.models svc) VectorStoreM.init
                          documents)) query)
   /\ _agent (Streamlit.heap (Streamlit.build_rag_system svc documents a))
      = None
   /\ Streamlit.messages
        (Streamlit.session (Streamlit.build_rag_system svc documents a))
      = Streamlit.messages (Streamlit.session a)
   /\ Streamlit.thread_id
        (Streamlit.session (Streamlit.build_rag_system svc documents a))
      = Streamlit.thread_id (Streamlit.session a))
  /\ (~ ((exists llm, Streamlit.base_llm svc = Ok llm)
         /\ documents <> []
         /\ Streamlit.embeddings_unavailable svc = None
         /\ VectorStoreM.dense_unavailable (Streamlit.models svc) = None
         /\ VectorStoreM.sparse_unavailable (Streamlit.models svc) = None
         /\ VectorStoreM.reranker_unavailable (Streamlit.models svc) = None)
      ->
      Streamlit.session (Streamlit.build_rag_system svc documents a)
      = Streamlit.session a
      /\ Streamlit.heap (Streamlit.build_rag_system svc documents a)
         = Streamlit.heap a
      /\ exists e,
           Streamlit.screen (Streamlit.build_rag_system svc documents a)
           = (Streamlit.screen a
              ++ [Streamlit.ui_error
                    ("❌ Erreur lors de la construction du système : "
                     ++ str e);
                  Streamlit.ui_exception e])%list).
Proof.
  unfold Streamlit.build_rag_system. rewrite construct_cases.
  assert (Hfail : forall e,
    Streamlit.session
      (Streamlit.show (Streamlit.ui_exception e)
         (Streamlit.show
            (Streamlit.ui_error
               ("❌ Erreur lors de la construction du système : " ++ str e))
            a)) = Streamlit.session a
    /\ Streamlit.heap
         (Streamlit.show (Streamlit.ui_exception e)
            (Streamlit.show
               (Streamlit.ui_error
                  ("❌ Erreur lors de la construction du système : "
                   ++ str e)) a)) = Streamlit.heap a
    /\ exists e',
         Streamlit.screen
           (Streamlit.show (Streamlit.ui_exception e)
              (Streamlit.show
                 (Streamlit.ui_error
                    ("❌ Erreur lors de la construction du système : "
                     ++ str e)) a))
         = (Streamlit.screen a
            ++ [Streamlit.ui_error
                  ("❌ Erreur lors de la construction du système : "
                   ++ str e');
                Streamlit.ui_exception e'])%list).
  { intros e. split; [reflexivity|]. split; [reflexivity|].
    exists e. cbn. now rewrite <- app_assoc. }
  destruct (Streamlit.base_llm svc) as [llm|e0].
  2:{ split; [intros [[llm H] _]; discriminate H | intros _; apply Hfail]. }
  destruct (Streamlit.embeddings_unavailable svc) as [e1|].
  { split; [intros [_ [_ [H _]]]; discriminate H | intros _; apply Hfail]. }
  destruct (VectorStoreM.dense_unavailable (Streamlit.models svc)) as [e2|].
  { split; [intros [_ [_ [_ [H _]]]]; discriminate H
           | intros _; apply Hfail]. }
  destruct documents as [|d documents].
  { split; [intros [_ [H _]]; congruence | intros _; apply Hfail]. }
  destruct (VectorStoreM.sparse_unavailable (Streamlit.models svc)) as [e3|].
  { split; [intros [_ [_ [_ [_ [H _]]]]]; discriminate H
           | intros _; apply Hfail]. }
  destruct (VectorStoreM.reranker_unavailable (Streamlit.models svc))
    as [e4|].
  { split; [intros [_ [_ [_ [_ [_ H]]]]]; discriminate H
           | intros _; apply Hfail]. }
  split.
  - intros _. cbn. repeat split. eexists. split; reflexivity.
  - intros H. exfalso. apply H.
    split; [now exists llm|]. split; [discriminate|]. repeat split.
Qed.

(** X17.  [test_retriever] never returns documents: without a system it
    warns, and with one the look-up of [rag_system.retriever] fails, which
    it reports as an error; either way it yields [None], shows one message
    and leaves the session and the heap alone. *)
Theorem test_retriever_never_returns_documents (query : string)
    (a : Streamlit.AppState) :
  fst (Streamlit.test_retriever query a) = None
  /\ Streamlit.session (snd (Streamlit.test_retriever query a))
     = Streamlit.session a
  /\ Streamlit.heap (snd (Streamlit.test_retriever query a))
     = Streamlit.heap a
  /\ Streamlit.screen (snd (Streamlit.test_retriever query a))
     = (Streamlit.screen a
        ++ [if Streamlit.initialized (Streamlit.session a)
               && match Streamlit.rag_system (Streamlit.session a) with
                  | Some _ => true
                  | None => false
                  end
            then Streamlit.ui_error
                   "Erreur lors de la récupération des documents : 'GraphBuilder' object has no attribute 'retriever'"
            else Streamlit.ui_warning
                   "⚠️ Le système RAG n'est pas encore initialisé."])%list.
Proof.
  unfold Streamlit.test_retriever.
  destruct (Streamlit.initialized (Streamlit.session a));
    destruct (Streamlit.rag_system (Streamlit.session a));
    repeat split; reflexivity.
Qed.

Section LaunchFacts.
Import Streamlit.



End LaunchFacts.


Example launch_without_documents :
  let r := Streamlit.launch_construction AppSamples.services "http://x.org"
             "" [] AppSamples.ready in
  fst r = Ok tt
  /\ Streamlit.session (snd r) = AppSamples.new_session
  /\ Streamlit.screen (snd r)
     = [Streamlit.ui_error
          "Impossible de charger les URLs : connection refused";
        Streamlit.ui_warning
          "⚠️ Veuillez fournir au moins une source de document valide."].
Proof. repeat split; reflexivity. Qed.

(** X19.  With a system in the session, a question typed into the chat never
    raises and adds exactly two entries to the history, the user's and then
    the assistant's, leaving the system, the flag and the thread id as they
    were.  For a question that is not the test command the user's entry is
    the question and the assistant's is what the chat handler shows, its
    error text included. *)
Theorem chat_appends_two_messages
    (checkpoint : string -> option RAGState) (question : string)
    (a : Streamlit.AppState) (graph_builder : World) :
  Streamlit.initialized (Streamlit.session a) = true ->
  Streamlit.rag_system (Streamlit.session a) = Some graph_builder ->
  fst (Streamlit.chat checkpoint question a) = Ok tt
  /\ (exists u r,
        Streamlit.messages
          (Streamlit.session (snd (Streamlit.chat checkpoint question a)))
        = (Streamlit.messages (Streamlit.session a)
           ++ [ {| Streamlit.msg_role := "user";
                   Streamlit.msg_content := u |};
                {| Streamlit.msg_role := "assistant";
                   Streamlit.msg_content := r |} ])%list
        /\ (PyText.startswith Streamlit.test_command question = false ->
            u = question
            /\ exists shown,
                 fst (App.handle_question graph_builder checkpoint question
                        (Streamlit.thread_id (Streamlit.session a))
                        (Streamlit.heap a)) = Ok shown
                 /\ r = Streamlit.shown_text shown))
  /\ Streamlit.rag_system
       (Streamlit.session (snd (Streamlit.chat checkpoint question a)))
     = Some graph_builder
  /\ Streamlit.initialized
       (Streamlit.session (snd (Streamlit.chat checkpoint question a)))
     = true
  /\ Streamlit.thread_id
       (Streamlit.session (snd (Streamlit.chat checkpoint question a)))
     = Streamlit.thread_id (Streamlit.session a).
Proof.
  intros Hi Hr. unfold Streamlit.chat. rewrite Hi, Hr.
  destruct (PyText.startswith Streamlit.test_command question) eqn:Ecmd.
  - set (query := PyStr.strip _).
    set (a1 := Streamlit.show _ (Streamlit.append_message "user" _ a)).
    pose proof (test_retriever_shape query a1) as [Hn [Hs _]].
    destruct (Streamlit.test_retriever query a1) as [docs a2].
    cbn [fst snd] in Hn, Hs. subst docs.
    cbn [fst snd Streamlit.session Streamlit.append_message
         Streamlit.set_session Streamlit.show Streamlit.messages
         Streamlit.rag_system Streamlit.initialized Streamlit.thread_id].
    rewrite Hs. unfold a1.
    cbn [Streamlit.session Streamlit.append_message Streamlit.set_session
         Streamlit.show Streamlit.messages Streamlit.rag_system
         Streamlit.initialized Streamlit.thread_id].
    split; [reflexivity|]. split.
    + eexists _, _. split; [now rewrite <- app_assoc | discriminate].
    + now rewrite Hi, Hr.
  - cbn [Streamlit.session Streamlit.append_message Streamlit.set_session
         Streamlit.show Streamlit.thread_id Streamlit.heap].
    unfold App.handle_question, try_except, bind, ret.
    destruct (GraphBuilder.run graph_builder checkpoint question
                (Streamlit.thread_id (Streamlit.session a))
                (Streamlit.heap a)) as [[result|e] h'].
    + destruct (retrieved_docs result) as [[|d ds]|];
        cbn [fst snd Streamlit.session Streamlit.append_message
             Streamlit.set_session Streamlit.show Streamlit.messages
             Streamlit.rag_system Streamlit.initialized
             Streamlit.thread_id];
        (split; [reflexivity|]);
        (split; [|now rewrite Hr]);
        eexists _, _;
        (split; [now rewrite <- app_assoc|]);
        intros _; (split; [reflexivity|]);
        eexists; split; reflexivity.
    + cbn [fst snd Streamlit.session Streamlit.append_message
           Streamlit.set_session Streamlit.show Streamlit.messages
           Streamlit.rag_system Streamlit.initialized Streamlit.thread_id].
      split; [reflexivity|]. split; [|now rewrite Hr].
      eexists _, _. split; [now rewrite <- app_assoc|].
      intros _. split; [reflexivity|].
      eexists. split; reflexivity.
Qed.

Lemma chat_appends_two_messages_witness :
  fst (Streamlit.chat Samples.no_checkpoint "Quel temps fait-il ?"
         AppSamples.ready) = Ok tt
  /\ Streamlit.thread_id
       (Streamlit.session
          (snd (Streamlit.chat Samples.no_checkpoint "Quel temps fait-il ?"
                  AppSamples.ready)))
     = "cogniflow-1a2b3c4d".
Proof.
  destruct (@chat_appends_two_messages Samples.no_checkpoint
              "Quel temps fait-il ?" AppSamples.ready
              Samples.world_insufficient eq_refl eq_refl)
    as [H [_ [_ [_ Ht]]]].
  split; [exact H | exact Ht].
Defined.

(** A turn that raises: the page shows the question, the error text and
    the exception, and the history gains the error text. *)
Example chat_shows_the_exception :
  let a :=
    Streamlit.set_session
      {| Streamlit.rag_system := Some Samples.world_llm_down;
         Streamlit.initialized := true;
         Streamlit.messages := [];
         Streamlit.thread_id := "t1" |} AppSamples.ready in
  let r := Streamlit.chat Samples.no_checkpoint
             "What is the capital of France?" a in
  fst r = Ok tt
  /\ Streamlit.screen (snd r)
     = (Streamlit.screen AppSamples.ready
        ++ [Streamlit.ui_markdown "What is the capital of France?";
            Streamlit.ui_error
              "Désolé, une erreur technique est survenue. Veuillez vérifier les logs.";
            Streamlit.ui_exception Samples.connection_error])%list
  /\ Streamlit.messages (Streamlit.session (snd r))
     = [ {| Streamlit.msg_role := "user";
            Streamlit.msg_content := "What is the capital of France?" |};
         {| Streamlit.msg_role := "assistant";
            Streamlit.msg_content :=
              "Désolé, une erreur technique est survenue. Veuillez vérifier les logs." |} ].
Proof. repeat split; reflexivity. Qed.

(** X20.  The test command of the chat strips its argument and finds
    nothing: with a system in the session, for "/test-retriever " followed
    by an ASCII text in which the command does not occur again, the history
    gains
    the entry "Test retriever: " with that text stripped and the answer
    "Aucun document trouvé ou erreur.", and the heap is left alone: the
    retriever is not asked. *)
Theorem test_command_finds_nothing
    (checkpoint : string -> option RAGState) (rest : string)
    (a : Streamlit.AppState) (graph_builder : World) :
  Streamlit.initialized (Streamlit.session a) = true ->
  Streamlit.rag_system (Streamlit.session a) = Some graph_builder ->
  PyStr.is_ascii rest ->
  PyStr.contains Streamlit.test_command rest = false ->
  Streamlit.messages
    (Streamlit.session
       (snd (Streamlit.chat checkpoint (Streamlit.test_command ++ rest) a)))
  = (Streamlit.messages (Streamlit.session a)
     ++ [ {| Streamlit.msg_role := "user";
             Streamlit.msg_content :=
               "Test retriever: " ++ PyStr.strip rest |};
          {| Streamlit.msg_role := "assistant";
             Streamlit.msg_content :=
               "❌ Aucun document trouvé ou erreur." |} ])%list
  /\ Streamlit.heap
       (snd (Streamlit.chat checkpoint (Streamlit.test_command ++ rest) a))
     = Streamlit.heap a.
Proof.
  intros Hi Hr _ Hc. unfold Streamlit.chat. rewrite Hi, Hr.
  replace (PyText.startswith Streamlit.test_command
             (Streamlit.test_command ++ rest)) with true
    by (symmetry; apply prefix_iff; now exists rest).
  rewrite replace_prefix by discriminate.
  rewrite (@replace_absent Streamlit.test_command "" rest Hc).
  change ("" ++ rest) with rest.
  set (query := PyStr.strip rest).
  set (a1 := Streamlit.show _ (Streamlit.append_message "user" _ a)).
  pose proof (test_retriever_shape query a1) as [Hn [Hs Hh]].
  destruct (Streamlit.test_retriever query a1) as [docs a2].
  cbn [fst snd] in Hn, Hs, Hh. subst docs.
  cbn [fst snd Streamlit.session Streamlit.append_message
       Streamlit.set_session Streamlit.show Streamlit.messages
       Streamlit.heap].
  rewrite Hs, Hh. unfold a1.
  cbn [Streamlit.session Streamlit.append_message Streamlit.set_session
       Streamlit.show Streamlit.messages Streamlit.heap].
  split; [now rewrite <- app_assoc | reflexivity].
Qed.

Lemma test_command_finds_nothing_witness :
  Streamlit.messages
    (Streamlit.session
       (snd (Streamlit.chat Samples.no_checkpoint
               (Streamlit.test_command ++ " capital ") AppSamples.ready)))
  = (Streamlit.messages (Streamlit.session AppSamples.ready)
     ++ [ {| Streamlit.msg_role := "user";
             Streamlit.msg_content := "Test retriever: capital" |};
          {| Streamlit.msg_role := "assistant";
             Streamlit.msg_content :=
               "❌ Aucun document trouvé ou erreur." |} ])%list.
Proof.
  exact (proj1 (@test_command_finds_nothing Samples.no_checkpoint " capital "
                  AppSamples.ready Samples.world_insufficient
                  eq_refl eq_refl eq_refl eq_refl)).
Defined.
